(** * The bit-mask decoder of the Power BI production scraper

    A shallow embedding of the decoding half of [src/scraper/scraper.py]
    ([reverse_binary_16bit], [convert_timestamp], [extract_data_from_json],
    [process_row_with_binary_masks], [convert_processed_row_to_csv] and
    [process_data_with_binary_masks]) together with the properties the
    specification states about it.

    Python values are the values [response.json()] produces: [None],
    booleans, integers, floats, strings, lists and dictionaries.
    Dictionaries keep their insertion order, which the row locator
    depends on, so they are association lists.  Exceptions are explicit:
    a computation that can raise returns [exc A], and [try ... except]
    is [try_except]. *)

From Stdlib Require Import ZArith Lia Ascii String List DecimalString DecimalPos DecimalZ.
From Stdlib Require Import Floats.SpecFloat.
From stdpp Require Import base option list strings.

#[local] Set Warnings "-register-all".
Local Open Scope string_scope.
Local Open Scope list_scope.
Local Open Scope Z_scope.

(** ** Values *)

(** A Python float is an IEEE-754 binary64 datum ([spec_float] with
    precision 53 and maximal exponent 1024).  The keys of a dictionary
    are distinct, as in a decoded JSON object. *)
Inductive pyval : Type :=
| PNone
| PBool (b : bool)
| PInt (z : Z)
| PFloat (f : spec_float)
| PStr (s : string)
| PList (l : list pyval)
| PDict (d : list (string * pyval)).

Inductive pyexc : Type :=
| ValueError (msg : string)
| TypeError
| AttributeError
| KeyError
| IndexError
| OverflowError.

Inductive exc (A : Type) : Type :=
| Ok (a : A)
| Raise (e : pyexc).
Arguments Ok {A} a.
Arguments Raise {A} e.

#[global] Instance exc_ret : MRet exc := fun A a => Ok a.
#[global] Instance exc_bind : MBind exc := fun A B k m =>
  match m with
  | Ok a => k a
  | Raise e => Raise e
  end.

(** [try: body / except Exception: handler] (and the bare [except:]). *)
Definition try_except {A} (body : exc A) (handler : exc A) : exc A :=
  match body with
  | Ok a => Ok a
  | Raise _ => handler
  end.

Definition is_ok {A} (m : exc A) : bool :=
  match m with
  | Ok _ => true
  | Raise _ => false
  end.

(** ** Built-ins the decoder relies on *)

Definition float_is_zero (f : spec_float) : bool :=
  match f with
  | S754_zero _ => true
  | _ => false
  end.

(** Truth value testing: [if x:]. *)
Definition truthy (v : pyval) : bool :=
  match v with
  | PNone => false
  | PBool b => b
  | PInt z => negb (z =? 0)
  | PFloat f => negb (float_is_zero f)
  | PStr s => negb (String.eqb s EmptyString)
  | PList l => match l with [] => false | _ => true end
  | PDict d => match d with [] => false | _ => true end
  end.

(** [x is None] *)
Definition is_none (v : pyval) : bool :=
  match v with
  | PNone => true
  | _ => false
  end.

(** Lookup in a dictionary: the binding of the first occurrence of the key. *)
Fixpoint dict_get (d : list (string * pyval)) (k : string) : option pyval :=
  match d with
  | [] => None
  | (k', v) :: rest => if String.eqb k' k then Some v else dict_get rest k
  end.

(** [d.get(k, default)] on a dictionary. *)
Definition dict_get_default (d : list (string * pyval)) (k : string) (default : pyval) : pyval :=
  match dict_get d k with
  | Some v => v
  | None => default
  end.

(** [o.get(k, default)] on any value: only dictionaries have the method. *)
Definition py_get (o : pyval) (k : string) (default : pyval) : exc pyval :=
  match o with
  | PDict d => Ok (dict_get_default d k default)
  | _ => Raise AttributeError
  end.

(** ** Text

    Text is kept in UTF-8.  A character is a byte that is no
    continuation byte, with the continuation bytes that follow it;
    [len] counts characters and indexing selects one. *)
Definition continuation_byte (c : ascii) : bool :=
  let n := nat_of_ascii c in (128 <=? n)%nat && (n <? 192)%nat.

Fixpoint characters_from (first : ascii) (more : list ascii) (s : string) : list string :=
  match s with
  | EmptyString => [string_of_list_ascii (first :: rev more)]
  | String c rest =>
      if continuation_byte c then characters_from first (c :: more) rest
      else string_of_list_ascii (first :: rev more) :: characters_from c [] rest
  end.

Definition characters (s : string) : list string :=
  match s with
  | EmptyString => []
  | String c rest => characters_from c [] rest
  end.

(** The code point of a character: the payload of its first byte, then
    six bits of each continuation byte. *)
Definition code_point (ch : string) : Z :=
  match ch with
  | EmptyString => 0
  | String c rest =>
      let n := Z.of_nat (nat_of_ascii c) in
      let first :=
        if n <? 128 then n
        else if n <? 224 then Z.land n 31
        else if n <? 240 then Z.land n 15
        else Z.land n 7 in
      fold_left (fun cp b => 64 * cp + Z.land (Z.of_nat (nat_of_ascii b)) 63)
        (list_ascii_of_string rest) first
  end.

(** [len(o)] *)
Definition py_len (o : pyval) : exc Z :=
  match o with
  | PList l => Ok (Z.of_nat (List.length l))
  | PStr s => Ok (Z.of_nat (List.length (characters s)))
  | PDict d => Ok (Z.of_nat (List.length d))
  | _ => Raise TypeError
  end.

(** [o[i]] for an integer [i]; a negative index counts from the end.  The
    keys of a decoded JSON object are strings, so an integer key is never
    found in a dictionary. *)
Definition py_getitem (o : pyval) (i : Z) : exc pyval :=
  match o with
  | PList l =>
      let n := Z.of_nat (List.length l) in
      let j := if i <? 0 then i + n else i in
      if (0 <=? j) && (j <? n) then
        match l !! Z.to_nat j with
        | Some v => Ok v
        | None => Raise IndexError
        end
      else Raise IndexError
  | PStr s =>
      let n := Z.of_nat (List.length (characters s)) in
      let j := if i <? 0 then i + n else i in
      if (0 <=? j) && (j <? n) then
        match characters s !! Z.to_nat j with
        | Some ch => Ok (PStr ch)
        | None => Raise IndexError
        end
      else Raise IndexError
  | PDict _ => Raise KeyError
  | _ => Raise TypeError
  end.

(** The digits of ASCII, as [int] reads one character of a binary
    numeral. *)
Definition ascii_isdigit (c : ascii) : bool :=
  let n := nat_of_ascii c in (48 <=? n)%nat && (n <=? 57)%nat.

(** What the Unicode database says of a character: no digit, a digit
    that is no decimal digit (a superscript, a circled digit), or a
    decimal digit with its value from 0 to 9. *)
Inductive digit_class : Type :=
| NoDigit
| DigitOnly
| Decimal (d : N).

(** The interpreter, as far as text and integers depend on it: the
    class of each character beyond ASCII in its Unicode database, and
    its bound on the digits of a decimal numeral
    ([sys.get_int_max_str_digits()]: 0 when there is none). *)
Record interpreter : Type := {
  unicode_digit : Z -> digit_class;
  int_max_str_digits : nat
}.

Definition char_digit (host : interpreter) (ch : string) : digit_class :=
  let cp := code_point ch in
  if cp <? 128 then
    if (48 <=? cp) && (cp <=? 57) then Decimal (Z.to_N (cp - 48)) else NoDigit
  else unicode_digit host cp.

(** [s.isdigit()]: [s] has a character, and all its characters are
    digits. *)
Definition str_isdigit (host : interpreter) (s : string) : bool :=
  match characters s with
  | [] => false
  | chars =>
      forallb (fun ch => match char_digit host ch with
                         | NoDigit => false
                         | DigitOnly | Decimal _ => true
                         end) chars
  end.

(** The values of the characters when all of them are decimal digits. *)
Fixpoint decimal_digits (host : interpreter) (chars : list string) : option (list N) :=
  match chars with
  | [] => Some []
  | ch :: rest =>
      match char_digit host ch, decimal_digits host rest with
      | Decimal d, Some ds => Some (d :: ds)
      | _, _ => None
      end
  end.

(** The number a sequence of decimal digits spells. *)
Definition numeral_value (ds : list N) : Z :=
  fold_left (fun acc d => 10 * acc + Z.of_N d) ds 0.

(** The bound on numerals: it is tested for numerals of more than 640
    digits, and met when it is set and the numeral has more digits than
    it allows; zeros in front count. *)
Definition exceeds_max_str_digits (host : interpreter) (digits : nat) : bool :=
  (640 <? digits)%nat && (0 <? int_max_str_digits host)%nat
  && (int_max_str_digits host <? digits)%nat.

(** [int(s)] on a string [s] that [isdigit] accepts.  Such a string has
    no sign, no blank and no underscore, so [int] reads it when every
    character is a decimal digit and the numeral is within the bound,
    and raises [ValueError] otherwise. *)
Definition int_of_digits (host : interpreter) (s : string) : exc Z :=
  match characters s with
  | [] => Raise (ValueError "invalid literal for int() with base 10")
  | chars =>
      match decimal_digits host chars with
      | None => Raise (ValueError "invalid literal for int() with base 10")
      | Some ds =>
          if exceeds_max_str_digits host (length ds) then
            Raise (ValueError "Exceeds the limit for integer string conversion")
          else Ok (numeral_value ds)
      end
  end.

(** [int(f)] on a float: truncation toward zero; [nan] and the
    infinities raise. *)
Definition int_of_float (f : spec_float) : exc Z :=
  match f with
  | S754_zero _ => Ok 0
  | S754_nan => Raise (ValueError "cannot convert float NaN to integer")
  | S754_infinity _ => Raise OverflowError
  | S754_finite s m e =>
      let a := if 0 <=? e then Z.shiftl (Z.pos m) e else Z.shiftr (Z.pos m) (- e) in
      Ok (if s then - a else a)
  end.

(** [str(k)] for an integer.  The bound on numerals holds for [str]
    too and is not met there: the integers of a response were read by
    [int] under the same bound, the integral part of a float has 309
    digits at most, and the bound is not tested below 641 digits. *)
Definition str_of_int (k : Z) : string := NilZero.string_of_int (Z.to_int k).

(** [for x in items: st = body st x], stopping at the first exception. *)
Fixpoint for_each {S A : Type} (body : S -> A -> exc S) (items : list A) (st : S) : exc S :=
  match items with
  | [] => Ok st
  | x :: rest =>
      match body st x with
      | Ok st' => for_each body rest st'
      | Raise e => Raise e
      end
  end.

(** [seq[i]] on a list known to the code as a list. *)
Definition list_index {A : Type} (l : list A) (i : nat) : exc A :=
  match l !! i with
  | Some v => Ok v
  | None => Raise IndexError
  end.

(** ** [reverse_binary_16bit] *)

(** The binary numeral of a positive number, most significant digit first,
    in front of [acc]. *)
Fixpoint bin_digits_pos (p : positive) (acc : list ascii) : list ascii :=
  match p with
  | xH => "1"%char :: acc
  | xO q => bin_digits_pos q ("0"%char :: acc)
  | xI q => bin_digits_pos q ("1"%char :: acc)
  end.

Definition bin_digits (z : Z) : list ascii :=
  match z with
  | Z0 => ["0"%char]
  | Zpos p | Zneg p => bin_digits_pos p []
  end.

(** [format(z, '016b')]: the binary numeral of [|z|], after a minus sign
    when [z] is negative, filled with zeros between sign and digits up to
    sixteen characters; longer numerals are not cut. *)
Definition format_016b (z : Z) : list ascii :=
  let sign := if z <? 0 then ["-"%char] else [] in
  let digits := bin_digits z in
  sign ++ replicate (16 - length sign - length digits) "0"%char ++ digits.

Definition reverse_binary_16bit (value : pyval) : exc (list ascii) :=
  match value with
  | PNone => Ok (replicate 16 "0"%char)
  | PInt z => Ok (rev (format_016b z))
  | PBool b => Ok (rev (format_016b (Z.b2z b)))
  | PFloat _ | PStr _ => Raise (ValueError "Unknown format code 'b'")
  | PList _ | PDict _ => Raise TypeError
  end.

(** [int(binary[col_idx])] *)
Definition bit_at (binary : list ascii) (col_idx : nat) : exc Z :=
  match binary !! col_idx with
  | None => Raise IndexError
  | Some c =>
      if ascii_isdigit c then Ok (Z.of_nat (nat_of_ascii c) - 48)
      else Raise (ValueError "invalid literal for int() with base 10")
  end.

(** ** Numbers in [convert_timestamp] *)

(** [x > n] between a float and an integer compares the exact values. *)
Definition float_gt_int (f : spec_float) (n : Z) : bool :=
  match f with
  | S754_nan => false
  | S754_infinity s => negb s
  | S754_zero _ => n <? 0
  | S754_finite s m e =>
      let a := if s then Z.neg m else Z.pos m in
      if 0 <=? e then n <? Z.shiftl a e else Z.shiftl n (- e) <? a
  end.

(** [v > n] for an integer literal [n]: ordering is defined between
    numbers only. *)
Definition py_gt_int (v : pyval) (n : Z) : exc bool :=
  match v with
  | PInt z => Ok (n <? z)
  | PBool b => Ok (n <? Z.b2z b)
  | PFloat f => Ok (float_gt_int f n)
  | PNone | PStr _ | PList _ | PDict _ => Raise TypeError
  end.

(** [z / 1000] on an integer: the quotient rounded once to binary64. *)
Definition int_truediv_1000 (z : Z) : exc spec_float :=
  match z with
  | Z0 => Ok (S754_zero false)
  | _ =>
      let '(q, e, l) := SFdiv_core_binary 53 1024 (Z.abs z) 0 1000 0 in
      match binary_round_aux 53 1024 (z <? 0) q e l with
      | S754_infinity _ => Raise OverflowError
      | f => Ok f
      end
  end.

(** [v / 1000] *)
Definition truediv_1000 (v : pyval) : exc spec_float :=
  match v with
  | PInt z => int_truediv_1000 z
  | PBool b => int_truediv_1000 (Z.b2z b)
  | PFloat f => Ok (SFdiv 53 1024 f (S754_finite false 1000 0))
  | PNone | PStr _ | PList _ | PDict _ => Raise TypeError
  end.

(** ** The decoder *)

Definition columns : list string :=
  ["G0"; "G1"; "G2"; "G3"; "G4"; "G5"; "G6"; "G7"; "G8"; "G9"; "G10";
   "M0"; "M1"; "M2"; "M3"].

(** How the body of the loop leaves the consuming branch: through the
    increment of [value_index], or through the [continue] in front of it. *)
Inductive consumed : Type :=
| Advance (v : pyval)
| Continue (v : pyval).

Definition placeholder (index : Z) : string :=
  "Index_" +:+ str_of_int index +:+ "_OutOfRange".

(** [dict_values[index] if 0 <= index < len(dict_values) else f"Index_..."];
    the chained comparison does not evaluate [len] when [index] is negative. *)
Definition map_index (dict_values : pyval) (index : Z) : exc pyval :=
  if 0 <=? index then
    n ← py_len dict_values;
    if index <? n then py_getitem dict_values index
    else Ok (PStr (placeholder index))
  else Ok (PStr (placeholder index)).

Section Decoder.

(** The interpreter is a parameter, and two calls into the Python
    library are taken as they are: [float(s)] on a string, and
    [datetime.fromtimestamp(x).strftime('%Y-%m-%d')], whose result
    depends on the time zone of the host. *)
Variable host : interpreter.
Variable float_of_str : string -> exc spec_float.
Variable fromtimestamp_ymd : pyval -> exc string.

(** The [if]/[elif]/[else] that converts the raw entry to an index:
    [None] is the [else] branch. *)
Definition index_of_raw (raw_value : pyval) : option (exc Z) :=
  match raw_value with
  | PStr s => if str_isdigit host s then Some (int_of_digits host s) else None
  | PInt z => Some (Ok z)
  | PBool b => Some (Ok (Z.b2z b))
  | PFloat f => Some (int_of_float f)
  | PNone | PList _ | PDict _ => None
  end.

(** The [try] statement of the dictionary mapping. *)
Definition map_dictionary (dict_values raw_value : pyval) : exc consumed :=
  try_except
    (match index_of_raw raw_value with
     | None => Ok (Continue raw_value)
     | Some coerced =>
         index ← coerced;
         v ← map_index dict_values index;
         Ok (Advance v)
     end)
    (Ok (Advance raw_value)).

(** [if isinstance(timestamp, str): timestamp = float(timestamp)] *)
Definition timestamp_number (timestamp : pyval) : exc pyval :=
  match timestamp with
  | PStr s => f ← float_of_str s; Ok (PFloat f)
  | _ => Ok timestamp
  end.

(** The [if]/[elif] on the magnitude: [Some d] is a [return] of the
    date string, [None] leaves the statement without returning. *)
Definition timestamp_date (timestamp : pyval) : exc (option pyval) :=
  millis ← py_gt_int timestamp 1000000000000;
  if millis : bool then
    timestamp_seconds ← truediv_1000 timestamp;
    d ← fromtimestamp_ymd (PFloat timestamp_seconds);
    Ok (Some (PStr d))
  else
    seconds ← py_gt_int timestamp 1000000000;
    if seconds : bool then
      d ← fromtimestamp_ymd timestamp;
      Ok (Some (PStr d))
    else Ok None.

(** The local [timestamp] is rebound by the conversion from a string, so
    what [return timestamp] gives back after the [try] is the converted
    number once the conversion went through. *)
Definition convert_timestamp (timestamp : pyval) : exc pyval :=
  if truthy timestamp then
    match timestamp_number timestamp with
    | Raise _ => Ok timestamp
    | Ok number =>
        try_except
          (r ← timestamp_date number;
           match r with
           | Some d => Ok d
           | None => Ok number
           end)
          (Ok number)
    end
  else Ok timestamp.

(** One iteration of [for col_idx in range(15)], on the pair of
    [result] and [value_index]. *)
Definition process_column (c_values : pyval) (r_binary sigma_binary : list ascii)
    (previous_row : option (list pyval)) (dictionaries : list (string * pyval))
    (st : list pyval * nat) (col_idx : nat) : exc (list pyval * nat) :=
  let '(result, value_index) := st in
  column_name ← list_index columns col_idx;
  r_bit ← bit_at r_binary col_idx;
  sigma_bit ← bit_at sigma_binary col_idx;
  if r_bit =? 1 then
    match previous_row with
    | Some ((_ :: _) as previous) =>
        v ← list_index previous col_idx;
        Ok (<[col_idx := v]> result, value_index)
    | Some [] | None => Ok (<[col_idx := PNone]> result, value_index)
    end
  else if sigma_bit =? 1 then Ok (<[col_idx := PNone]> result, value_index)
  else
    n ← py_len c_values;
    if Z.of_nat value_index <? n then
      raw_value ← py_getitem c_values (Z.of_nat value_index);
      if String.eqb column_name "G0" then
        v ← convert_timestamp raw_value;
        Ok (<[col_idx := v]> result, S value_index)
      else
        match dict_get dictionaries column_name with
        | Some dict_values =>
            c ← map_dictionary dict_values raw_value;
            match c with
            | Advance v => Ok (<[col_idx := v]> result, S value_index)
            | Continue v => Ok (<[col_idx := v]> result, value_index)
            end
        | None => Ok (<[col_idx := raw_value]> result, S value_index)
        end
    else Ok (<[col_idx := PNone]> result, value_index).

Definition process_columns (row_data : pyval) (previous_row : option (list pyval))
    (dictionaries : list (string * pyval)) : exc (list pyval * nat) :=
  c_values ← py_get row_data "C" (PList []);
  r_value ← py_get row_data "R" (PInt 0);
  sigma_value ← py_get row_data "Ø" (PInt 0);
  r_binary ← reverse_binary_16bit r_value;
  sigma_binary ← reverse_binary_16bit sigma_value;
  for_each (process_column c_values r_binary sigma_binary previous_row dictionaries)
    (seq 0 15) (replicate 15 PNone, 0%nat).

Definition process_row_with_binary_masks (row_data : pyval)
    (previous_row : option (list pyval)) (dictionaries : list (string * pyval))
    : exc (list pyval) :=
  st ← process_columns row_data previous_row dictionaries;
  Ok (fst st).

End Decoder.

(** ** The projector *)

(** The output record: the keys of [csv_row], in the order of the literal. *)
Record csv_row : Type := {
  scrape_datetime : pyval;
  date : pyval;
  installation : pyval;
  oil_production : pyval;
  gas_production : pyval;
  oil_equivalents_boe : pyval;
  operator : pyval;
  type : pyval;
  estado : pyval;
  city : pyval;
  atendimento_campo : pyval;
  campo : pyval;
  quantity : pyval;
  code : pyval;
  status : pyval
}.

(** [x if x else ''] *)
Definition or_empty (x : pyval) : pyval :=
  if truthy x then x else PStr EmptyString.

(** [x if x is not None else ''] *)
Definition not_none_or_empty (x : pyval) : pyval :=
  if is_none x then PStr EmptyString else x.

(** The dictionary literal of [convert_processed_row_to_csv]. *)
Definition build_csv_row (processed_row : list pyval) (timestamp : pyval) : exc csv_row :=
  g0 ← list_index processed_row 0;
  g1 ← list_index processed_row 1;
  m0 ← list_index processed_row 11;
  m1 ← list_index processed_row 12;
  m3 ← list_index processed_row 14;
  g2 ← list_index processed_row 2;
  g3 ← list_index processed_row 3;
  g4 ← list_index processed_row 4;
  g5 ← list_index processed_row 5;
  g6 ← list_index processed_row 6;
  g7 ← list_index processed_row 7;
  m2 ← list_index processed_row 13;
  g9 ← list_index processed_row 9;
  g10 ← list_index processed_row 10;
  Ok {| scrape_datetime := timestamp;
        date := or_empty g0;
        installation := or_empty g1;
        oil_production := not_none_or_empty m0;
        gas_production := not_none_or_empty m1;
        oil_equivalents_boe := not_none_or_empty m3;
        operator := or_empty g2;
        type := or_empty g3;
        estado := or_empty g4;
        city := or_empty g5;
        atendimento_campo := or_empty g6;
        campo := or_empty g7;
        quantity := not_none_or_empty m2;
        code := not_none_or_empty g9;
        status := not_none_or_empty g10 |}.

(** [None] is the rejection of a row without a valid date. *)
Definition convert_processed_row_to_csv (processed_row : list pyval) (timestamp : pyval)
    : exc (option csv_row) :=
  csv ← build_csv_row processed_row timestamp;
  if truthy (date csv) then Ok (Some csv) else Ok None.

(** ** The row locator *)

(** ['C' in obj and isinstance(obj['C'], list)] *)
Definition has_c_list (d : list (string * pyval)) : bool :=
  match dict_get d "C" with
  | Some (PList _) => true
  | _ => false
  end.

(** The closure [find_rows], with the list [data_rows] it appends to
    passed through. *)
Fixpoint find_rows (obj : pyval) (data_rows : list pyval) : list pyval :=
  match obj with
  | PDict d =>
      let data_rows := if has_c_list d then data_rows ++ [obj] else data_rows in
      (fix values (kvs : list (string * pyval)) (data_rows : list pyval) : list pyval :=
         match kvs with
         | [] => data_rows
         | (_, v) :: rest => values rest (find_rows v data_rows)
         end) d data_rows
  | PList l =>
      (fix items (l : list pyval) (data_rows : list pyval) : list pyval :=
         match l with
         | [] => data_rows
         | item :: rest => items rest (find_rows item data_rows)
         end) l data_rows
  | _ => data_rows
  end.

(** [row.get('Ø') is not None or row.get('R') is not None]; every
    element of [data_rows] is a dictionary. *)
Definition has_mask (row : pyval) : bool :=
  match row with
  | PDict d =>
      negb (is_none (dict_get_default d "Ø" PNone))
      || negb (is_none (dict_get_default d "R" PNone))
  | _ => false
  end.

(** ** [extract_data_from_json] *)

Definition dictionary_slots : list (string * string) :=
  [("G1", "D0"); ("G2", "D1"); ("G3", "D2"); ("G4", "D3"); ("G5", "D4");
   ("G6", "D5"); ("G7", "D6"); ("G8", "D7"); ("G9", "D8"); ("G10", "D9")].

(** The literal that builds [dictionaries], entry after entry. *)
Fixpoint build_dictionaries (value_dicts : pyval) (slots : list (string * string))
    : exc (list (string * pyval)) :=
  match slots with
  | [] => Ok []
  | (g, d) :: rest =>
      table ← py_get value_dicts d (PList []);
      tables ← build_dictionaries value_dicts rest;
      Ok ((g, table) :: tables)
  end.

Definition extract_data_from_json (json_data : pyval)
    : exc (list pyval * list (string * pyval) * pyval) :=
  results ← py_get json_data "results" (PList []);
  if negb (truthy results) then Raise (ValueError "No results found in JSON data")
  else
    first ← py_getitem results 0;
    result ← py_get first "result" (PDict []);
    result_data ← py_get result "data" (PDict []);
    timestamp ← py_get result_data "timestamp" (PStr EmptyString);
    dsr ← py_get result_data "dsr" (PDict []);
    ds_list ← py_get dsr "DS" (PList []);
    if negb (truthy ds_list) then
      Raise (ValueError "No DS data found in JSON structure - PowerBI session may not be established")
    else
      ds0 ← py_getitem ds_list 0;
      value_dicts ← py_get ds0 "ValueDicts" (PDict []);
      dictionaries ← build_dictionaries value_dicts dictionary_slots;
      let data_rows := find_rows json_data [] in
      let filtered_rows := List.filter has_mask data_rows in
      Ok (filtered_rows, dictionaries, timestamp).

Section Driver.

Variable host : interpreter.
Variable float_of_str : string -> exc spec_float.
Variable fromtimestamp_ymd : pyval -> exc string.

(** One iteration of the loop of [process_data_with_binary_masks], on
    the pair of [processed_rows] and [csv_data]. *)
Definition process_data_row (dictionaries : list (string * pyval)) (timestamp : pyval)
    (st : list (list pyval) * list csv_row) (row_data : pyval)
    : exc (list (list pyval) * list csv_row) :=
  let '(processed_rows, csv_data) := st in
  let previous_row := last processed_rows in
  processed_row ← process_row_with_binary_masks host float_of_str fromtimestamp_ymd
                    row_data previous_row dictionaries;
  let processed_rows := processed_rows ++ [processed_row] in
  csv ← convert_processed_row_to_csv processed_row timestamp;
  match csv with
  | Some r => Ok (processed_rows, csv_data ++ [r])
  | None => Ok (processed_rows, csv_data)
  end.

Definition process_data_with_binary_masks (data_rows : list pyval)
    (dictionaries : list (string * pyval)) (timestamp : pyval) : exc (list csv_row) :=
  st ← for_each (process_data_row dictionaries timestamp) data_rows ([], []);
  Ok (snd st).

(** [process_json_to_csv] up to the rows it hands to the CSV writer. *)
Definition process_json_to_csv (json_data : pyval) : exc (list csv_row) :=
  extracted ← extract_data_from_json json_data;
  let '(data_rows, dictionaries, timestamp) := extracted in
  process_data_with_binary_masks data_rows dictionaries timestamp.

End Driver.

(** ** A reference host

    An instance of the interpreter and of the two library calls, to run
    the decoder on concrete inputs: a host whose local time is UTC,
    which renders the whole seconds of a timestamp, and a [float] that
    reads plain decimal literals (sign, digits, fraction, exponent,
    surrounding blanks). *)

(** The interpreter of the reference host: the digits of Unicode 14.0.0
    (the database of CPython 3.11) and the bound of 4300 digits that
    CPython sets unless told otherwise.  The decimal digits beyond ASCII
    come in runs of ten, from the digit zero to the digit nine of a
    script; [decimal_runs] lists the first code point of each run, and
    [other_digits] the ranges of the digits that are no decimal digits. *)
Definition decimal_runs : list Z :=
  [1632; 1776; 1984; 2406; 2534; 2662; 2790; 2918; 3046; 3174; 3302; 3430; 3558; 3664;
   3792; 3872; 4160; 4240; 6112; 6160; 6470; 6608; 6784; 6800; 6992; 7088; 7232; 7248;
   42528; 43216; 43264; 43472; 43504; 43600; 44016; 65296; 66720; 68912; 69734; 69872;
   69942; 70096; 70384; 70736; 70864; 71248; 71360; 71472; 71904; 72016; 72784; 73040;
   73120; 92768; 92864; 93008; 120782; 120792; 120802; 120812; 120822; 123200; 123632;
   125264; 130032].

Definition other_digits : list (Z * Z) :=
  [(178, 179); (185, 185); (4969, 4977); (6618, 6618); (8304, 8304); (8308, 8313);
   (8320, 8329); (9312, 9320); (9332, 9340); (9352, 9360); (9450, 9450); (9461, 9469);
   (9471, 9471); (10102, 10110); (10112, 10120); (10122, 10130); (68160, 68163);
   (69216, 69224); (69714, 69722); (127232, 127242)].

Definition ref_unicode_digit (cp : Z) : digit_class :=
  match find (fun first => (first <=? cp) && (cp <? first + 10)) decimal_runs with
  | Some first => Decimal (Z.to_N (cp - first))
  | None =>
      if existsb (fun r => (fst r <=? cp) && (cp <=? snd r)) other_digits then DigitOnly
      else NoDigit
  end.

Definition ref_interpreter : interpreter :=
  {| unicode_digit := ref_unicode_digit; int_max_str_digits := 4300 |}.

Definition zfill (width : nat) (s : string) : string :=
  string_of_list_ascii (replicate (width - String.length s) "0"%char) +:+ s.

(** The proleptic Gregorian date of a day number counted from 1970-01-01. *)
Definition civil_from_days (days : Z) : Z * Z * Z :=
  let z := days + 719468 in
  let era := z / 146097 in
  let doe := z - era * 146097 in
  let yoe := (doe - doe / 1460 + doe / 36524 - doe / 146096) / 365 in
  let doy := doe - (365 * yoe + yoe / 4 - yoe / 100) in
  let mp := (5 * doy + 2) / 153 in
  let d := doy - (153 * mp + 2) / 5 + 1 in
  let m := if mp <? 10 then mp + 3 else mp - 9 in
  let y := yoe + era * 400 + (if m <=? 2 then 1 else 0) in
  (y, m, d).

Definition floor_of_float (f : spec_float) : exc Z :=
  match f with
  | S754_zero _ => Ok 0
  | S754_nan => Raise (ValueError "cannot convert float NaN to integer")
  | S754_infinity _ => Raise OverflowError
  | S754_finite s m e => Ok (Z.shiftl (if s then Z.neg m else Z.pos m) e)
  end.

Definition utc_fromtimestamp_ymd (x : pyval) : exc string :=
  seconds ← match x with
            | PInt z => Ok z
            | PBool b => Ok (Z.b2z b)
            | PFloat f => floor_of_float f
            | PNone | PStr _ | PList _ | PDict _ => Raise TypeError
            end;
  let '(y, m, d) := civil_from_days (seconds / 86400) in
  if (1 <=? y) && (y <=? 9999) then
    Ok (zfill 4 (str_of_int y) +:+ "-" +:+ zfill 2 (str_of_int m) +:+ "-" +:+ zfill 2 (str_of_int d))
  else Raise (ValueError "year is out of range").

Definition is_blank (c : ascii) : bool :=
  let n := nat_of_ascii c in ((9 <=? n)%nat && (n <=? 13)%nat) || (n =? 32)%nat.

Fixpoint lstrip (s : list ascii) : list ascii :=
  match s with
  | c :: rest => if is_blank c then lstrip rest else s
  | [] => []
  end.

Definition strip (s : list ascii) : list ascii := rev (lstrip (rev (lstrip s))).

(** The longest prefix of digits, and what follows it. *)
Fixpoint span_digits (s : list ascii) : list ascii * list ascii :=
  match s with
  | c :: rest =>
      if ascii_isdigit c then let '(ds, tl) := span_digits rest in (c :: ds, tl)
      else ([], s)
  | [] => ([], [])
  end.

Definition take_sign (s : list ascii) : bool * list ascii :=
  match s with
  | c :: rest =>
      if Ascii.eqb c "-"%char then (true, rest)
      else if Ascii.eqb c "+"%char then (false, rest)
      else (false, s)
  | [] => (false, [])
  end.

Definition digits_value (ds : list ascii) : Z :=
  fold_left (fun acc c => 10 * acc + (Z.of_nat (nat_of_ascii c) - 48)) ds 0.

(** [m * 10^e10] rounded to binary64. *)
Definition decimal_to_float (negative : bool) (m : Z) (e10 : Z) : spec_float :=
  if m =? 0 then S754_zero negative
  else if 0 <=? e10 then
    binary_normalize 53 1024 ((if negative then - m else m) * 10 ^ e10) 0 false
  else
    let '(q, e, l) := SFdiv_core_binary 53 1024 m 0 (10 ^ (- e10)) 0 in
    binary_round_aux 53 1024 negative q e l.

Definition ref_float_of_str (s : string) : exc spec_float :=
  let invalid := Raise (ValueError "could not convert string to float") in
  let '(negative, s1) := take_sign (strip (list_ascii_of_string s)) in
  let '(int_part, s2) := span_digits s1 in
  let '(frac_part, s3) :=
    match s2 with
    | c :: rest => if Ascii.eqb c "."%char then span_digits rest else ([], s2)
    | [] => ([], [])
    end in
  match int_part ++ frac_part with
  | [] => invalid
  | mantissa =>
      let scale := - Z.of_nat (length frac_part) in
      match s3 with
      | [] => Ok (decimal_to_float negative (digits_value mantissa) scale)
      | c :: rest =>
          if Ascii.eqb c "e"%char || Ascii.eqb c "E"%char then
            let '(exp_negative, s4) := take_sign rest in
            match span_digits s4 with
            | ((_ :: _) as ds, []) =>
                let e := if exp_negative : bool then - digits_value ds else digits_value ds in
                Ok (decimal_to_float negative (digits_value mantissa) (scale + e))
            | _ => invalid
            end
          else invalid
      end
  end.

(** ** Notions of the specification *)

(** Bit [i] of a mask, counted from the least significant one.  The
    numeral [format] prints is that of the absolute value, so for the
    masks the service sends (non-negative) this is bit [i] of the mask. *)
Definition mask_bit (mask : pyval) (i : nat) : bool :=
  match mask with
  | PInt z => Z.testbit (Z.abs z) (Z.of_nat i)
  | PBool b => Z.testbit (Z.b2z b) (Z.of_nat i)
  | _ => false
  end.

(** A mask the decoder can read: an integer, or [null]. *)
Definition is_mask (v : pyval) : bool :=
  match v with
  | PNone | PInt _ | PBool _ => true
  | PFloat _ | PStr _ | PList _ | PDict _ => false
  end.

(** A row node: a mapping whose [C] is a sequence and whose masks, where
    present, are readable. *)
Definition row_node (row : pyval) : Prop :=
  exists d c_values,
    row = PDict d /\ dict_get d "C" = Some (PList c_values)
    /\ is_mask (dict_get_default d "R" (PInt 0)) = true
    /\ is_mask (dict_get_default d "Ø" (PInt 0)) = true.

(** All nodes of a tree in depth-first encounter order: a node, then the
    nodes below each of its children from first to last. *)
Fixpoint subnodes (obj : pyval) : list pyval :=
  obj ::
  match obj with
  | PDict d =>
      (fix values (kvs : list (string * pyval)) : list pyval :=
         match kvs with
         | [] => []
         | (_, v) :: rest => subnodes v ++ values rest
         end) d
  | PList l =>
      (fix items (l : list pyval) : list pyval :=
         match l with
         | [] => []
         | item :: rest => subnodes item ++ items rest
         end) l
  | _ => []
  end.

(** A node that carries a sparse value sequence. *)
Definition is_candidate (obj : pyval) : bool :=
  match obj with
  | PDict d => has_c_list d
  | _ => false
  end.

Section BatchSpec.

Variable host : interpreter.
Variable float_of_str : string -> exc spec_float.
Variable fromtimestamp_ymd : pyval -> exc string.
Variable dictionaries : list (string * pyval).
Variable timestamp : pyval.

(** The batch driver as the specification words it: decode the row with
    the register as context, project, collect the record unless it is
    rejected, and go on with the decoded row in the register. *)
Fixpoint batch_from (register : option (list pyval)) (rows : list pyval)
    : exc (list csv_row) :=
  match rows with
  | [] => Ok []
  | row :: rest =>
      decoded ← process_row_with_binary_masks host float_of_str fromtimestamp_ymd
                  row register dictionaries;
      record ← convert_processed_row_to_csv decoded timestamp;
      records ← batch_from (Some decoded) rest;
      Ok (match record with
          | Some r => r :: records
          | None => records
          end)
  end.

(** The decoded positional rows alone, each decoded against the one
    before it. *)
Fixpoint decoded_from (register : option (list pyval)) (rows : list pyval)
    : exc (list (list pyval)) :=
  match rows with
  | [] => Ok []
  | row :: rest =>
      decoded ← process_row_with_binary_masks host float_of_str fromtimestamp_ymd
                  row register dictionaries;
      others ← decoded_from (Some decoded) rest;
      Ok (decoded :: others)
  end.

(** The record of a decoded row, when the projector accepts it. *)
Definition accepted (decoded : list pyval) : option csv_row :=
  match convert_processed_row_to_csv decoded timestamp with
  | Ok (Some r) => Some r
  | _ => None
  end.

End BatchSpec.

(** ** Auxiliary notions for the proofs *)

(** The binary numeral of a positive number, least significant digit first. *)
Fixpoint lsb_digits (p : positive) : list ascii :=
  match p with
  | xH => ["1"%char]
  | xO q => "0"%char :: lsb_digits q
  | xI q => "1"%char :: lsb_digits q
  end.

Definition bit_char (b : bool) : ascii := if b then "1"%char else "0"%char.

(** The slot of a positional row, [None] beyond its end. *)
Definition slot (row : list pyval) (i : nat) : pyval :=
  match row !! i with
  | Some v => v
  | None => PNone
  end.

(** What a measure field shows of its slot. *)
Definition measure_rendering (source field : pyval) : Prop :=
  (field = PStr EmptyString <-> source = PNone \/ source = PStr EmptyString)
  /\ (source <> PNone -> field = source).

(** What a field guarded by truthiness shows of its slot. *)
Definition truthy_rendering (source field : pyval) : Prop :=
  (truthy source = false -> field = PStr EmptyString)
  /\ (truthy source = true -> field = source).

(** What a field guarded by [is not None] shows of its slot. *)
Definition non_null_rendering (source field : pyval) : Prop :=
  (source = PNone -> field = PStr EmptyString)
  /\ (source <> PNone -> field = source).

(** The context a repeated slot copies from. *)
Definition inherited (previous_row : option (list pyval)) (i : nat) : pyval :=
  match previous_row with
  | Some previous => slot previous i
  | None => PNone
  end.

(** A register the batch driver can hold: empty, or a full positional row. *)
Definition register_ok (previous_row : option (list pyval)) : Prop :=
  match previous_row with
  | Some previous => length previous = 15%nat
  | None => True
  end.

(** Induction on values, with the hypothesis for every element of a list
    and every value of a dictionary. *)
Section PyvalInduction.

Variable P : pyval -> Prop.
Hypothesis HNone : P PNone.
Hypothesis HBool : forall b, P (PBool b).
Hypothesis HInt : forall z, P (PInt z).
Hypothesis HFloat : forall f, P (PFloat f).
Hypothesis HStr : forall s, P (PStr s).
Hypothesis HList : forall l, Forall P l -> P (PList l).
Hypothesis HDict : forall d, Forall (fun kv => P (snd kv)) d -> P (PDict d).

Fixpoint pyval_nested_ind (v : pyval) : P v :=
  match v with
  | PNone => HNone
  | PBool b => HBool b
  | PInt z => HInt z
  | PFloat f => HFloat f
  | PStr s => HStr s
  | PList l =>
      HList l
        ((fix items (l : list pyval) : Forall P l :=
            match l with
            | [] => List.Forall_nil P
            | x :: rest => @List.Forall_cons _ P x rest (pyval_nested_ind x) (items rest)
            end) l)
  | PDict d =>
      HDict d
        ((fix values (d : list (string * pyval)) : Forall (fun kv => P (snd kv)) d :=
            match d with
            | [] => List.Forall_nil _
            | kv :: rest =>
                @List.Forall_cons _ (fun kv => P (snd kv)) kv rest
                  (pyval_nested_ind (snd kv)) (values rest)
            end) d)
  end.

End PyvalInduction.

Section IndexSpec.

Variable host : interpreter.

(** The raw entries the mapping takes for an index, as the
    specification is amended: an integer stands for itself, a boolean
    for 0 or 1, a float for its integral part when it has one, and a
    string of digits for the number it spells when [int] reads it.
    Nothing else stands for an index. *)
Inductive index_reading : pyval -> Z -> Prop :=
| reading_int (z : Z) : index_reading (PInt z) z
| reading_bool (b : bool) : index_reading (PBool b) (Z.b2z b)
| reading_float (f : spec_float) (k : Z) :
    int_of_float f = Ok k -> index_reading (PFloat f) k
| reading_digits (s : string) (k : Z) :
    str_isdigit host s = true -> int_of_digits host s = Ok k -> index_reading (PStr s) k.

(** The value a dictionary column holds for the raw entry it reads from
    a table that is a list. *)
Definition resolve_index (table : list pyval) (raw_value : pyval) : pyval :=
  match index_of_raw host raw_value with
  | Some (Ok k) =>
      if (0 <=? k) && (k <? Z.of_nat (length table)) then slot table (Z.to_nat k)
      else PStr (placeholder k)
  | Some (Raise _) | None => raw_value
  end.

End IndexSpec.

(** Modelled from the specification, where a raw entry coerces to an
    integer: the integer [int] makes of the entry.  A number gives
    its integral part, and a string a decimal numeral of ASCII digits
    that may carry a sign (the blanks and underscores [int] allows as
    well are left out). *)
Definition coerces_to_integer (raw_value : pyval) : option Z :=
  match raw_value with
  | PInt z => Some z
  | PBool b => Some (Z.b2z b)
  | PFloat f => match int_of_float f with Ok k => Some k | Raise _ => None end
  | PStr s =>
      let '(negative, digits) := take_sign (list_ascii_of_string s) in
      match digits with
      | [] => None
      | _ =>
          if forallb ascii_isdigit digits then
            Some (if negative : bool then - digits_value digits else digits_value digits)
          else None
      end
  | PNone | PList _ | PDict _ => None
  end.

(** A located row whose masks the decoder can read. *)
Definition masks_readable (row : pyval) : bool :=
  match row with
  | PDict d =>
      is_mask (dict_get_default d "R" (PInt 0)) && is_mask (dict_get_default d "Ø" (PInt 0))
  | _ => false
  end.

Section TimestampSpec.

Variable float_of_str : string -> exc spec_float.
Variable fromtimestamp_ymd : pyval -> exc string.

(** What the date slot holds for the raw entry it reads, as the
    specification is amended.  [number] is the entry itself, or the
    float a string reads as.  A falsy entry and a string that [float]
    rejects come back unchanged.  A date is rendered for a number above
    10^12, from its thousandth, and for a number above 10^9, from
    itself.  In every other case the slot holds [number]: when it is
    at most 10^9, when it is no number at all, when the division
    overflows, and when the host has no date for it. *)
Inductive timestamp_rendering (raw_value : pyval) : pyval -> Prop :=
| rendering_falsy :
    truthy raw_value = false ->
    timestamp_rendering raw_value raw_value
| rendering_unread (s : string) (e : pyexc) :
    raw_value = PStr s ->
    truthy raw_value = true ->
    float_of_str s = Raise e ->
    timestamp_rendering raw_value raw_value
| rendering_milliseconds (number : pyval) (seconds : spec_float) (d : string) :
    truthy raw_value = true ->
    timestamp_number float_of_str raw_value = Ok number ->
    py_gt_int number 1000000000000 = Ok true ->
    truediv_1000 number = Ok seconds ->
    fromtimestamp_ymd (PFloat seconds) = Ok d ->
    timestamp_rendering raw_value (PStr d)
| rendering_seconds (number : pyval) (d : string) :
    truthy raw_value = true ->
    timestamp_number float_of_str raw_value = Ok number ->
    py_gt_int number 1000000000000 = Ok false ->
    py_gt_int number 1000000000 = Ok true ->
    fromtimestamp_ymd number = Ok d ->
    timestamp_rendering raw_value (PStr d)
| rendering_small (number : pyval) :
    truthy raw_value = true ->
    timestamp_number float_of_str raw_value = Ok number ->
    py_gt_int number 1000000000000 = Ok false ->
    py_gt_int number 1000000000 = Ok false ->
    timestamp_rendering raw_value number
| rendering_no_number (number : pyval) (e : pyexc) :
    truthy raw_value = true ->
    timestamp_number float_of_str raw_value = Ok number ->
    py_gt_int number 1000000000000 = Raise e ->
    timestamp_rendering raw_value number
| rendering_overflow (number : pyval) (e : pyexc) :
    truthy raw_value = true ->
    timestamp_number float_of_str raw_value = Ok number ->
    py_gt_int number 1000000000000 = Ok true ->
    truediv_1000 number = Raise e ->
    timestamp_rendering raw_value number
| rendering_no_date_milliseconds (number : pyval) (seconds : spec_float) (e : pyexc) :
    truthy raw_value = true ->
    timestamp_number float_of_str raw_value = Ok number ->
    py_gt_int number 1000000000000 = Ok true ->
    truediv_1000 number = Ok seconds ->
    fromtimestamp_ymd (PFloat seconds) = Raise e ->
    timestamp_rendering raw_value number
| rendering_no_date_seconds (number : pyval) (e : pyexc) :
    truthy raw_value = true ->
    timestamp_number float_of_str raw_value = Ok number ->
    py_gt_int number 1000000000000 = Ok false ->
    py_gt_int number 1000000000 = Ok true ->
    fromtimestamp_ymd number = Raise e ->
    timestamp_rendering raw_value number.

End TimestampSpec.

Section LoopState.

Variable host : interpreter.
Variable float_of_str : string -> exc spec_float.
Variable fromtimestamp_ymd : pyval -> exc string.

(** The pair of [result] and [value_index] with which the loop of
    [process_row_with_binary_masks] enters column [col_idx]: the
    function up to its loop, and the loop over the columns in front of
    [col_idx]. *)
Definition state_at_column (row_data : pyval) (previous_row : option (list pyval))
    (dictionaries : list (string * pyval)) (col_idx : nat) : exc (list pyval * nat) :=
  c_values ← py_get row_data "C" (PList []);
  r_value ← py_get row_data "R" (PInt 0);
  sigma_value ← py_get row_data "Ø" (PInt 0);
  r_binary ← reverse_binary_16bit r_value;
  sigma_binary ← reverse_binary_16bit sigma_value;
  for_each
    (process_column host float_of_str fromtimestamp_ymd c_values r_binary sigma_binary
       previous_row dictionaries)
    (seq 0 col_idx) (replicate 15 PNone, 0%nat).

End LoopState.

(** ** Sample inputs *)

(** A decoded row with zeros in two measure slots. *)
Definition sample_decoded : list pyval :=
  [PStr "2023-11-14"; PStr "Platform-B"; PStr "Operator-1"; PNone; PNone; PNone;
   PNone; PNone; PNone; PNone; PNone;
   PInt 0; PFloat (S754_zero false); PNone; PInt 12].

Definition sample_record : csv_row :=
  {| scrape_datetime := PStr "2024-01-01T00:00:00";
     date := PStr "2023-11-14";
     installation := PStr "Platform-B";
     oil_production := PInt 0;
     gas_production := PFloat (S754_zero false);
     oil_equivalents_boe := PInt 12;
     operator := PStr "Operator-1";
     type := PStr EmptyString;
     estado := PStr EmptyString;
     city := PStr EmptyString;
     atendimento_campo := PStr EmptyString;
     campo := PStr EmptyString;
     quantity := PStr EmptyString;
     code := PStr EmptyString;
     status := PStr EmptyString |}.

(** A decoded row whose first measure slot holds the empty string. *)
Definition blank_measure_decoded : list pyval :=
  [PStr "2023-11-14"; PNone; PNone; PNone; PNone; PNone; PNone; PNone; PNone;
   PNone; PNone; PStr EmptyString; PInt 3; PNone; PNone].

Definition blank_measure_record : csv_row :=
  {| scrape_datetime := PStr "2024-01-01T00:00:00";
     date := PStr "2023-11-14";
     installation := PStr EmptyString;
     oil_production := PStr EmptyString;
     gas_production := PInt 3;
     oil_equivalents_boe := PStr EmptyString;
     operator := PStr EmptyString;
     type := PStr EmptyString;
     estado := PStr EmptyString;
     city := PStr EmptyString;
     atendimento_campo := PStr EmptyString;
     campo := PStr EmptyString;
     quantity := PStr EmptyString;
     code := PStr EmptyString;
     status := PStr EmptyString |}.

(** A decoded row of falsy values that are not null. *)
Definition zeros_decoded : list pyval :=
  [PInt 0; PStr EmptyString; PInt 0; PFloat (S754_zero true); PBool false; PList [];
   PDict []; PInt 0; PInt 0; PInt 0; PStr EmptyString; PInt 0; PInt 0; PInt 0; PInt 0].

Definition zeros_record : csv_row :=
  {| scrape_datetime := PNone;
     date := PStr EmptyString;
     installation := PStr EmptyString;
     oil_production := PInt 0;
     gas_production := PInt 0;
     oil_equivalents_boe := PInt 0;
     operator := PStr EmptyString;
     type := PStr EmptyString;
     estado := PStr EmptyString;
     city := PStr EmptyString;
     atendimento_campo := PStr EmptyString;
     campo := PStr EmptyString;
     quantity := PInt 0;
     code := PInt 0;
     status := PStr EmptyString |}.

(** The tables of a response, under the column names of the decoder. *)
Definition sample_dictionaries : list (string * pyval) :=
  [("G1", PList [PStr "Platform-A"; PStr "Platform-B"]);
   ("G2", PList [PStr "Operator-X"; PStr "Operator-Y"]);
   ("G3", PList []); ("G4", PList []); ("G5", PList []); ("G6", PList []);
   ("G7", PList []); ("G8", PList []); ("G9", PList []); ("G10", PList [])].

(** A first row: date, two indices and two measures; the other columns
    are null (bits 3 to 10 and 13, 14 of the null mask). *)
Definition first_row_fields : list (string * pyval) :=
  [("C", PList [PInt 1700000000000; PStr "1"; PInt 0; PInt 5; PFloat (S754_zero false)]);
   ("Ø", PInt 26616)].

(** A row without a date (every column null but the installation), and
    a summary node without masks. *)
Definition dateless_row_fields : list (string * pyval) :=
  [("C", PList [PInt 0]); ("Ø", PInt 32765)].

(** A last row: its own date, the installation repeated, an operator
    index outside the table. *)
Definition second_row_fields : list (string * pyval) :=
  [("C", PList [PInt 1700086400000; PStr "7"]); ("R", PInt 2); ("Ø", PInt 32760)].

Definition summary_fields : list (string * pyval) :=
  [("C", PList [PInt 42])].

Definition sample_rows : list pyval :=
  [PDict first_row_fields; PDict dateless_row_fields; PDict second_row_fields].

Definition sample_json : pyval :=
  PDict
    [("results",
      PList
        [PDict
           [("result",
             PDict
               [("data",
                 PDict
                   [("timestamp", PStr "2024-01-01T00:00:00");
                    ("dsr",
                     PDict
                       [("DS",
                         PList
                           [PDict
                              [("ValueDicts",
                                PDict
                                  [("D0", PList [PStr "Platform-A"; PStr "Platform-B"]);
                                   ("D1", PList [PStr "Operator-X"; PStr "Operator-Y"])]);
                               ("PH",
                                PList
                                  [PDict
                                     [("DM0",
                                       PList
                                         [PDict summary_fields;
                                          PDict first_row_fields;
                                          PDict dateless_row_fields;
                                          PDict second_row_fields])]])]])])])])]])].

(** The three decoded rows of [sample_rows], and the two records accepted. *)
Definition sample_decoded_rows : list (list pyval) :=
  [[PStr "2023-11-14"; PStr "Platform-B"; PStr "Operator-X"; PNone; PNone; PNone; PNone;
    PNone; PNone; PNone; PNone; PInt 5; PFloat (S754_zero false); PNone; PNone];
   [PNone; PStr "Platform-A"; PNone; PNone; PNone; PNone; PNone; PNone; PNone; PNone;
    PNone; PNone; PNone; PNone; PNone];
   [PStr "2023-11-15"; PStr "Platform-A"; PStr "Index_7_OutOfRange"; PNone; PNone; PNone;
    PNone; PNone; PNone; PNone; PNone; PNone; PNone; PNone; PNone]].

Definition empty_record (timestamp date installation operator : pyval) : csv_row :=
  {| scrape_datetime := timestamp;
     date := date;
     installation := installation;
     oil_production := PStr EmptyString;
     gas_production := PStr EmptyString;
     oil_equivalents_boe := PStr EmptyString;
     operator := operator;
     type := PStr EmptyString;
     estado := PStr EmptyString;
     city := PStr EmptyString;
     atendimento_campo := PStr EmptyString;
     campo := PStr EmptyString;
     quantity := PStr EmptyString;
     code := PStr EmptyString;
     status := PStr EmptyString |}.

Definition sample_records : list csv_row :=
  [{| scrape_datetime := PStr "2024-01-01T00:00:00";
      date := PStr "2023-11-14";
      installation := PStr "Platform-B";
      oil_production := PInt 5;
      gas_production := PFloat (S754_zero false);
      oil_equivalents_boe := PStr EmptyString;
      operator := PStr "Operator-X";
      type := PStr EmptyString;
      estado := PStr EmptyString;
      city := PStr EmptyString;
      atendimento_campo := PStr EmptyString;
      campo := PStr EmptyString;
      quantity := PStr EmptyString;
      code := PStr EmptyString;
      status := PStr EmptyString |};
   empty_record (PStr "2024-01-01T00:00:00") (PStr "2023-11-15") (PStr "Platform-A")
     (PStr "Index_7_OutOfRange")].

(** A row whose second entry is no index: the failing input of the cursor. *)
Definition unmapped_row_fields : list (string * pyval) :=
  [("C", PList [PInt 1700000000000; PStr "n/a"; PInt 1]); ("R", PInt 0)].

(** A response with a row whose repeat mask is a string, and one whose
    tables are null. *)
Definition response_of (value_dicts : pyval) (rows : list pyval) : pyval :=
  PDict
    [("results",
      PList
        [PDict
           [("result",
             PDict
               [("data",
                 PDict
                   [("dsr",
                     PDict
                       [("DS",
                         PList
                           [PDict
                              [("ValueDicts", value_dicts);
                               ("PH", PList [PDict [("DM0", PList rows)]])]])])])])]])].

Definition text_mask_json : pyval :=
  response_of (PDict [])
    [PDict [("C", PList [PInt 1700000000000]); ("R", PStr "1")]].

Definition null_tables_json : pyval :=
  response_of PNone [PDict first_row_fields].

Definition no_rows_json : pyval :=
  response_of (PDict []) [PDict summary_fields].

(** A row whose date entry is one day after the epoch, in seconds. *)
Definition epoch_day_row_fields : list (string * pyval) :=
  [("C", PList [PInt 86400]); ("R", PInt 0)].

(** A row with bit 0 set in both masks. *)
Definition both_bits_row_fields : list (string * pyval) :=
  [("C", PList []); ("R", PInt 1); ("Ø", PInt 1)].

(** A response whose row-set container is empty. *)
Definition empty_container_json : pyval :=
  PDict
    [("results",
      PList [PDict [("result", PDict [("data", PDict [("dsr", PDict [("DS", PList [])])])])]])].

(** A row whose installation entry is a numeral with a sign; the columns
    after the installation are null. *)
Definition signed_row_fields : list (string * pyval) :=
  [("C", PList [PInt 1700000000000; PStr "-1"]); ("R", PInt 0); ("Ø", PInt 32764)].

(** ** The decoder as a function of the masks *)

(** A column consumes an entry of [C] when its bit is clear in both masks. *)
Definition consumes (r_value sigma_value : pyval) (i : nat) : bool :=
  negb (mask_bit r_value i) && negb (mask_bit sigma_value i).

(** The number of consuming columns in front of column [i]. *)
Definition rank (r_value sigma_value : pyval) (i : nat) : nat :=
  length (List.filter (consumes r_value sigma_value) (seq 0 i)).

(** The digits of a reversed binary numeral read back as a number. *)
Fixpoint lsb_value (bits : list ascii) : Z :=
  match bits with
  | [] => 0
  | c :: rest => (Z.of_nat (nat_of_ascii c) - 48) + 2 * lsb_value rest
  end.

Section EntryValue.

Variable host : interpreter.
Variable float_of_str : string -> exc spec_float.
Variable fromtimestamp_ymd : pyval -> exc string.

(** What a column named [name] writes for the raw entry it reads. *)
Definition entry_value (dictionaries : list (string * pyval)) (name : string)
    (raw_value : pyval) : pyval :=
  if String.eqb name "G0" then
    match convert_timestamp float_of_str fromtimestamp_ymd raw_value with
    | Ok v => v
    | Raise _ => raw_value
    end
  else
    match dict_get dictionaries name with
    | Some dict_values =>
        match map_dictionary host dict_values raw_value with
        | Ok (Advance v) | Ok (Continue v) => v
        | Raise _ => raw_value
        end
    | None => raw_value
    end.

(** The slot of column [i] as the masks, the previous row and the entry
    of rank [rank i] determine it. *)
Definition slot_by_rank (r_value sigma_value : pyval) (c_values : list pyval)
    (previous_row : option (list pyval)) (dictionaries : list (string * pyval))
    (i : nat) : pyval :=
  if mask_bit r_value i then inherited previous_row i
  else if mask_bit sigma_value i then PNone
  else
    match c_values !! rank r_value sigma_value i, columns !! i with
    | Some raw_value, Some name => entry_value dictionaries name raw_value
    | _, _ => PNone
    end.

End EntryValue.

(** Every entry that a dictionary column reads, when each consuming
    column reads the entry of its rank, is a string of digits or a number. *)
Definition indices_at_dictionary_columns (host : interpreter) (r_value sigma_value : pyval)
    (c_values : list pyval) (dictionaries : list (string * pyval)) : Prop :=
  forall i name raw_value,
    columns !! i = Some name ->
    name <> "G0" ->
    is_Some (dict_get dictionaries name) ->
    consumes r_value sigma_value i = true ->
    c_values !! rank r_value sigma_value i = Some raw_value ->
    index_of_raw host raw_value <> None.

(** ** [write_csv_file] *)

Definition fieldnames : list string :=
  ["scrape_datetime"; "date"; "installation"; "oil_production";
   "gas_production"; "oil_equivalents_boe"; "operator"; "type";
   "estado"; "city"; "atendimento_campo"; "campo"; "quantity";
   "code"; "status"].

(** The record as the dictionary it is: its keys and values in the order
    of the literal. *)
Definition csv_row_items (row : csv_row) : list (string * pyval) :=
  [("scrape_datetime", scrape_datetime row); ("date", date row);
   ("installation", installation row); ("oil_production", oil_production row);
   ("gas_production", gas_production row);
   ("oil_equivalents_boe", oil_equivalents_boe row); ("operator", operator row);
   ("type", type row); ("estado", estado row); ("city", city row);
   ("atendimento_campo", atendimento_campo row); ("campo", campo row);
   ("quantity", quantity row); ("code", code row); ("status", status row)].

(** [value == ''] *)
Definition eq_empty_str (value : pyval) : bool :=
  match value with
  | PStr s => String.eqb s EmptyString
  | _ => false
  end.

Section WriteCsv.

(** [str] of a float, a list or a dictionary is taken as it is. *)
Variable str_other : pyval -> string.

(** [str(value)] *)
Definition py_str (value : pyval) : string :=
  match value with
  | PNone => "None"
  | PBool true => "True"
  | PBool false => "False"
  | PInt z => str_of_int z
  | PStr s => s
  | PFloat _ | PList _ | PDict _ => str_other value
  end.

(** [if value == '' or value is None: '' else: str(value)] *)
Definition clean_value (value : pyval) : string :=
  if eq_empty_str value || is_none value then EmptyString else py_str value.

(** The body of the loop over [fieldnames]: the text of one cell. *)
Definition clean_cell (row : csv_row) (field : string) : string :=
  clean_value (dict_get_default (csv_row_items row) field (PStr EmptyString)).

(** [clean_row], as the cells [writer.writerow] gets in the order of
    [fieldnames]. *)
Definition clean_row (row : csv_row) : list string :=
  map (clean_cell row) fieldnames.

(** What [write_csv_file] hands to the CSV writer: the header, then one
    cleaned row for each record. *)
Definition write_csv_file (csv_data : list csv_row) : list (list string) :=
  fieldnames :: map clean_row csv_data.

End WriteCsv.

Section WriteEntry.

Variable host : interpreter.
Variable float_of_str : string -> exc spec_float.
Variable fromtimestamp_ymd : pyval -> exc string.

(** The consuming branch of a column once the raw entry is read: the
    statements from the test for [G0] to the increment of the cursor. *)
Definition write_entry (dictionaries : list (string * pyval)) (result : list pyval)
    (value_index col_idx : nat) (column_name : string) (raw_value : pyval)
    : exc (list pyval * nat) :=
  if String.eqb column_name "G0" then
    v ← convert_timestamp float_of_str fromtimestamp_ymd raw_value;
    Ok (<[col_idx := v]> result, S value_index)
  else
    match dict_get dictionaries column_name with
    | Some dict_values =>
        c ← map_dictionary host dict_values raw_value;
        match c with
        | Advance v => Ok (<[col_idx := v]> result, S value_index)
        | Continue v => Ok (<[col_idx := v]> result, value_index)
        end
    | None => Ok (<[col_idx := raw_value]> result, S value_index)
    end.

End WriteEntry.

(** The measure columns: the slot of the decoded row and the position of
    the cell in a written row. *)
Definition measure_cells : list (nat * nat) :=
  [(11, 3); (12, 4); (14, 5); (13, 12)]%nat.

(** ** More sample inputs *)

(** A row that repeats the installation and has every other column null. *)
Definition repeat_row_fields : list (string * pyval) :=
  [("C", PList []); ("R", PInt 2); ("Ø", PInt 32765)].

Definition repeat_run_rows : list pyval :=
  [PDict first_row_fields; PDict repeat_row_fields; PDict repeat_row_fields].

Definition repeat_row_decoded : list pyval :=
  PNone :: PStr "Platform-B" :: replicate 13 PNone.

(** The last sample row with a negative repeat mask and bits from 15 on
    set in both masks. *)
Definition high_bits_row_fields : list (string * pyval) :=
  [("C", PList [PInt 1700086400000; PStr "7"]); ("R", PInt (-32770)); ("Ø", PInt 98296)].

(** A row with seventeen entries. *)
Definition long_row_entries : list pyval :=
  map PInt [1700000000000; 0; 1; 3; 4; 5; 6; 7; 8; 9; 10; 11; 12; 13; 14; 15; 16].

Definition long_row_fields : list (string * pyval) :=
  [("C", PList long_row_entries); ("R", PInt 0)].

Definition cut_row_fields : list (string * pyval) :=
  [("C", PList (take 15 long_row_entries)); ("R", PInt 0)].

(** A table that has no length: null, a boolean or a number. *)
Definition unsized (dict_values : pyval) : bool :=
  match dict_values with
  | PNone | PBool _ | PInt _ | PFloat _ => true
  | PStr _ | PList _ | PDict _ => false
  end.

(** * Properties *)

(** ** The exception monad *)

Lemma bind_ok {A B : Type} (m : exc A) (k : A -> exc B) (b : B) :
  m ≫= k = Ok b -> exists a, m = Ok a /\ k a = Ok b.
Proof.
  destruct m as [a|e]; simpl; intros H; [eauto | discriminate].
Qed.

Lemma try_except_ok {A : Type} (body : exc A) (a : A) :
  exists r, try_except body (Ok a) = Ok r.
Proof.
  destruct body; simpl; eauto.
Qed.

Lemma list_index_ok {A : Type} (l : list A) (i : nat) (v : A) :
  list_index l i = Ok v <-> l !! i = Some v.
Proof.
  unfold list_index. destruct (l !! i); split; intros H; congruence.
Qed.

Lemma list_index_slot (row : list pyval) (i : nat) (v : pyval) :
  list_index row i = Ok v -> v = slot row i /\ (i < length row)%nat.
Proof.
  intros H. apply list_index_ok in H. unfold slot. rewrite H.
  split; [reflexivity | eapply lookup_lt_Some; eauto].
Qed.

(** ** The projector *)

Ltac index_step H :=
  apply bind_ok in H;
  let v := fresh "v" in
  let Hv := fresh "Hv" in
  destruct H as (v & Hv & H);
  apply list_index_slot in Hv; destruct Hv as [-> ?].

(** The record of a row is the literal over its slots, and only a row
    with all fifteen slots has one. *)
Lemma build_csv_row_inv (processed_row : list pyval) (timestamp : pyval) (csv : csv_row) :
  build_csv_row processed_row timestamp = Ok csv ->
  (15 <= length processed_row)%nat
  /\ csv = {| scrape_datetime := timestamp;
              date := or_empty (slot processed_row 0);
              installation := or_empty (slot processed_row 1);
              oil_production := not_none_or_empty (slot processed_row 11);
              gas_production := not_none_or_empty (slot processed_row 12);
              oil_equivalents_boe := not_none_or_empty (slot processed_row 14);
              operator := or_empty (slot processed_row 2);
              type := or_empty (slot processed_row 3);
              estado := or_empty (slot processed_row 4);
              city := or_empty (slot processed_row 5);
              atendimento_campo := or_empty (slot processed_row 6);
              campo := or_empty (slot processed_row 7);
              quantity := not_none_or_empty (slot processed_row 13);
              code := not_none_or_empty (slot processed_row 9);
              status := not_none_or_empty (slot processed_row 10) |}.
Proof.
  unfold build_csv_row. intros H.
  do 14 index_step H.
  injection H as <-. split; [lia | reflexivity].
Qed.

Lemma build_csv_row_total (processed_row : list pyval) (timestamp : pyval) :
  (15 <= length processed_row)%nat ->
  exists csv, build_csv_row processed_row timestamp = Ok csv.
Proof.
  intros Hlen. unfold build_csv_row, list_index.
  repeat match goal with
  | |- context [processed_row !! ?i] =>
      let v := fresh "v" in
      destruct (lookup_lt_is_Some_2 processed_row i ltac:(lia)) as [v ->]; simpl
  end.
  eauto.
Qed.

Lemma convert_inv (processed_row : list pyval) (timestamp : pyval) (r : option csv_row) :
  convert_processed_row_to_csv processed_row timestamp = Ok r ->
  exists csv, build_csv_row processed_row timestamp = Ok csv
    /\ r = if truthy (date csv) then Some csv else None.
Proof.
  unfold convert_processed_row_to_csv. intros H.
  apply bind_ok in H. destruct H as (csv & Hcsv & H).
  exists csv. split; [assumption |].
  destruct (truthy (date csv)); congruence.
Qed.

Lemma convert_total (processed_row : list pyval) (timestamp : pyval) :
  (15 <= length processed_row)%nat ->
  exists r, convert_processed_row_to_csv processed_row timestamp = Ok r.
Proof.
  intros Hlen. destruct (build_csv_row_total processed_row timestamp Hlen) as [csv Hcsv].
  unfold convert_processed_row_to_csv. rewrite Hcsv. simpl.
  destruct (truthy (date csv)); eauto.
Qed.

Lemma not_none_or_empty_rendering (x : pyval) :
  measure_rendering x (not_none_or_empty x).
Proof.
  unfold measure_rendering, not_none_or_empty.
  destruct x; simpl; repeat split; intros; try tauto; try congruence;
    try (destruct H; congruence); auto.
Qed.

Lemma not_none_or_empty_non_null (x : pyval) :
  non_null_rendering x (not_none_or_empty x).
Proof.
  unfold non_null_rendering, not_none_or_empty.
  destruct x; simpl; split; intros; congruence.
Qed.

Lemma or_empty_rendering (x : pyval) :
  truthy_rendering x (or_empty x).
Proof.
  unfold truthy_rendering, or_empty.
  destruct (truthy x); split; intros; congruence.
Qed.

(** C9 (as amended).  In a record the projector returns, each of the four
    measure fields is the empty string exactly when its slot is null or
    is the empty string already; any other value of the slot, a numeric
    zero included, is the value of the field. *)
Theorem measure_fields_rendering (processed_row : list pyval) (timestamp : pyval)
    (csv : csv_row) :
  convert_processed_row_to_csv processed_row timestamp = Ok (Some csv) ->
  measure_rendering (slot processed_row 11) (oil_production csv)
  /\ measure_rendering (slot processed_row 12) (gas_production csv)
  /\ measure_rendering (slot processed_row 13) (quantity csv)
  /\ measure_rendering (slot processed_row 14) (oil_equivalents_boe csv).
Proof.
  intros H. apply convert_inv in H. destruct H as (csv' & Hb & Hr).
  destruct (truthy (date csv')); [| discriminate]. injection Hr as ->.
  apply build_csv_row_inv in Hb. destruct Hb as [_ ->]. simpl.
  repeat split; apply not_none_or_empty_rendering.
Qed.

Lemma measure_fields_rendering_witness :
  measure_rendering (slot sample_decoded 11) (oil_production sample_record)
  /\ measure_rendering (slot sample_decoded 12) (gas_production sample_record)
  /\ measure_rendering (slot sample_decoded 13) (quantity sample_record)
  /\ measure_rendering (slot sample_decoded 14) (oil_equivalents_boe sample_record).
Proof.
  apply (measure_fields_rendering sample_decoded (PStr "2024-01-01T00:00:00") sample_record).
  reflexivity.
Defined.

(** A numeric zero in a measure slot is kept. *)
Example measure_zero_kept :
  oil_production sample_record = PInt 0
  /\ gas_production sample_record = PFloat (S754_zero false).
Proof. split; reflexivity. Qed.

(** C9, as stated, fails: a measure slot that holds the empty string is
    not null, and its field is the empty string. *)
Lemma measure_field_empty_without_null :
  convert_processed_row_to_csv blank_measure_decoded (PStr "2024-01-01T00:00:00")
    = Ok (Some blank_measure_record)
  /\ oil_production blank_measure_record = PStr EmptyString
  /\ slot blank_measure_decoded 11 = PStr EmptyString
  /\ slot blank_measure_decoded 11 <> PNone.
Proof.
  repeat split. discriminate.
Qed.

(** C10.  In the record literal, [code] and [status] keep every value of
    their slot that is not null, falsy ones included, and the eight
    fields guarded by truthiness are the empty string for every falsy
    value of their slot (null, zero, the empty string alike) and the
    value of the slot otherwise. *)
Theorem falsy_slots_rendering (processed_row : list pyval) (timestamp : pyval)
    (csv : csv_row) :
  build_csv_row processed_row timestamp = Ok csv ->
  (non_null_rendering (slot processed_row 9) (code csv)
   /\ non_null_rendering (slot processed_row 10) (status csv))
  /\ (truthy_rendering (slot processed_row 0) (date csv)
      /\ truthy_rendering (slot processed_row 1) (installation csv)
      /\ truthy_rendering (slot processed_row 2) (operator csv)
      /\ truthy_rendering (slot processed_row 3) (type csv)
      /\ truthy_rendering (slot processed_row 4) (estado csv)
      /\ truthy_rendering (slot processed_row 5) (city csv)
      /\ truthy_rendering (slot processed_row 6) (atendimento_campo csv)
      /\ truthy_rendering (slot processed_row 7) (campo csv)).
Proof.
  intros Hb. apply build_csv_row_inv in Hb. destruct Hb as [_ ->]. simpl.
  split; [split; apply not_none_or_empty_non_null |].
  repeat split; apply or_empty_rendering.
Qed.

Lemma falsy_slots_rendering_witness :
  (non_null_rendering (slot zeros_decoded 9) (PInt 0)
   /\ non_null_rendering (slot zeros_decoded 10) (PStr EmptyString))
  /\ (truthy_rendering (slot zeros_decoded 0) (PStr EmptyString)
      /\ truthy_rendering (slot zeros_decoded 1) (PStr EmptyString)
      /\ truthy_rendering (slot zeros_decoded 2) (PStr EmptyString)
      /\ truthy_rendering (slot zeros_decoded 3) (PStr EmptyString)
      /\ truthy_rendering (slot zeros_decoded 4) (PStr EmptyString)
      /\ truthy_rendering (slot zeros_decoded 5) (PStr EmptyString)
      /\ truthy_rendering (slot zeros_decoded 6) (PStr EmptyString)
      /\ truthy_rendering (slot zeros_decoded 7) (PStr EmptyString)).
Proof.
  apply (falsy_slots_rendering zeros_decoded PNone zeros_record).
  reflexivity.
Defined.

(** The two guards side by side on the same falsy values. *)
Example falsy_slots_sample :
  build_csv_row zeros_decoded PNone = Ok zeros_record
  /\ code zeros_record = PInt 0 /\ status zeros_record = PStr EmptyString
  /\ date zeros_record = PStr EmptyString /\ installation zeros_record = PStr EmptyString
  /\ operator zeros_record = PStr EmptyString /\ campo zeros_record = PStr EmptyString.
Proof. repeat split. Qed.

(** ** The batch driver *)

Section DriverProperties.

Variable host : interpreter.
Variable float_of_str : string -> exc spec_float.
Variable fromtimestamp_ymd : pyval -> exc string.
Variable dictionaries : list (string * pyval).
Variable timestamp : pyval.

Local Abbreviation decode := (process_row_with_binary_masks host float_of_str fromtimestamp_ymd).
Local Abbreviation step := (process_data_row host float_of_str fromtimestamp_ymd
    dictionaries timestamp).
Local Abbreviation batch := (batch_from host float_of_str fromtimestamp_ymd dictionaries timestamp).
Local Abbreviation decoded_rows := (decoded_from host float_of_str fromtimestamp_ymd dictionaries).

(** The loop from any state: the register is the last element of
    [processed_rows], and the records are appended to [csv_data]. *)
Lemma process_data_loop (rows : list pyval) :
  forall (processed_rows : list (list pyval)) (csv_data : list csv_row),
    (st ← for_each step rows (processed_rows, csv_data); Ok (snd st))
    = (records ← batch (last processed_rows) rows; Ok (csv_data ++ records)).
Proof.
  induction rows as [|row rest IH]; intros processed_rows csv_data.
  - simpl. now rewrite app_nil_r.
  - cbn [for_each]. unfold batch. cbn [batch_from]. fold batch.
    unfold step at 1, process_data_row. fold step.
    destruct (process_row_with_binary_masks host float_of_str fromtimestamp_ymd row
                (last processed_rows) dictionaries) as [decoded|e]; [| reflexivity].
    cbn [mbind exc_bind].
    destruct (convert_processed_row_to_csv decoded timestamp) as [[r|]|e];
      cbn [mbind exc_bind]; [| | reflexivity].
    + rewrite IH, last_snoc.
      destruct (batch (Some decoded) rest) as [records|e]; [| reflexivity].
      cbn [mbind exc_bind]. now rewrite <- app_assoc.
    + rewrite IH, last_snoc.
      destruct (batch (Some decoded) rest) as [records|e]; reflexivity.
Qed.

Lemma process_data_batch (rows : list pyval) :
  process_data_with_binary_masks host float_of_str fromtimestamp_ymd rows dictionaries timestamp
  = batch None rows.
Proof.
  unfold process_data_with_binary_masks. fold step.
  rewrite (process_data_loop rows [] []). simpl.
  destruct (batch None rows); reflexivity.
Qed.

(** A batch that returns has decoded every row, and its records are the
    accepted projections of the decoded rows, in their order. *)
Lemma batch_decoded (rows : list pyval) :
  forall register records,
    batch register rows = Ok records ->
    exists decoded,
      decoded_rows register rows = Ok decoded
      /\ records = omap (accepted timestamp) decoded.
Proof.
  induction rows as [|row rest IH]; intros register records H.
  - injection H as <-. exists []. split; reflexivity.
  - unfold batch in H. cbn [batch_from] in H. fold batch in H.
    apply bind_ok in H. destruct H as (d & Hd & H).
    apply bind_ok in H. destruct H as (r & Hr & H).
    apply bind_ok in H. destruct H as (rs & Hrs & H).
    injection H as <-.
    destruct (IH _ _ Hrs) as (ds & Hds & ->).
    exists (d :: ds). split.
    + unfold decoded_rows. cbn [decoded_from]. rewrite Hd. cbn [mbind exc_bind].
      fold decoded_rows. rewrite Hds. reflexivity.
    + assert (Hacc : accepted timestamp d = r)
        by (unfold accepted; rewrite Hr; destruct r; reflexivity).
      cbn. rewrite Hacc. destruct r; reflexivity.
Qed.

(** Each decoded row was decoded against the decoded row before it, the
    first one against the register. *)
Lemma decoded_chain (rows : list pyval) :
  forall register decoded,
    decoded_rows register rows = Ok decoded ->
    length decoded = length rows
    /\ forall n row d,
         rows !! n = Some row -> decoded !! n = Some d ->
         decode row (match n with O => register | S m => decoded !! m end) dictionaries
         = Ok d.
Proof.
  induction rows as [|row rest IH]; intros register decoded H.
  - injection H as <-. split; [reflexivity |]. intros n row d Hn. discriminate.
  - unfold decoded_rows in H. cbn [decoded_from] in H. fold decoded_rows in H.
    apply bind_ok in H. destruct H as (d0 & Hd0 & H).
    apply bind_ok in H. destruct H as (ds & Hds & H).
    injection H as <-.
    destruct (IH _ _ Hds) as [Hlen Hchain].
    split; [simpl; congruence |].
    intros [|n] r d Hr Hd.
    + injection Hr as <-. injection Hd as <-. exact Hd0.
    + cbn in Hr, Hd. specialize (Hchain n r d Hr Hd).
      destruct n as [|m]; exact Hchain.
Qed.

Lemma batch_dates (rows : list pyval) :
  forall register records,
    batch register rows = Ok records ->
    Forall (fun r => truthy (date r) = true) records.
Proof.
  induction rows as [|row rest IH]; intros register records H.
  - injection H as <-. constructor.
  - unfold batch in H. cbn [batch_from] in H. fold batch in H.
    apply bind_ok in H. destruct H as (d & Hd & H).
    apply bind_ok in H. destruct H as (r & Hr & H).
    apply bind_ok in H. destruct H as (rs & Hrs & H).
    injection H as <-.
    specialize (IH _ _ Hrs).
    destruct r as [r|]; [| assumption].
    constructor; [| assumption].
    apply convert_inv in Hr. destruct Hr as (csv & _ & Hr).
    destruct (truthy (date csv)) eqn:Hdate; congruence.
Qed.

(** C6.  The loop of the batch driver is the sequential pass of the
    specification, errors included: rows are taken in their order, each
    is decoded against the decoded positional row of the row before it
    (the first against no row) whether or not that row was accepted, and
    the records returned are the accepted projections of the decoded
    rows in the order of their source rows. *)
Theorem batch_driver_sequential (data_rows : list pyval) :
  process_data_with_binary_masks host float_of_str fromtimestamp_ymd
      data_rows dictionaries timestamp
  = batch_from host float_of_str fromtimestamp_ymd dictionaries timestamp None data_rows
  /\ forall records,
       process_data_with_binary_masks host float_of_str fromtimestamp_ymd data_rows
         dictionaries timestamp = Ok records ->
       exists decoded,
         length decoded = length data_rows
         /\ (forall n row d,
               data_rows !! n = Some row -> decoded !! n = Some d ->
               process_row_with_binary_masks host float_of_str fromtimestamp_ymd row
                 (match n with O => None | S m => decoded !! m end) dictionaries
               = Ok d)
         /\ records = omap (accepted timestamp) decoded.
Proof.
  split; [apply process_data_batch |].
  intros records H. rewrite process_data_batch in H.
  destruct (batch_decoded _ _ _ H) as (decoded & Hdec & ->).
  destruct (decoded_chain _ _ _ Hdec) as [Hlen Hchain].
  exists decoded. auto.
Qed.

(** C7.  Every record the batch driver returns has a date that is
    neither missing nor empty, and a decoded row whose date slot is
    null, empty or otherwise falsy is rejected by the projector whatever
    its other slots hold. *)
Theorem output_dates_non_empty (data_rows : list pyval) (records : list csv_row)
    (processed_row : list pyval) :
  (process_data_with_binary_masks host float_of_str fromtimestamp_ymd data_rows
     dictionaries timestamp = Ok records ->
   Forall (fun r => truthy (date r) = true
                    /\ date r <> PStr EmptyString /\ date r <> PNone) records)
  /\ (length processed_row = 15%nat ->
      truthy (slot processed_row 0) = false ->
      convert_processed_row_to_csv processed_row timestamp = Ok None
      /\ accepted timestamp processed_row = None).
Proof.
  split.
  - intros H. rewrite process_data_batch in H. apply batch_dates in H.
    eapply Forall_impl; [exact H |].
    intros r Hr. cbn beta in Hr. repeat split; [assumption | |];
      intros Heq; rewrite Heq in Hr; discriminate.
  - intros Hlen Hfalsy.
    destruct (build_csv_row_total processed_row timestamp) as [csv Hcsv]; [lia |].
    assert (Hconv : convert_processed_row_to_csv processed_row timestamp = Ok None).
    { unfold convert_processed_row_to_csv. rewrite Hcsv. cbn [mbind exc_bind].
      apply build_csv_row_inv in Hcsv. destruct Hcsv as [_ ->]. cbn [date].
      unfold or_empty. rewrite Hfalsy. reflexivity. }
    split; [exact Hconv |]. unfold accepted. now rewrite Hconv.
Qed.

End DriverProperties.

(** ** Reading the masks *)

Lemma bin_digits_pos_lsb (p : positive) :
  forall acc, bin_digits_pos p acc = rev (lsb_digits p) ++ acc.
Proof.
  induction p as [q IH | q IH |]; intros acc; simpl.
  - rewrite IH, <- app_assoc. reflexivity.
  - rewrite IH, <- app_assoc. reflexivity.
  - reflexivity.
Qed.

Lemma rev_replicate {A : Type} (n : nat) (x : A) :
  rev (replicate n x) = replicate n x.
Proof.
  induction n as [|n IH]; [reflexivity |].
  simpl. rewrite IH. symmetry. apply replicate_cons_app.
Qed.

Lemma testbit_pos_succ (p : positive) (b : bool) (j : nat) :
  Z.testbit (Z.pos (if b then p~1 else p~0)) (Z.of_nat (S j))
  = Z.testbit (Z.pos p) (Z.of_nat j).
Proof.
  rewrite Nat2Z.inj_succ.
  destruct b.
  - rewrite Pos2Z.inj_xI. apply Z.testbit_odd_succ. lia.
  - rewrite Pos2Z.inj_xO. apply Z.testbit_even_succ. lia.
Qed.

(** The reversed numeral, continued by zeros, holds at [i] the digit of
    bit [i]. *)
Lemma lsb_digits_lookup (p : positive) (k : nat) :
  forall i : nat,
    (i < length (lsb_digits p) + k)%nat ->
    (lsb_digits p ++ replicate k "0"%char) !! i
    = Some (bit_char (Z.testbit (Z.pos p) (Z.of_nat i))).
Proof.
  induction p as [q IH | q IH |]; intros i Hi.
  - destruct i as [|j]; [reflexivity |].
    rewrite (testbit_pos_succ q true j). simpl. apply IH. simpl in Hi. lia.
  - destruct i as [|j]; [reflexivity |].
    rewrite (testbit_pos_succ q false j). simpl. apply IH. simpl in Hi. lia.
  - destruct i as [|j]; [reflexivity |].
    simpl in Hi. simpl. rewrite lookup_replicate_2 by lia. reflexivity.
Qed.

Lemma bit_at_bit_char (l : list ascii) (i : nat) (b : bool) :
  l !! i = Some (bit_char b) -> bit_at l i = Ok (Z.b2z b).
Proof.
  intros H. unfold bit_at. rewrite H. destruct b; reflexivity.
Qed.

Lemma bit_at_format (z : Z) (i : nat) :
  (i < 15)%nat ->
  bit_at (rev (format_016b z)) i = Ok (Z.b2z (Z.testbit (Z.abs z) (Z.of_nat i))).
Proof.
  intros Hi. apply bit_at_bit_char.
  destruct z as [|p|p].
  - change (rev (format_016b 0)) with (replicate 16 "0"%char).
    rewrite lookup_replicate_2 by lia. simpl. rewrite Z.testbit_0_l. reflexivity.
  - unfold format_016b. change (Z.pos p <? 0) with false. cbn [bin_digits app].
    rewrite rev_app_distr, rev_replicate, bin_digits_pos_lsb, app_nil_r, rev_involutive.
    rewrite length_rev. cbn [length Z.abs].
    apply lsb_digits_lookup. lia.
  - unfold format_016b. change (Z.neg p <? 0) with true. cbn [bin_digits].
    rewrite !rev_app_distr, rev_replicate, bin_digits_pos_lsb, app_nil_r, rev_involutive.
    rewrite length_rev. cbn [length rev app Z.abs].
    rewrite lookup_app_l.
    + apply lsb_digits_lookup. lia.
    + rewrite length_app, length_replicate. lia.
Qed.

(** The bit the decoder reads at a column is the bit of the mask. *)
Lemma bit_at_mask (mask : pyval) (binary : list ascii) (i : nat) :
  reverse_binary_16bit mask = Ok binary ->
  (i < 15)%nat ->
  bit_at binary i = Ok (Z.b2z (mask_bit mask i)).
Proof.
  intros H Hi. destruct mask as [|b|z|f|s|l|d]; unfold reverse_binary_16bit in H;
    try discriminate; injection H as <-.
  - change (bit_at (replicate 16 "0"%char) i = Ok (Z.b2z false)).
    apply bit_at_bit_char. rewrite lookup_replicate_2 by lia. reflexivity.
  - rewrite bit_at_format by assumption. destruct b; reflexivity.
  - apply bit_at_format. assumption.
Qed.

Lemma reverse_binary_16bit_mask (mask : pyval) :
  is_mask mask = true <-> exists binary, reverse_binary_16bit mask = Ok binary.
Proof.
  destruct mask; simpl; split; intros H; eauto; try discriminate;
    destruct H as [? H]; discriminate.
Qed.

Lemma mask_bit_nonneg (z : Z) (i : nat) :
  0 <= z -> mask_bit (PInt z) i = Z.testbit z (Z.of_nat i).
Proof.
  intros Hz. simpl. now rewrite Z.abs_eq.
Qed.

(** ** One column of the decoder *)

Lemma py_getitem_list (l : list pyval) (i : nat) (v : pyval) :
  l !! i = Some v -> py_getitem (PList l) (Z.of_nat i) = Ok v.
Proof.
  intros H. pose proof (lookup_lt_Some _ _ _ H) as Hlt.
  unfold py_getitem.
  replace (Z.of_nat i <? 0) with false by (symmetry; apply Z.ltb_ge; lia).
  replace (0 <=? Z.of_nat i) with true by (symmetry; apply Z.leb_le; lia).
  replace (Z.of_nat i <? Z.of_nat (length l)) with true by (symmetry; apply Z.ltb_lt; lia).
  cbn [andb]. rewrite Nat2Z.id, H. reflexivity.
Qed.

Lemma columns_lookup (i : nat) :
  (i < 15)%nat -> exists name, columns !! i = Some name.
Proof.
  intros Hi. apply lookup_lt_is_Some_2. exact Hi.
Qed.

Lemma map_dictionary_total (host : interpreter) (dict_values raw_value : pyval) :
  exists c, map_dictionary host dict_values raw_value = Ok c.
Proof.
  apply try_except_ok.
Qed.

Section ColumnStep.

Variable host : interpreter.
Variable float_of_str : string -> exc spec_float.
Variable fromtimestamp_ymd : pyval -> exc string.
Variable c_values : list pyval.
Variables r_binary sigma_binary : list ascii.
Variable previous_row : option (list pyval).
Variable dictionaries : list (string * pyval).

Local Abbreviation column :=
  (process_column host float_of_str fromtimestamp_ymd (PList c_values) r_binary sigma_binary
     previous_row dictionaries).

Lemma convert_timestamp_total (raw_value : pyval) :
  exists v, convert_timestamp float_of_str fromtimestamp_ymd raw_value = Ok v.
Proof.
  unfold convert_timestamp.
  destruct (truthy raw_value); [| eauto].
  destruct (timestamp_number float_of_str raw_value); [| eauto].
  apply try_except_ok.
Qed.

Ltac open_column Hn Hr Hs :=
  unfold process_column;
  rewrite (proj2 (list_index_ok _ _ _) Hn); cbn [mbind exc_bind];
  rewrite Hr, Hs; cbn [mbind exc_bind Z.b2z];
  repeat match goal with
  | |- context [1 =? 1] => change (1 =? 1) with true
  | |- context [0 =? 1] => change (0 =? 1) with false
  end;
  cbv iota.

(** Repeat bit set: the slot is the slot of the previous row, whatever
    the null bit is, and the cursor stays. *)
Lemma column_repeat (result : list pyval) (vi i : nat) (name : string) (null_bit : bool) :
  columns !! i = Some name ->
  bit_at r_binary i = Ok (Z.b2z true) ->
  bit_at sigma_binary i = Ok (Z.b2z null_bit) ->
  register_ok previous_row ->
  (i < 15)%nat ->
  column (result, vi) i = Ok (<[i := inherited previous_row i]> result, vi).
Proof.
  intros Hn Hr Hs Hreg Hi. open_column Hn Hr Hs.
  destruct previous_row as [[|x p]|]; cbn [register_ok] in Hreg; try discriminate;
    [| reflexivity].
  destruct (lookup_lt_is_Some_2 (x :: p) i ltac:(lia)) as [v Hv].
  unfold list_index, inherited, slot. rewrite Hv. reflexivity.
Qed.

(** Repeat bit clear, null bit set: the slot is null and the cursor stays. *)
Lemma column_null (result : list pyval) (vi i : nat) (name : string) :
  columns !! i = Some name ->
  bit_at r_binary i = Ok (Z.b2z false) ->
  bit_at sigma_binary i = Ok (Z.b2z true) ->
  column (result, vi) i = Ok (<[i := PNone]> result, vi).
Proof.
  intros Hn Hr Hs. open_column Hn Hr Hs. reflexivity.
Qed.

(** Both bits clear and no entry left: the slot is null. *)
Lemma column_exhausted (result : list pyval) (vi i : nat) (name : string) :
  columns !! i = Some name ->
  bit_at r_binary i = Ok (Z.b2z false) ->
  bit_at sigma_binary i = Ok (Z.b2z false) ->
  c_values !! vi = None ->
  column (result, vi) i = Ok (<[i := PNone]> result, vi).
Proof.
  intros Hn Hr Hs Hc. open_column Hn Hr Hs.
  apply lookup_ge_None in Hc.
  cbn [py_len mbind exc_bind].
  replace (Z.of_nat vi <? Z.of_nat (length c_values)) with false
    by (symmetry; apply Z.ltb_ge; lia).
  reflexivity.
Qed.

(** Both bits clear and an entry under the cursor: the three ways the
    entry is resolved. *)
Lemma column_consume (result : list pyval) (vi i : nat) (name : string) (raw_value : pyval) :
  columns !! i = Some name ->
  bit_at r_binary i = Ok (Z.b2z false) ->
  bit_at sigma_binary i = Ok (Z.b2z false) ->
  c_values !! vi = Some raw_value ->
  column (result, vi) i
  = if String.eqb name "G0" then
      v ← convert_timestamp float_of_str fromtimestamp_ymd raw_value;
      Ok (<[i := v]> result, S vi)
    else
      match dict_get dictionaries name with
      | Some dict_values =>
          c ← map_dictionary host dict_values raw_value;
          match c with
          | Advance v => Ok (<[i := v]> result, S vi)
          | Continue v => Ok (<[i := v]> result, vi)
          end
      | None => Ok (<[i := raw_value]> result, S vi)
      end.
Proof.
  intros Hn Hr Hs Hc. open_column Hn Hr Hs.
  pose proof (lookup_lt_Some _ _ _ Hc) as Hlt.
  cbn [py_len mbind exc_bind].
  replace (Z.of_nat vi <? Z.of_nat (length c_values)) with true
    by (symmetry; apply Z.ltb_lt; lia).
  rewrite (py_getitem_list _ _ _ Hc). reflexivity.
Qed.

(** With readable bits and a full register, a column never raises: it
    writes its own slot, and moves the cursor by one at most. *)
Lemma column_total (result : list pyval) (vi i : nat) (repeat_bit null_bit : bool) :
  (i < 15)%nat ->
  bit_at r_binary i = Ok (Z.b2z repeat_bit) ->
  bit_at sigma_binary i = Ok (Z.b2z null_bit) ->
  register_ok previous_row ->
  exists v vi',
    column (result, vi) i = Ok (<[i := v]> result, vi') /\ (vi <= vi' <= S vi)%nat.
Proof.
  intros Hi Hr Hs Hreg.
  destruct (columns_lookup i Hi) as [name Hn].
  destruct repeat_bit.
  { eexists _, _. split; [eapply column_repeat; eauto | lia]. }
  destruct null_bit.
  { eexists _, _. split; [eapply column_null; eauto | lia]. }
  destruct (c_values !! vi) as [raw_value|] eqn:Hc.
  2: { eexists _, _. split; [eapply column_exhausted; eauto | lia]. }
  rewrite (column_consume result vi i name raw_value Hn Hr Hs Hc).
  destruct (String.eqb name "G0").
  { destruct (convert_timestamp_total raw_value) as [v ->].
    eexists _, _. split; [reflexivity | lia]. }
  destruct (dict_get dictionaries name) as [dict_values|].
  2: { eexists _, _. split; [reflexivity | lia]. }
  destruct (map_dictionary_total host dict_values raw_value) as [[v|v] ->];
    eexists _, _; (split; [reflexivity | lia]).
Qed.

Hypothesis r_bits : forall i, (i < 15)%nat -> exists b, bit_at r_binary i = Ok (Z.b2z b).
Hypothesis sigma_bits : forall i, (i < 15)%nat -> exists b, bit_at sigma_binary i = Ok (Z.b2z b).
Hypothesis register_full : register_ok previous_row.

(** The loop over the columns [a], ..., [a + n - 1]: it returns, it
    leaves the other slots alone, and the slot of each of its columns is
    what the iteration of that column wrote. *)
Lemma columns_loop (n : nat) :
  forall (a : nat) (result : list pyval) (vi : nat),
    (a + n <= 15)%nat ->
    exists final vi',
      for_each column (seq a n) (result, vi) = Ok (final, vi')
      /\ length final = length result
      /\ (forall j, (j < a \/ a + n <= j)%nat -> final !! j = result !! j)
      /\ (forall i, (a <= i < a + n)%nat -> (i < length result)%nat ->
            exists result_i vi_i v vi_i',
              column (result_i, vi_i) i = Ok (<[i := v]> result_i, vi_i')
              /\ final !! i = Some v
              /\ length result_i = length result
              /\ (vi <= vi_i <= vi + (i - a))%nat).
Proof.
  induction n as [|n IH]; intros a result vi Ha.
  - exists result, vi. cbn [seq for_each]. repeat split; try reflexivity. intros i Hi. lia.
  - destruct (r_bits a ltac:(lia)) as [br Hbr].
    destruct (sigma_bits a ltac:(lia)) as [bs Hbs].
    destruct (column_total result vi a br bs ltac:(lia) Hbr Hbs register_full)
      as (v & vi1 & Hstep & Hvi).
    destruct (IH (S a) (<[a := v]> result) vi1 ltac:(lia))
      as (final & vi' & Hloop & Hlen & Hout & Hin).
    exists final, vi'. cbn [seq for_each]. rewrite Hstep.
    split; [exact Hloop |].
    rewrite length_insert in Hlen.
    split; [exact Hlen |].
    split.
    + intros j Hj. rewrite Hout by lia. apply list_lookup_insert_ne. lia.
    + intros i Hi Hilen.
      destruct (decide (i = a)) as [-> | Hne].
      * exists result, vi, v, vi1. split; [exact Hstep |].
        split; [| split; [reflexivity | lia]].
        rewrite Hout by lia. apply list_lookup_insert_eq. exact Hilen.
      * destruct (Hin i ltac:(lia)) as (ri & vii & w & vii' & Hcol & Hfin & Hrl & Hle).
        { rewrite length_insert. exact Hilen. }
        rewrite length_insert in Hrl.
        exists ri, vii, w, vii'. repeat split; try assumption; lia.
Qed.

End ColumnStep.

(** ** One row *)

Section RowProperties.

Variable host : interpreter.
Variable float_of_str : string -> exc spec_float.
Variable fromtimestamp_ymd : pyval -> exc string.

Local Abbreviation decode_row :=
  (process_row_with_binary_masks host float_of_str fromtimestamp_ymd).
Local Abbreviation decode_column :=
  (process_column host float_of_str fromtimestamp_ymd).

(** A row node decodes, against an empty or a full register, to fifteen
    slots, and each slot is what the iteration of its column wrote, under
    a cursor that no more than the columns before it have moved. *)
Lemma row_decoded (d : list (string * pyval)) (previous_row : option (list pyval))
    (dictionaries : list (string * pyval)) :
  row_node (PDict d) ->
  register_ok previous_row ->
  exists c_values r_binary sigma_binary decoded,
    dict_get d "C" = Some (PList c_values)
    /\ reverse_binary_16bit (dict_get_default d "R" (PInt 0)) = Ok r_binary
    /\ reverse_binary_16bit (dict_get_default d "Ø" (PInt 0)) = Ok sigma_binary
    /\ decode_row (PDict d) previous_row dictionaries = Ok decoded
    /\ length decoded = 15%nat
    /\ forall i, (i < 15)%nat ->
         exists result vi v vi',
           decode_column (PList c_values) r_binary sigma_binary previous_row dictionaries
             (result, vi) i = Ok (<[i := v]> result, vi')
           /\ decoded !! i = Some v
           /\ length result = 15%nat
           /\ (vi <= i)%nat.
Proof.
  intros (d' & c_values & Hd & Hc & Hr & Hs) Hreg. injection Hd as <-.
  apply reverse_binary_16bit_mask in Hr. destruct Hr as [r_binary Hr].
  apply reverse_binary_16bit_mask in Hs. destruct Hs as [sigma_binary Hs].
  destruct (columns_loop host float_of_str fromtimestamp_ymd c_values r_binary sigma_binary
              previous_row dictionaries) with (n := 15%nat) (a := 0%nat)
              (result := replicate 15 PNone) (vi := 0%nat)
    as (final & vi' & Hloop & Hlen & _ & Hin).
  { intros i Hi. eexists. eapply bit_at_mask; eauto. }
  { intros i Hi. eexists. eapply bit_at_mask; eauto. }
  { exact Hreg. }
  { lia. }
  rewrite length_replicate in Hlen.
  assert (Hrow : decode_row (PDict d) previous_row dictionaries = Ok final).
  { unfold process_row_with_binary_masks, process_columns. cbn [py_get mbind exc_bind].
    unfold dict_get_default at 1. rewrite Hc. rewrite Hr, Hs. cbn [mbind exc_bind].
    rewrite Hloop. reflexivity. }
  exists c_values, r_binary, sigma_binary, final.
  repeat split; try assumption.
  intros i Hi.
  destruct (Hin i ltac:(lia)) as (ri & vi_i & v & vi_i' & Hcol & Hfin & Hrl & Hle).
  { rewrite length_replicate. exact Hi. }
  rewrite length_replicate in Hrl.
  exists ri, vi_i, v, vi_i'. repeat split; try assumption. lia.
Qed.

Lemma insert_same_slot (result : list pyval) (i : nat) (v w : pyval) (a b : nat) :
  (i < length result)%nat ->
  Ok (<[i := v]> result, a) = Ok (<[i := w]> result, b) ->
  v = w /\ a = b.
Proof.
  intros Hi H. injection H as Hl Hab. split; [| exact Hab].
  assert (Hv : <[i := v]> result !! i = Some v) by (apply list_lookup_insert_eq; exact Hi).
  rewrite Hl, list_lookup_insert_eq in Hv by exact Hi. congruence.
Qed.

(** C1.  In every row whose masks are readable, a column whose bit in
    the repeat mask is 1 holds the value of the same slot of the previous
    decoded row, and null when there is no previous row; nothing is asked
    of the bit of the null mask. *)
Theorem repeat_bit_inherits (d : list (string * pyval)) (previous_row : option (list pyval))
    (dictionaries : list (string * pyval)) (i : nat) :
  row_node (PDict d) ->
  register_ok previous_row ->
  (i < 15)%nat ->
  mask_bit (dict_get_default d "R" (PInt 0)) i = true ->
  exists decoded,
    process_row_with_binary_masks host float_of_str fromtimestamp_ymd (PDict d) previous_row
      dictionaries = Ok decoded
    /\ decoded !! i
       = Some (match previous_row with
               | Some previous => slot previous i
               | None => PNone
               end)
    /\ (forall previous, previous_row = Some previous -> decoded !! i = previous !! i).
Proof.
  intros Hrow Hreg Hi Hbit.
  destruct (row_decoded d previous_row dictionaries Hrow Hreg)
    as (c_values & r_binary & sigma_binary & decoded & Hc & Hr & Hs & Hdec & Hlen & Hslots).
  destruct (Hslots i Hi) as (result & vi & v & vi' & Hcol & Hv & Hrl & _).
  destruct (columns_lookup i Hi) as [name Hn].
  pose proof (bit_at_mask _ _ i Hr Hi) as Hrb. rewrite Hbit in Hrb.
  pose proof (bit_at_mask _ _ i Hs Hi) as Hsb.
  rewrite (column_repeat host float_of_str fromtimestamp_ymd c_values r_binary sigma_binary
             previous_row dictionaries result vi i name _ Hn Hrb Hsb Hreg Hi) in Hcol.
  apply insert_same_slot in Hcol; [| lia]. destruct Hcol as [<- _].
  exists decoded. split; [exact Hdec |]. split; [exact Hv |].
  intros previous ->. rewrite Hv. cbn [inherited register_ok] in *.
  unfold slot. destruct (lookup_lt_is_Some_2 previous i ltac:(lia)) as [w ->]. reflexivity.
Qed.

End RowProperties.

(** ** Dictionary indices *)

Lemma to_int_proper (k : Z) :
  Z.to_int k <> Decimal.Pos Decimal.Nil /\ Z.to_int k <> Decimal.Neg Decimal.Nil.
Proof.
  destruct k as [|p|p]; cbn; split; intros H; try discriminate;
    injection H as H; exact (DecimalPos.Unsigned.to_uint_nonnil p H).
Qed.

Lemma str_of_int_inj (k1 k2 : Z) :
  str_of_int k1 = str_of_int k2 -> k1 = k2.
Proof.
  unfold str_of_int. intros H.
  apply DecimalZ.to_int_inj.
  destruct (to_int_proper k1) as [Hp1 Hn1].
  destruct (to_int_proper k2) as [Hp2 Hn2].
  pose proof (NilZero.isi _ Hp1 Hn1) as H1.
  pose proof (NilZero.isi _ Hp2 Hn2) as H2.
  rewrite H in H1. congruence.
Qed.

Lemma append_length (s t : string) :
  String.length (s +:+ t) = (String.length s + String.length t)%nat.
Proof.
  induction s as [|c s IH]; simpl; [reflexivity | now rewrite IH].
Qed.

Lemma append_cancel_r (t : string) :
  forall s1 s2 : string, s1 +:+ t = s2 +:+ t -> s1 = s2.
Proof.
  induction s1 as [|c1 s1 IH]; intros [|c2 s2] H.
  - reflexivity.
  - exfalso. apply (f_equal String.length) in H.
    rewrite !append_length in H. simpl in H. lia.
  - exfalso. apply (f_equal String.length) in H.
    rewrite !append_length in H. simpl in H. lia.
  - simpl in H. injection H as -> H. f_equal. apply IH. exact H.
Qed.

(** The placeholder determines the index it names. *)
Lemma placeholder_inj (k1 k2 : Z) :
  placeholder k1 = placeholder k2 -> k1 = k2.
Proof.
  unfold placeholder. intros H.
  apply (inj (String.app "Index_")) in H.
  apply append_cancel_r in H.
  apply str_of_int_inj. exact H.
Qed.

Lemma map_index_list (table : list pyval) (k : Z) :
  map_index (PList table) k
  = Ok (if (0 <=? k) && (k <? Z.of_nat (length table)) then slot table (Z.to_nat k)
        else PStr (placeholder k)).
Proof.
  unfold map_index. destruct (0 <=? k) eqn:H0; [| reflexivity].
  cbn [py_len mbind exc_bind andb].
  destruct (k <? Z.of_nat (length table)) eqn:H1; [| reflexivity].
  apply Z.leb_le in H0. apply Z.ltb_lt in H1.
  destruct (lookup_lt_is_Some_2 table (Z.to_nat k) ltac:(lia)) as [v Hv].
  unfold slot. rewrite Hv.
  rewrite <- (Z2Nat.id k) at 1 by exact H0.
  apply py_getitem_list. exact Hv.
Qed.

(** The [try] statement over a table that is a list: what is written,
    and whether the cursor moves. *)
Lemma map_dictionary_list (host : interpreter) (table : list pyval) (raw_value : pyval) :
  map_dictionary host (PList table) raw_value
  = Ok (match index_of_raw host raw_value with
        | None => Continue (resolve_index host table raw_value)
        | Some _ => Advance (resolve_index host table raw_value)
        end).
Proof.
  unfold map_dictionary, resolve_index.
  destruct (index_of_raw host raw_value) as [[k|e]|]; cbn [mbind exc_bind try_except];
    try reflexivity.
  rewrite map_index_list. reflexivity.
Qed.

(** The raw entries the mapping takes for an index are those its
    [if]/[elif] converts without an error. *)
Lemma index_reading_iff (host : interpreter) (raw_value : pyval) (k : Z) :
  index_reading host raw_value k <-> index_of_raw host raw_value = Some (Ok k).
Proof.
  split.
  - intros [z | b | f k' Hf | s k' Hd Hi]; cbn [index_of_raw]; try reflexivity.
    + rewrite Hf. reflexivity.
    + rewrite Hd, Hi. reflexivity.
  - destruct raw_value as [| b | z | f | s | l | kvs]; cbn [index_of_raw]; intros H;
      try discriminate.
    + injection H as <-. constructor.
    + injection H as <-. constructor.
    + injection H as H. constructor. exact H.
    + destruct (str_isdigit host s) eqn:Hd; [| discriminate].
      injection H as H. constructor; assumption.
Qed.

Lemma for_each_app {S A : Type} (body : S -> A -> exc S) (items1 items2 : list A) (st : S) :
  for_each body (items1 ++ items2) st
  = (st' ← for_each body items1 st; for_each body items2 st').
Proof.
  revert st. induction items1 as [|x rest IH]; intros st; [reflexivity |].
  cbn [app for_each]. destruct (body st x) as [st1|e]; [apply IH | reflexivity].
Qed.

(** ** The state in front of a column *)

Section StateAtColumn.

Variable host : interpreter.
Variable float_of_str : string -> exc spec_float.
Variable fromtimestamp_ymd : pyval -> exc string.

Local Abbreviation decode_row :=
  (process_row_with_binary_masks host float_of_str fromtimestamp_ymd).
Local Abbreviation decode_column :=
  (process_column host float_of_str fromtimestamp_ymd).
Local Abbreviation state_at :=
  (state_at_column host float_of_str fromtimestamp_ymd).

(** The loop over all fifteen columns enters its end with the state the
    function returns from. *)
Lemma state_at_end (row_data : pyval) (previous_row : option (list pyval))
    (dictionaries : list (string * pyval)) :
  state_at row_data previous_row dictionaries 15
  = process_columns host float_of_str fromtimestamp_ymd row_data previous_row dictionaries.
Proof. reflexivity. Qed.

(** The loop goes on from the state in front of a column with that
    column and those after it. *)
Lemma state_at_resumed (d : list (string * pyval)) (previous_row : option (list pyval))
    (dictionaries : list (string * pyval)) (i : nat) (r_binary sigma_binary : list ascii) :
  (i <= 15)%nat ->
  reverse_binary_16bit (dict_get_default d "R" (PInt 0)) = Ok r_binary ->
  reverse_binary_16bit (dict_get_default d "Ø" (PInt 0)) = Ok sigma_binary ->
  process_columns host float_of_str fromtimestamp_ymd (PDict d) previous_row dictionaries
  = (st ← state_at (PDict d) previous_row dictionaries i;
     for_each
       (decode_column (dict_get_default d "C" (PList [])) r_binary sigma_binary previous_row
          dictionaries)
       (seq i (15 - i)) st).
Proof.
  intros Hi Hr Hs. unfold process_columns, state_at_column.
  cbn [py_get mbind exc_bind]. rewrite Hr, Hs. cbn [mbind exc_bind].
  rewrite <- for_each_app. f_equal.
  change (seq i (15 - i)) with (seq (0 + i) (15 - i)).
  rewrite <- seq_app. f_equal. lia.
Qed.

(** Over readable masks the cursor moves by one at most in each column. *)
Lemma columns_cursor_bound (c_values : list pyval) (r_binary sigma_binary : list ascii)
    (previous_row : option (list pyval)) (dictionaries : list (string * pyval)) (n : nat) :
  (forall i, (i < 15)%nat -> exists b, bit_at r_binary i = Ok (Z.b2z b)) ->
  (forall i, (i < 15)%nat -> exists b, bit_at sigma_binary i = Ok (Z.b2z b)) ->
  register_ok previous_row ->
  forall (a : nat) (result final : list pyval) (vi vi' : nat),
    (a + n <= 15)%nat ->
    for_each (decode_column (PList c_values) r_binary sigma_binary previous_row dictionaries)
      (seq a n) (result, vi) = Ok (final, vi') ->
    (vi <= vi' <= vi + n)%nat.
Proof.
  intros Hrbits Hsbits Hreg.
  induction n as [|n IH]; intros a result final vi vi' Ha H.
  - injection H as _ <-. lia.
  - cbn [seq for_each] in H.
    destruct (Hrbits a ltac:(lia)) as [br Hbr].
    destruct (Hsbits a ltac:(lia)) as [bs Hbs].
    destruct (column_total host float_of_str fromtimestamp_ymd c_values r_binary sigma_binary
                previous_row dictionaries result vi a br bs ltac:(lia) Hbr Hbs Hreg)
      as (v & vi1 & Hstep & Hvi).
    rewrite Hstep in H. apply IH in H; lia.
Qed.

(** A row node decodes, and the slot of each column is what the
    iteration of that column wrote from the state the loop entered it
    with. *)
Lemma row_decoded_at (d : list (string * pyval)) (previous_row : option (list pyval))
    (dictionaries : list (string * pyval)) (i : nat) :
  row_node (PDict d) ->
  register_ok previous_row ->
  (i < 15)%nat ->
  exists c_values r_binary sigma_binary decoded result cursor v cursor',
    dict_get d "C" = Some (PList c_values)
    /\ reverse_binary_16bit (dict_get_default d "R" (PInt 0)) = Ok r_binary
    /\ reverse_binary_16bit (dict_get_default d "Ø" (PInt 0)) = Ok sigma_binary
    /\ decode_row (PDict d) previous_row dictionaries = Ok decoded
    /\ state_at (PDict d) previous_row dictionaries i = Ok (result, cursor)
    /\ decode_column (PList c_values) r_binary sigma_binary previous_row dictionaries
         (result, cursor) i = Ok (<[i := v]> result, cursor')
    /\ decoded !! i = Some v
    /\ length result = 15%nat
    /\ (cursor <= i)%nat.
Proof.
  intros (d' & c_values & Hd & Hc & Hr & Hs) Hreg Hi. injection Hd as <-.
  apply reverse_binary_16bit_mask in Hr. destruct Hr as [r_binary Hr].
  apply reverse_binary_16bit_mask in Hs. destruct Hs as [sigma_binary Hs].
  assert (Hrbits : forall j, (j < 15)%nat -> exists b, bit_at r_binary j = Ok (Z.b2z b)).
  { intros j Hj. eexists. eapply bit_at_mask; eauto. }
  assert (Hsbits : forall j, (j < 15)%nat -> exists b, bit_at sigma_binary j = Ok (Z.b2z b)).
  { intros j Hj. eexists. eapply bit_at_mask; eauto. }
  destruct (columns_loop host float_of_str fromtimestamp_ymd c_values r_binary sigma_binary
              previous_row dictionaries Hrbits Hsbits Hreg i 0 (replicate 15 PNone) 0
              ltac:(lia))
    as (result & cursor & Hfront & Hlen & _ & _).
  rewrite length_replicate in Hlen.
  pose proof (columns_cursor_bound c_values r_binary sigma_binary previous_row dictionaries i
                Hrbits Hsbits Hreg 0 _ _ _ _ ltac:(lia) Hfront) as Hcursor.
  destruct (Hrbits i Hi) as [br Hbr]. destruct (Hsbits i Hi) as [bs Hbs].
  destruct (column_total host float_of_str fromtimestamp_ymd c_values r_binary sigma_binary
              previous_row dictionaries result cursor i br bs Hi Hbr Hbs Hreg)
    as (v & cursor' & Hstep & _).
  destruct (columns_loop host float_of_str fromtimestamp_ymd c_values r_binary sigma_binary
              previous_row dictionaries Hrbits Hsbits Hreg (14 - i) (S i)
              (<[i := v]> result) cursor' ltac:(lia))
    as (decoded & final_cursor & Hback & _ & Hout & _).
  assert (Hstate : state_at (PDict d) previous_row dictionaries i = Ok (result, cursor)).
  { unfold state_at_column. cbn [py_get mbind exc_bind].
    unfold dict_get_default at 1. rewrite Hc, Hr, Hs. cbn [mbind exc_bind]. exact Hfront. }
  assert (Hrow : decode_row (PDict d) previous_row dictionaries = Ok decoded).
  { unfold process_row_with_binary_masks.
    rewrite (state_at_resumed d previous_row dictionaries i r_binary sigma_binary
               ltac:(lia) Hr Hs), Hstate.
    cbn [mbind exc_bind]. unfold dict_get_default at 1. rewrite Hc.
    replace (15 - i)%nat with (S (14 - i)) by lia.
    cbn [seq for_each]. rewrite Hstep, Hback. reflexivity. }
  exists c_values, r_binary, sigma_binary, decoded, result, cursor, v, cursor'.
  repeat split; try assumption; [| lia].
  rewrite Hout by lia. apply list_lookup_insert_eq. lia.
Qed.

End StateAtColumn.

Section SlotResolution.

Variable host : interpreter.
Variable float_of_str : string -> exc spec_float.
Variable fromtimestamp_ymd : pyval -> exc string.

(** C3 (as amended).  A dictionary-backed column (any column but [G0]
    whose table is a list) with both bits clear reads the raw entry
    under the cursor the loop enters it with.  When that entry is an
    integer, a boolean, a float with an integral part or a string of
    digits that [int] reads, and so stands for an index [k], the column
    holds entry [k] of the table for [k] inside the table and the
    placeholder of [k], which determines [k], for [k] outside it.  Any
    other entry is held as it is.  The column is null when no entry is
    left, and the mapping raises for no table and no entry. *)
Theorem dictionary_slot_resolution (d : list (string * pyval)) (c_values : list pyval)
    (previous_row : option (list pyval)) (dictionaries : list (string * pyval))
    (i : nat) (name : string) (table : list pyval) :
  row_node (PDict d) ->
  dict_get d "C" = Some (PList c_values) ->
  register_ok previous_row ->
  columns !! i = Some name ->
  name <> "G0" ->
  dict_get dictionaries name = Some (PList table) ->
  mask_bit (dict_get_default d "R" (PInt 0)) i = false ->
  mask_bit (dict_get_default d "Ø" (PInt 0)) i = false ->
  (exists decoded result cursor,
     process_row_with_binary_masks host float_of_str fromtimestamp_ymd (PDict d) previous_row
       dictionaries = Ok decoded
     /\ state_at_column host float_of_str fromtimestamp_ymd (PDict d) previous_row
          dictionaries i = Ok (result, cursor)
     /\ (c_values !! cursor = None -> decoded !! i = Some PNone)
     /\ forall raw_value,
          c_values !! cursor = Some raw_value ->
          (forall k,
             index_reading host raw_value k ->
             (0 <= k < Z.of_nat (length table) ->
              exists v, table !! Z.to_nat k = Some v /\ decoded !! i = Some v)
             /\ (~ 0 <= k < Z.of_nat (length table) ->
                 decoded !! i = Some (PStr (placeholder k))))
          /\ ((forall k, ~ index_reading host raw_value k) ->
              decoded !! i = Some raw_value))
  /\ (forall k1 k2, placeholder k1 = placeholder k2 -> k1 = k2)
  /\ (forall dict_values raw_value,
        exists c, map_dictionary host dict_values raw_value = Ok c).
Proof.
  intros Hrow Hentries Hreg Hn Hg0 Htable Hrbit Hsbit.
  assert (Hi : (i < 15)%nat) by (apply lookup_lt_Some in Hn; exact Hn).
  split; [| split; [exact placeholder_inj | exact (map_dictionary_total host)]].
  destruct (row_decoded_at host float_of_str fromtimestamp_ymd d previous_row dictionaries i
              Hrow Hreg Hi)
    as (c_values' & r_binary & sigma_binary & decoded & result & cursor & v & cursor'
        & Hc & Hr & Hs & Hdec & Hstate & Hcol & Hv & Hrl & _).
  rewrite Hentries in Hc. injection Hc as <-.
  pose proof (bit_at_mask _ _ i Hr Hi) as Hrb. rewrite Hrbit in Hrb.
  pose proof (bit_at_mask _ _ i Hs Hi) as Hsb. rewrite Hsbit in Hsb.
  exists decoded, result, cursor.
  split; [exact Hdec |]. split; [exact Hstate |]. split.
  - intros Hnone.
    rewrite (column_exhausted host float_of_str fromtimestamp_ymd c_values r_binary
               sigma_binary previous_row dictionaries result cursor i name Hn Hrb Hsb Hnone)
      in Hcol.
    apply insert_same_slot in Hcol; [| lia]. destruct Hcol as [<- _]. exact Hv.
  - intros raw_value Hraw.
    rewrite (column_consume host float_of_str fromtimestamp_ymd c_values r_binary sigma_binary
               previous_row dictionaries result cursor i name raw_value Hn Hrb Hsb Hraw)
      in Hcol.
    apply String.eqb_neq in Hg0. rewrite Hg0, Htable, map_dictionary_list in Hcol.
    cbn [mbind exc_bind] in Hcol.
    assert (Hslot : decoded !! i = Some (resolve_index host table raw_value)).
    { rewrite Hv. f_equal.
      destruct (index_of_raw host raw_value);
        apply insert_same_slot in Hcol; try lia; destruct Hcol as [<- _]; reflexivity. }
    rewrite Hslot. unfold resolve_index. split.
    + intros k Hk. apply index_reading_iff in Hk. rewrite Hk. split.
      * intros [H0 H1].
        replace (0 <=? k) with true by (symmetry; apply Z.leb_le; exact H0).
        replace (k <? Z.of_nat (length table)) with true
          by (symmetry; apply Z.ltb_lt; exact H1).
        cbn [andb]. destruct (lookup_lt_is_Some_2 table (Z.to_nat k) ltac:(lia)) as [w Hw].
        exists w. split; [exact Hw |]. unfold slot. rewrite Hw. reflexivity.
      * intros Hout.
        destruct (0 <=? k) eqn:H0; [| reflexivity].
        destruct (k <? Z.of_nat (length table)) eqn:H1; [| reflexivity].
        apply Z.leb_le in H0. apply Z.ltb_lt in H1. lia.
    + intros Hnone.
      destruct (index_of_raw host raw_value) as [[k|e]|] eqn:Hindex; try reflexivity.
      exfalso. apply (Hnone k). apply index_reading_iff. exact Hindex.
Qed.

End SlotResolution.

(** ** The date slot *)

Section TimestampProperties.

Variable host : interpreter.
Variable float_of_str : string -> exc spec_float.
Variable fromtimestamp_ymd : pyval -> exc string.

(** The value [convert_timestamp] returns, in closed form: the [try]
    statement swallows every exception. *)
Lemma convert_timestamp_value (raw_value : pyval) :
  convert_timestamp float_of_str fromtimestamp_ymd raw_value
  = Ok (if truthy raw_value then
          match timestamp_number float_of_str raw_value with
          | Raise _ => raw_value
          | Ok number =>
              match timestamp_date fromtimestamp_ymd number with
              | Ok (Some d) => d
              | Ok None | Raise _ => number
              end
          end
        else raw_value).
Proof.
  unfold convert_timestamp.
  destruct (truthy raw_value); [| reflexivity].
  destruct (timestamp_number float_of_str raw_value) as [number|e]; [| reflexivity].
  destruct (timestamp_date fromtimestamp_ymd number) as [[dt|]|e]; reflexivity.
Qed.

(** A value that compares with one integer compares with every other. *)
Lemma py_gt_int_defined (number : pyval) (n m : Z) (b : bool) :
  py_gt_int number n = Ok b -> exists b', py_gt_int number m = Ok b'.
Proof.
  destruct number; cbn [py_gt_int]; intros H; try discriminate; eauto.
Qed.

Lemma convert_timestamp_rendering (raw_value : pyval) :
  exists v,
    convert_timestamp float_of_str fromtimestamp_ymd raw_value = Ok v
    /\ timestamp_rendering float_of_str fromtimestamp_ymd raw_value v.
Proof.
  eexists. split; [apply convert_timestamp_value |].
  destruct (truthy raw_value) eqn:Htruthy; [| apply rendering_falsy; exact Htruthy].
  destruct (timestamp_number float_of_str raw_value) as [number|e] eqn:Hnumber.
  2: { destruct raw_value as [| | | | s | |]; try discriminate.
       cbn [timestamp_number] in Hnumber.
       destruct (float_of_str s) as [f|e'] eqn:Hfloat; [discriminate |].
       eapply rendering_unread; eauto. }
  unfold timestamp_date.
  destruct (py_gt_int number 1000000000000) as [[|]|e] eqn:Hms; cbn [mbind exc_bind].
  - destruct (truediv_1000 number) as [seconds|e] eqn:Hdiv; cbn [mbind exc_bind].
    + destruct (fromtimestamp_ymd (PFloat seconds)) as [dt|e] eqn:Hdate; cbn [mbind exc_bind].
      * eapply rendering_milliseconds; eauto.
      * eapply rendering_no_date_milliseconds; eauto.
    + eapply rendering_overflow; eauto.
  - destruct (py_gt_int_defined number _ 1000000000 _ Hms) as [[|] Hs];
      rewrite Hs; cbn [mbind exc_bind].
    + destruct (fromtimestamp_ymd number) as [dt|e] eqn:Hdate; cbn [mbind exc_bind].
      * eapply rendering_seconds; eauto.
      * eapply rendering_no_date_seconds; eauto.
    + eapply rendering_small; eauto.
  - eapply rendering_no_number; eauto.
Qed.

(** The cases of the rendering exclude one another: an entry has one
    rendering. *)
Lemma timestamp_rendering_functional (raw_value v w : pyval) :
  timestamp_rendering float_of_str fromtimestamp_ymd raw_value v ->
  timestamp_rendering float_of_str fromtimestamp_ymd raw_value w ->
  v = w.
Proof.
  intros Hv Hw.
  destruct Hv; destruct Hw; subst;
    repeat match goal with
    | H : timestamp_number _ (PStr _) = _ |- _ => cbn [timestamp_number] in H
    | H1 : float_of_str ?s = Raise _, H2 : context [float_of_str ?s] |- _ =>
        rewrite H1 in H2; cbn [mbind exc_bind] in H2
    end;
    congruence.
Qed.

(** C4 (as amended).  The raw entry the date column reads is decoded
    without an error, and the slot holds the one rendering of the entry.
    With [number] the entry, or the float read from it when it is a
    string: the slot holds the date string of [number / 1000] when
    [number] is above 10^12, and of [number] when it is above 10^9 and
    not above 10^12, if the host has a date for it.  A falsy entry and a
    string that [float] rejects are held unchanged.  In every other case
    the slot holds [number], which for a string is the float and not the
    string: when [number] is at most 10^9, is no number, or has no date. *)
Theorem timestamp_slot_rendering (d : list (string * pyval))
    (previous_row : option (list pyval)) (dictionaries : list (string * pyval))
    (raw_value : pyval) (rest : list pyval) :
  row_node (PDict d) ->
  register_ok previous_row ->
  dict_get d "C" = Some (PList (raw_value :: rest)) ->
  mask_bit (dict_get_default d "R" (PInt 0)) 0 = false ->
  mask_bit (dict_get_default d "Ø" (PInt 0)) 0 = false ->
  exists decoded v,
    process_row_with_binary_masks host float_of_str fromtimestamp_ymd (PDict d) previous_row
      dictionaries = Ok decoded
    /\ decoded !! 0%nat = Some v
    /\ convert_timestamp float_of_str fromtimestamp_ymd raw_value = Ok v
    /\ timestamp_rendering float_of_str fromtimestamp_ymd raw_value v
    /\ (forall w, timestamp_rendering float_of_str fromtimestamp_ymd raw_value w -> w = v).
Proof.
  intros Hrow Hreg Hraw Hrbit Hsbit.
  destruct (row_decoded host float_of_str fromtimestamp_ymd d previous_row dictionaries Hrow Hreg)
    as (c_values & r_binary & sigma_binary & decoded & Hc & Hr & Hs & Hdec & Hlen & Hslots).
  rewrite Hraw in Hc. injection Hc as <-.
  destruct (Hslots 0%nat ltac:(lia)) as (result & vi & v & vi' & Hcol & Hv & Hrl & Hvi).
  assert (vi = 0%nat) as -> by lia.
  pose proof (bit_at_mask _ _ 0%nat Hr ltac:(lia)) as Hrb. rewrite Hrbit in Hrb.
  pose proof (bit_at_mask _ _ 0%nat Hs ltac:(lia)) as Hsb. rewrite Hsbit in Hsb.
  rewrite (column_consume host float_of_str fromtimestamp_ymd (raw_value :: rest) r_binary
             sigma_binary previous_row dictionaries result 0 0 "G0" raw_value
             eq_refl Hrb Hsb eq_refl) in Hcol.
  change (String.eqb "G0" "G0") with true in Hcol. cbv iota in Hcol.
  destruct (convert_timestamp_rendering raw_value) as (w & Hw & Hrender).
  rewrite Hw in Hcol. cbn [mbind exc_bind] in Hcol.
  apply insert_same_slot in Hcol; [| lia]. destruct Hcol as [-> _].
  exists decoded, v. repeat split; try assumption.
  intros w Hw'. exact (timestamp_rendering_functional raw_value w v Hw' Hrender).
Qed.

End TimestampProperties.

(** ** The row locator *)

Lemma find_rows_subnodes (obj : pyval) :
  forall data_rows,
    find_rows obj data_rows = data_rows ++ List.filter is_candidate (subnodes obj).
Proof.
  induction obj as [ | b | z | f | s | l Hl | d Hd ] using pyval_nested_ind;
    intros data_rows; try (cbn; now rewrite app_nil_r).
  - cbn [find_rows subnodes List.filter is_candidate].
    revert data_rows.
    induction Hl as [|item rest Hitem _ IH]; intros data_rows.
    + now rewrite app_nil_r.
    + rewrite Hitem, IH, List.filter_app, app_assoc. reflexivity.
  - cbn [find_rows subnodes List.filter is_candidate].
    assert (Hvalues : forall acc,
      (fix values (kvs : list (string * pyval)) (data_rows : list pyval) : list pyval :=
         match kvs with
         | [] => data_rows
         | (_, v) :: rest => values rest (find_rows v data_rows)
         end) d acc
      = acc ++ List.filter is_candidate
          ((fix values (kvs : list (string * pyval)) : list pyval :=
              match kvs with
              | [] => []
              | (_, v) :: rest => subnodes v ++ values rest
              end) d)).
    { induction Hd as [|[k v] rest Hv _ IH]; intros acc.
      - now rewrite app_nil_r.
      - cbn [snd] in Hv. rewrite Hv, IH, List.filter_app, app_assoc. reflexivity. }
    rewrite Hvalues. destruct (has_c_list d); [| reflexivity].
    rewrite <- app_assoc. reflexivity.
Qed.

Lemma is_candidate_inv (row : pyval) :
  is_candidate row = true <->
  exists d c_values, row = PDict d /\ dict_get d "C" = Some (PList c_values).
Proof.
  split.
  - destruct row as [ | | | | | |d]; try discriminate. cbn. unfold has_c_list.
    destruct (dict_get d "C") as [[ | | | | |c|]|] eqn:Hc; try discriminate. eauto.
  - intros (d & c & -> & Hc). cbn. unfold has_c_list. now rewrite Hc.
Qed.

Lemma has_mask_inv (d : list (string * pyval)) :
  has_mask (PDict d) = true <->
  (exists v, dict_get d "Ø" = Some v /\ v <> PNone)
  \/ (exists v, dict_get d "R" = Some v /\ v <> PNone).
Proof.
  cbn. unfold dict_get_default. rewrite orb_true_iff, !negb_true_iff. split.
  - intros [H | H]; [left | right].
    + destruct (dict_get d "Ø") as [v|]; [| discriminate].
      exists v. split; [reflexivity |]. intros ->. discriminate.
    + destruct (dict_get d "R") as [v|]; [| discriminate].
      exists v. split; [reflexivity |]. intros ->. discriminate.
  - intros [(v & -> & Hv) | (v & -> & Hv)]; [left | right];
      destruct v; try reflexivity; congruence.
Qed.

Lemma extract_rows (json : pyval) (rows : list pyval) (dictionaries : list (string * pyval))
    (timestamp : pyval) :
  extract_data_from_json json = Ok (rows, dictionaries, timestamp) ->
  rows = List.filter has_mask (find_rows json []).
Proof.
  unfold extract_data_from_json. intros H.
  apply bind_ok in H. destruct H as (results & _ & H).
  destruct (negb (truthy results)); [discriminate |].
  do 6 (apply bind_ok in H; destruct H as (? & _ & H)).
  destruct (negb (truthy _)); [discriminate |].
  do 3 (apply bind_ok in H; destruct H as (? & _ & H)).
  injection H as <- _ _. reflexivity.
Qed.

(** The tables are filed under the column names [G1] to [G10], table
    [D0] under [G1] up to [D9] under [G10], an absent table as the empty
    list. *)
Lemma build_dictionaries_tables (value_dicts : list (string * pyval))
    (slots : list (string * string)) :
  build_dictionaries (PDict value_dicts) slots
  = Ok (map (fun s => (fst s, dict_get_default value_dicts (snd s) (PList []))) slots).
Proof.
  induction slots as [|[g d] rest IH]; [reflexivity |].
  cbn [build_dictionaries py_get mbind exc_bind]. rewrite IH. reflexivity.
Qed.

Lemma extract_dictionaries (json : pyval) (rows : list pyval)
    (dictionaries : list (string * pyval)) (timestamp : pyval) :
  extract_data_from_json json = Ok (rows, dictionaries, timestamp) ->
  map fst dictionaries = ["G1"; "G2"; "G3"; "G4"; "G5"; "G6"; "G7"; "G8"; "G9"; "G10"].
Proof.
  unfold extract_data_from_json. intros H.
  apply bind_ok in H. destruct H as (results & _ & H).
  destruct (negb (truthy results)); [discriminate |].
  do 6 (apply bind_ok in H; destruct H as (? & _ & H)).
  destruct (negb (truthy _)); [discriminate |].
  apply bind_ok in H. destruct H as (ds0 & _ & H).
  apply bind_ok in H. destruct H as (value_dicts & _ & H).
  apply bind_ok in H. destruct H as (tables & Htables & H).
  injection H as _ <- _.
  destruct value_dicts as [ | | | | | |vd]; try discriminate.
  rewrite build_dictionaries_tables in Htables. injection Htables as <-. reflexivity.
Qed.

(** C8.  The locator collects the nodes of the tree that are mappings
    with a sequence under [C], in depth-first encounter order through
    mappings and sequences at every depth, and the rows it hands on are
    those of them that have a value other than null under [R] or under
    [Ø], in the same order. *)
Theorem row_locator_spec (json : pyval) :
  find_rows json [] = List.filter is_candidate (subnodes json)
  /\ (forall rows dictionaries timestamp,
        extract_data_from_json json = Ok (rows, dictionaries, timestamp) ->
        rows = List.filter has_mask (List.filter is_candidate (subnodes json)))
  /\ (forall row,
        In row (List.filter has_mask (List.filter is_candidate (subnodes json)))
        <-> In row (subnodes json)
            /\ exists d c_values,
                 row = PDict d /\ dict_get d "C" = Some (PList c_values)
                 /\ ((exists v, dict_get d "Ø" = Some v /\ v <> PNone)
                     \/ (exists v, dict_get d "R" = Some v /\ v <> PNone))).
Proof.
  split; [apply (find_rows_subnodes json []) |].
  split.
  - intros rows dictionaries timestamp H. apply extract_rows in H.
    rewrite H, (find_rows_subnodes json []). reflexivity.
  - intros row. rewrite !List.filter_In, is_candidate_inv. split.
    + intros [[Hin (d & c & -> & Hc)] Hmask]. split; [exact Hin |].
      exists d, c. split; [reflexivity |]. split; [exact Hc |].
      apply has_mask_inv. exact Hmask.
    + intros [Hin (d & c & -> & Hc & Hmask)].
      split; [split; [exact Hin | eauto] |]. apply has_mask_inv. exact Hmask.
Qed.

(** ** Errors of a decode run *)

Lemma candidate_row_node (row : pyval) :
  is_candidate row = true -> masks_readable row = true -> row_node row.
Proof.
  intros Hc Hm. apply is_candidate_inv in Hc. destruct Hc as (d & c & -> & Hc).
  cbn in Hm. apply andb_true_iff in Hm. destruct Hm as [Hr Hs].
  exists d, c. auto.
Qed.

Lemma extract_candidates (json : pyval) (rows : list pyval)
    (dictionaries : list (string * pyval)) (timestamp : pyval) :
  extract_data_from_json json = Ok (rows, dictionaries, timestamp) ->
  Forall (fun row => is_candidate row = true) rows.
Proof.
  intros H. apply extract_rows in H. subst rows.
  rewrite (find_rows_subnodes json []). cbn [app].
  apply List.Forall_forall. intros row Hin.
  apply List.filter_In in Hin. destruct Hin as [Hin _].
  apply List.filter_In in Hin. tauto.
Qed.

Lemma py_getitem_head (x : pyval) (l : list pyval) :
  py_getitem (PList (x :: l)) 0 = Ok x.
Proof.
  exact (py_getitem_list (x :: l) 0 x eq_refl).
Qed.

Section RunProperties.

Variable host : interpreter.
Variable float_of_str : string -> exc spec_float.
Variable fromtimestamp_ymd : pyval -> exc string.

Local Abbreviation decode_row :=
  (process_row_with_binary_masks host float_of_str fromtimestamp_ymd).
Local Abbreviation run := (process_json_to_csv host float_of_str fromtimestamp_ymd).

(** A mask that is not an integer makes the decoder raise. *)
Lemma unreadable_row_raises (row : pyval) (previous_row : option (list pyval))
    (dictionaries : list (string * pyval)) :
  masks_readable row = false ->
  exists e, decode_row row previous_row dictionaries = Raise e.
Proof.
  intros Hm. unfold process_row_with_binary_masks, process_columns.
  destruct row as [ | | | | | |d]; try (eexists; reflexivity).
  cbn [py_get mbind exc_bind]. cbn in Hm. apply andb_false_iff in Hm.
  destruct (reverse_binary_16bit (dict_get_default d "R" (PInt 0))) as [rb|e] eqn:Hr;
    [| eexists; reflexivity].
  cbn [mbind exc_bind].
  destruct (reverse_binary_16bit (dict_get_default d "Ø" (PInt 0))) as [sb|e] eqn:Hs;
    [| eexists; reflexivity].
  exfalso.
  assert (H1 : is_mask (dict_get_default d "R" (PInt 0)) = true)
    by (apply reverse_binary_16bit_mask; eauto).
  assert (H2 : is_mask (dict_get_default d "Ø" (PInt 0)) = true)
    by (apply reverse_binary_16bit_mask; eauto).
  destruct Hm; congruence.
Qed.

Lemma row_node_decodes (row : pyval) (previous_row : option (list pyval))
    (dictionaries : list (string * pyval)) :
  row_node row ->
  register_ok previous_row ->
  exists decoded,
    decode_row row previous_row dictionaries = Ok decoded /\ length decoded = 15%nat.
Proof.
  intros Hrow Hreg. pose proof Hrow as (d & c & -> & _).
  destruct (row_decoded host float_of_str fromtimestamp_ymd d previous_row dictionaries Hrow Hreg)
    as (? & ? & ? & decoded & _ & _ & _ & Hdec & Hlen & _).
  eauto.
Qed.

(** Over located rows the batch returns exactly when every mask is
    readable: nothing in the sparse values or the tables raises. *)
Lemma batch_ok_iff (dictionaries : list (string * pyval)) (timestamp : pyval)
    (rows : list pyval) :
  Forall (fun row => is_candidate row = true) rows ->
  forall register,
    register_ok register ->
    (exists records,
       batch_from host float_of_str fromtimestamp_ymd dictionaries timestamp register rows
       = Ok records)
    <-> Forall (fun row => masks_readable row = true) rows.
Proof.
  induction 1 as [|row rest Hcand _ IH]; intros register Hreg.
  - split; [constructor | intros _; eexists; reflexivity].
  - cbn [batch_from]. split.
    + intros [records H].
      apply bind_ok in H. destruct H as (decoded & Hdec & H).
      apply bind_ok in H. destruct H as (record & Hrec & H).
      apply bind_ok in H. destruct H as (others & Hothers & _).
      assert (Hm : masks_readable row = true).
      { destruct (masks_readable row) eqn:Hm; [reflexivity |].
        destruct (unreadable_row_raises row register dictionaries Hm) as [e He].
        congruence. }
      constructor; [exact Hm |].
      destruct (row_node_decodes row register dictionaries
                  (candidate_row_node row Hcand Hm) Hreg) as (decoded' & Hdec' & Hlen).
      assert (decoded' = decoded) as -> by congruence.
      apply (IH (Some decoded)); [exact Hlen | eauto].
    + intros Hall. apply List.Forall_cons_iff in Hall. destruct Hall as [Hm Hall].
      destruct (row_node_decodes row register dictionaries
                  (candidate_row_node row Hcand Hm) Hreg) as (decoded & Hdec & Hlen).
      rewrite Hdec. cbn [mbind exc_bind].
      destruct (convert_total decoded timestamp ltac:(lia)) as [record ->].
      cbn [mbind exc_bind].
      destruct (proj2 (IH (Some decoded) Hlen) Hall) as [others ->].
      cbn [mbind exc_bind]. eexists. reflexivity.
Qed.

(** C5 (as amended).  A run raises [ValueError] when the results or the
    row-set container [DS] are absent or empty, and passes on any other
    error of the extraction.  Once the extraction has gone through, the
    run returns exactly when the masks of every located row are integers
    or null; with no located row it returns the empty output, and no
    sparse value and no dictionary table makes a row raise. *)
Theorem decode_run_errors (json : pyval) :
  (forall d,
     json = PDict d ->
     truthy (dict_get_default d "results" (PList [])) = false ->
     run json = Raise (ValueError "No results found in JSON data"))
  /\ (forall d first rest result data dsr,
        json = PDict d ->
        dict_get_default d "results" (PList []) = PList (PDict first :: rest) ->
        dict_get_default first "result" (PDict []) = PDict result ->
        dict_get_default result "data" (PDict []) = PDict data ->
        dict_get_default data "dsr" (PDict []) = PDict dsr ->
        truthy (dict_get_default dsr "DS" (PList [])) = false ->
        run json
        = Raise (ValueError
            "No DS data found in JSON structure - PowerBI session may not be established"))
  /\ (forall e, extract_data_from_json json = Raise e -> run json = Raise e)
  /\ (forall rows dictionaries timestamp,
        extract_data_from_json json = Ok (rows, dictionaries, timestamp) ->
        ((exists records, run json = Ok records)
         <-> Forall (fun row => masks_readable row = true) rows)
        /\ (rows = [] -> run json = Ok []))
  /\ (forall row previous_row dictionaries,
        row_node row ->
        register_ok previous_row ->
        exists decoded, decode_row row previous_row dictionaries = Ok decoded).
Proof.
  split; [| split; [| split; [| split]]].
  - intros d -> Hfalsy. unfold process_json_to_csv, extract_data_from_json.
    cbn [py_get mbind exc_bind]. rewrite Hfalsy. reflexivity.
  - intros d first rest result data dsr -> Hresults Hresult Hdata Hdsr Hfalsy.
    unfold process_json_to_csv, extract_data_from_json.
    cbn [py_get mbind exc_bind]. rewrite Hresults.
    cbn [truthy negb]. rewrite py_getitem_head. cbn [mbind exc_bind py_get].
    rewrite Hresult. cbn [py_get mbind exc_bind]. rewrite Hdata.
    cbn [py_get mbind exc_bind]. rewrite Hdsr. cbn [py_get mbind exc_bind].
    rewrite Hfalsy. reflexivity.
  - intros e He. unfold process_json_to_csv. rewrite He. reflexivity.
  - intros rows dictionaries timestamp Hext.
    unfold process_json_to_csv. rewrite Hext. cbn [mbind exc_bind].
    rewrite process_data_batch. split.
    + apply batch_ok_iff; [eapply extract_candidates; eauto | exact I].
    + intros ->. reflexivity.
  - intros row previous_row dictionaries Hrow Hreg.
    destruct (row_node_decodes row previous_row dictionaries Hrow Hreg) as (decoded & H & _).
    eauto.
Qed.

End RunProperties.

(** ** The cursor *)

(** The [try] statement leaves through the [continue] exactly when the
    raw entry is neither a string of digits nor a number. *)
Lemma map_dictionary_outcome (host : interpreter) (dict_values raw_value : pyval) :
  match index_of_raw host raw_value with
  | None => map_dictionary host dict_values raw_value = Ok (Continue raw_value)
  | Some _ => exists v, map_dictionary host dict_values raw_value = Ok (Advance v)
  end.
Proof.
  unfold map_dictionary.
  destruct (index_of_raw host raw_value) as [[k|e]|]; cbn [mbind exc_bind try_except];
    [| eauto | reflexivity].
  destruct (map_index dict_values k); cbn [mbind exc_bind try_except]; eauto.
Qed.

Section Cursor.

Variable host : interpreter.
Variable float_of_str : string -> exc spec_float.
Variable fromtimestamp_ymd : pyval -> exc string.

(** A column that consumes an entry moves the cursor by one, unless it is
    a dictionary column and the entry is no index: then the entry is
    written and the cursor stays on it. *)
Lemma consuming_column_cursor (c_values : list pyval) (r_binary sigma_binary : list ascii)
    (previous_row : option (list pyval)) (dictionaries : list (string * pyval))
    (result result' : list pyval) (vi vi' i : nat) (name : string) (raw_value : pyval) :
  columns !! i = Some name ->
  bit_at r_binary i = Ok (Z.b2z false) ->
  bit_at sigma_binary i = Ok (Z.b2z false) ->
  c_values !! vi = Some raw_value ->
  process_column host float_of_str fromtimestamp_ymd (PList c_values) r_binary sigma_binary
    previous_row dictionaries (result, vi) i = Ok (result', vi') ->
  vi' = if negb (String.eqb name "G0")
           && bool_decide (is_Some (dict_get dictionaries name))
           && bool_decide (index_of_raw host raw_value = None)
        then vi else S vi.
Proof.
  intros Hn Hr Hs Hc H.
  rewrite (column_consume host float_of_str fromtimestamp_ymd c_values r_binary sigma_binary
             previous_row dictionaries result vi i name raw_value Hn Hr Hs Hc) in H.
  destruct (String.eqb name "G0"); cbn [negb andb].
  { destruct (convert_timestamp_total float_of_str fromtimestamp_ymd raw_value) as [v Hv].
    rewrite Hv in H. cbn [mbind exc_bind] in H. congruence. }
  destruct (dict_get dictionaries name) as [dict_values|].
  2: { rewrite bool_decide_eq_false_2 by (intros [? ?]; discriminate).
       cbn [andb]. congruence. }
  rewrite bool_decide_eq_true_2 by eauto. cbn [andb].
  pose proof (map_dictionary_outcome host dict_values raw_value) as Hout.
  destruct (index_of_raw host raw_value) as [coerced|].
  - rewrite bool_decide_eq_false_2 by discriminate.
    destruct Hout as [v Hv]. rewrite Hv in H. cbn [mbind exc_bind] in H. congruence.
  - rewrite bool_decide_eq_true_2 by reflexivity.
    rewrite Hout in H. cbn [mbind exc_bind] in H. congruence.
Qed.

End Cursor.

(** C2 (defect of the code).  On a row whose second entry ["n/a"] is no
    index, the installation column writes the entry and leaves the cursor
    on it: the nine dictionary columns after it and the first measure
    read the same entry again, the entry [1] meant for the operator lands
    in the second measure, and the cursor ends at 3 after twelve columns
    have consumed. *)
Theorem cursor_stays_on_unmapped_entry :
  process_columns ref_interpreter ref_float_of_str utc_fromtimestamp_ymd
      (PDict unmapped_row_fields) None
    sample_dictionaries
  = Ok ([PStr "2023-11-14"; PStr "n/a"; PStr "n/a"; PStr "n/a"; PStr "n/a"; PStr "n/a";
         PStr "n/a"; PStr "n/a"; PStr "n/a"; PStr "n/a"; PStr "n/a"; PStr "n/a";
         PInt 1; PNone; PNone], 3%nat).
Proof. reflexivity. Qed.

(** ** The decoder on the sample response *)

Lemma first_row_node : row_node (PDict first_row_fields).
Proof.
  exists first_row_fields, [PInt 1700000000000; PStr "1"; PInt 0; PInt 5; PFloat (S754_zero false)].
  repeat split.
Qed.

Lemma second_row_node : row_node (PDict second_row_fields).
Proof.
  exists second_row_fields, [PInt 1700086400000; PStr "7"].
  repeat split.
Qed.

Lemma repeat_bit_inherits_witness :
  exists decoded,
    process_row_with_binary_masks ref_interpreter ref_float_of_str utc_fromtimestamp_ymd
      (PDict second_row_fields) (Some sample_decoded) sample_dictionaries = Ok decoded
    /\ decoded !! 1%nat = Some (slot sample_decoded 1)
    /\ (forall previous,
          Some sample_decoded = Some previous -> decoded !! 1%nat = previous !! 1%nat).
Proof.
  apply (repeat_bit_inherits ref_interpreter ref_float_of_str utc_fromtimestamp_ymd
      second_row_fields
           (Some sample_decoded) sample_dictionaries 1).
  - exact second_row_node.
  - reflexivity.
  - lia.
  - reflexivity.
Defined.

(** The example of the specification: bit 0 of the repeat mask copies the
    date of the previous row, with bit 0 of the null mask set as well;
    without a previous row the slot is null. *)
Example repeat_overrides_null :
  process_row_with_binary_masks ref_interpreter ref_float_of_str utc_fromtimestamp_ymd
    (PDict both_bits_row_fields) (Some sample_decoded) sample_dictionaries
  = Ok (PStr "2023-11-14" :: replicate 14 PNone)
  /\ process_row_with_binary_masks ref_interpreter ref_float_of_str utc_fromtimestamp_ymd
       (PDict both_bits_row_fields) None sample_dictionaries
     = Ok (replicate 15 PNone).
Proof. split; reflexivity. Qed.

Lemma dictionary_slot_resolution_witness :
  exists decoded,
    process_row_with_binary_masks ref_interpreter ref_float_of_str utc_fromtimestamp_ymd
      (PDict first_row_fields) None sample_dictionaries = Ok decoded
    /\ state_at_column ref_interpreter ref_float_of_str utc_fromtimestamp_ymd
         (PDict first_row_fields) None sample_dictionaries 1
       = Ok (PStr "2023-11-14" :: replicate 14 PNone, 1%nat)
    /\ decoded !! 1%nat = Some (PStr "Platform-B").
Proof.
  destruct (dictionary_slot_resolution ref_interpreter ref_float_of_str utc_fromtimestamp_ymd
              first_row_fields
              [PInt 1700000000000; PStr "1"; PInt 0; PInt 5; PFloat (S754_zero false)]
              None sample_dictionaries 1 "G1" [PStr "Platform-A"; PStr "Platform-B"])
    as ((decoded & result & cursor & Hdec & Hstate & _ & Hentry) & _).
  - exact first_row_node.
  - reflexivity.
  - exact I.
  - reflexivity.
  - discriminate.
  - reflexivity.
  - reflexivity.
  - reflexivity.
  - exists decoded. split; [exact Hdec |].
    assert (Hat : state_at_column ref_interpreter ref_float_of_str utc_fromtimestamp_ymd
                    (PDict first_row_fields) None sample_dictionaries 1
                  = Ok (PStr "2023-11-14" :: replicate 14 PNone, 1%nat)) by reflexivity.
    split; [exact Hat |].
    rewrite Hat in Hstate. injection Hstate as <- <-.
    destruct (Hentry (PStr "1") eq_refl) as [Hindex _].
    destruct (Hindex 1 (reading_digits ref_interpreter "1" 1 eq_refl eq_refl)) as [Hinside _].
    destruct Hinside as (v & Hv & Hslot); [cbn; lia |].
    cbn in Hv. injection Hv as <-. exact Hslot.
Defined.

(** The examples of the specification: entry ["1"] of a table of two is
    its second value, entry ["5"] the placeholder of 5; an entry that is
    no index is held as it is and the cursor stays, and a table without
    a length hands the entry on. *)
Example dictionary_examples :
  map_dictionary ref_interpreter (PList [PStr "Platform-A"; PStr "Platform-B"]) (PStr "1")
  = Ok (Advance (PStr "Platform-B"))
  /\ map_dictionary ref_interpreter (PList [PStr "Platform-A"; PStr "Platform-B"]) (PStr "5")
     = Ok (Advance (PStr "Index_5_OutOfRange"))
  /\ map_dictionary ref_interpreter (PList [PStr "Platform-A"; PStr "Platform-B"])
       (PStr "n/a")
     = Ok (Continue (PStr "n/a"))
  /\ map_dictionary ref_interpreter PNone (PInt 1) = Ok (Advance (PInt 1)).
Proof. repeat split. Qed.

(** Digits beyond ASCII: the Arabic-Indic digit one is an index, and the
    superscript two is a digit that [int] rejects, so it is held as it is
    by the handler, with the cursor moved on.  A numeral of 4301 digits
    is held as it is as well. *)
Example unicode_digit_examples :
  map_dictionary ref_interpreter (PList [PStr "Platform-A"; PStr "Platform-B"]) (PStr "١")
  = Ok (Advance (PStr "Platform-B"))
  /\ map_dictionary ref_interpreter (PList [PStr "Platform-A"; PStr "Platform-B"]) (PStr "²")
     = Ok (Advance (PStr "²"))
  /\ str_isdigit ref_interpreter (string_of_list_ascii (replicate 4301 "1"%char)) = true
  /\ map_dictionary ref_interpreter (PList [PStr "Platform-A"; PStr "Platform-B"])
       (PStr (string_of_list_ascii (replicate 4301 "1"%char)))
     = Ok (Advance (PStr (string_of_list_ascii (replicate 4301 "1"%char))))
  /\ is_ok (int_of_digits ref_interpreter (string_of_list_ascii (replicate 4300 "1"%char)))
     = true.
Proof. repeat split; vm_compute; reflexivity. Qed.

(** C3, as stated, fails: the string ["-1"] coerces to the integer -1,
    which is outside every table, and the installation column holds the
    string as it is, not the placeholder of -1. *)
Lemma signed_numeral_passed_through :
  coerces_to_integer (PStr "-1") = Some (-1)
  /\ process_row_with_binary_masks ref_interpreter ref_float_of_str utc_fromtimestamp_ymd
       (PDict signed_row_fields) None sample_dictionaries
     = Ok (PStr "2023-11-14" :: PStr "-1" :: replicate 13 PNone)
  /\ placeholder (-1) = "Index_-1_OutOfRange"
  /\ String.eqb "-1" (placeholder (-1)) = false.
Proof. repeat split. Qed.

Lemma timestamp_slot_rendering_witness :
  exists decoded v,
    process_row_with_binary_masks ref_interpreter ref_float_of_str utc_fromtimestamp_ymd
      (PDict first_row_fields) None sample_dictionaries = Ok decoded
    /\ decoded !! 0%nat = Some v
    /\ convert_timestamp ref_float_of_str utc_fromtimestamp_ymd (PInt 1700000000000) = Ok v
    /\ timestamp_rendering ref_float_of_str utc_fromtimestamp_ymd (PInt 1700000000000) v
    /\ (forall w,
          timestamp_rendering ref_float_of_str utc_fromtimestamp_ymd (PInt 1700000000000) w ->
          w = v).
Proof.
  apply (timestamp_slot_rendering ref_interpreter ref_float_of_str utc_fromtimestamp_ymd
           first_row_fields None sample_dictionaries (PInt 1700000000000)
           [PStr "1"; PInt 0; PInt 5; PFloat (S754_zero false)]).
  - exact first_row_node.
  - exact I.
  - reflexivity.
  - reflexivity.
  - reflexivity.
Defined.

(** Timestamps on the reference host: milliseconds, seconds, a numeric
    string, and a string that is no number. *)
Example timestamp_examples :
  convert_timestamp ref_float_of_str utc_fromtimestamp_ymd (PInt 1700000000000)
  = Ok (PStr "2023-11-14")
  /\ convert_timestamp ref_float_of_str utc_fromtimestamp_ymd (PInt 1700000000)
     = Ok (PStr "2023-11-14")
  /\ convert_timestamp ref_float_of_str utc_fromtimestamp_ymd (PStr "1700000000000")
     = Ok (PStr "2023-11-14")
  /\ convert_timestamp ref_float_of_str utc_fromtimestamp_ymd (PStr "n/a") = Ok (PStr "n/a")
  /\ convert_timestamp ref_float_of_str utc_fromtimestamp_ymd PNone = Ok PNone.
Proof. repeat split. Qed.

(** C4, as stated, fails: an entry of 86400 seconds is a timestamp the
    host renders as 1970-01-02, and the date slot holds the number, not a
    date; the same entry as a string comes back as a float. *)
Lemma small_timestamp_not_rendered :
  process_row_with_binary_masks ref_interpreter ref_float_of_str utc_fromtimestamp_ymd
    (PDict epoch_day_row_fields) None sample_dictionaries
  = Ok (PInt 86400 :: replicate 14 PNone)
  /\ utc_fromtimestamp_ymd (PInt 86400) = Ok "1970-01-02"
  /\ convert_timestamp ref_float_of_str utc_fromtimestamp_ymd (PStr "86400")
     = Ok (PFloat (S754_finite false 5937362789990400 (-36))).
Proof. repeat split. Qed.

Lemma decode_run_errors_witness :
  process_json_to_csv ref_interpreter ref_float_of_str utc_fromtimestamp_ymd (PDict [])
  = Raise (ValueError "No results found in JSON data")
  /\ process_json_to_csv ref_interpreter ref_float_of_str utc_fromtimestamp_ymd empty_container_json
     = Raise (ValueError
         "No DS data found in JSON structure - PowerBI session may not be established")
  /\ (exists records,
        process_json_to_csv ref_interpreter ref_float_of_str utc_fromtimestamp_ymd
            sample_json = Ok records)
  /\ process_json_to_csv ref_interpreter ref_float_of_str utc_fromtimestamp_ymd no_rows_json = Ok []
  /\ (exists decoded,
        process_row_with_binary_masks ref_interpreter ref_float_of_str utc_fromtimestamp_ymd
          (PDict first_row_fields) None sample_dictionaries = Ok decoded).
Proof.
  split.
  { apply (proj1 (decode_run_errors ref_interpreter ref_float_of_str utc_fromtimestamp_ymd
      (PDict [])) []);
      reflexivity. }
  split.
  { destruct (decode_run_errors ref_interpreter ref_float_of_str utc_fromtimestamp_ymd
      empty_container_json)
      as (_ & H & _).
    apply (H [("results",
               PList [PDict [("result",
                              PDict [("data", PDict [("dsr", PDict [("DS", PList [])])])])]])]
             [("result", PDict [("data", PDict [("dsr", PDict [("DS", PList [])])])])] []
             [("data", PDict [("dsr", PDict [("DS", PList [])])])]
             [("dsr", PDict [("DS", PList [])])] [("DS", PList [])]);
      reflexivity. }
  split.
  { destruct (decode_run_errors ref_interpreter ref_float_of_str utc_fromtimestamp_ymd sample_json)
      as (_ & _ & _ & H & _).
    destruct (H sample_rows sample_dictionaries (PStr "2024-01-01T00:00:00") eq_refl)
      as [Hiff _].
    apply Hiff. repeat constructor. }
  split.
  { destruct (decode_run_errors ref_interpreter ref_float_of_str utc_fromtimestamp_ymd no_rows_json)
      as (_ & _ & _ & H & _).
    destruct (H [] (map (fun slot => (fst slot, PList [])) dictionary_slots)
                (PStr EmptyString) eq_refl) as [_ Hempty].
    apply Hempty. reflexivity. }
  destruct (decode_run_errors ref_interpreter ref_float_of_str utc_fromtimestamp_ymd sample_json)
    as (_ & _ & _ & _ & H).
  apply H; [exact first_row_node | exact I].
Defined.

(** The run on the sample response, and on a response without rows. *)
Example sample_run :
  process_json_to_csv ref_interpreter ref_float_of_str utc_fromtimestamp_ymd
      sample_json = Ok sample_records
  /\ process_json_to_csv ref_interpreter ref_float_of_str utc_fromtimestamp_ymd no_rows_json = Ok []
  /\ process_json_to_csv ref_interpreter ref_float_of_str utc_fromtimestamp_ymd (PDict [])
     = Raise (ValueError "No results found in JSON data").
Proof. repeat split. Qed.

(** C5, as stated, fails: with the row-set container in place, a row
    whose repeat mask is the string ["1"] makes the run raise from the
    decoding of that row, and tables that are null make it raise another
    error than the one of a missing container. *)
Lemma unreadable_mask_raises :
  is_ok (extract_data_from_json text_mask_json) = true
  /\ process_json_to_csv ref_interpreter ref_float_of_str utc_fromtimestamp_ymd text_mask_json
     = Raise (ValueError "Unknown format code 'b'")
  /\ process_json_to_csv ref_interpreter ref_float_of_str utc_fromtimestamp_ymd null_tables_json
     = Raise AttributeError.
Proof. repeat split. Qed.

Lemma batch_driver_sequential_witness :
  exists decoded,
    length decoded = length sample_rows
    /\ (forall n row d,
          sample_rows !! n = Some row -> decoded !! n = Some d ->
          process_row_with_binary_masks ref_interpreter ref_float_of_str utc_fromtimestamp_ymd row
            (match n with O => None | S m => decoded !! m end) sample_dictionaries
          = Ok d)
    /\ sample_records = omap (accepted (PStr "2024-01-01T00:00:00")) decoded.
Proof.
  exact (proj2 (batch_driver_sequential ref_interpreter ref_float_of_str utc_fromtimestamp_ymd
                  sample_dictionaries (PStr "2024-01-01T00:00:00") sample_rows)
           sample_records eq_refl).
Defined.

(** The second row of the sample is rejected for its date, and the third
    row still takes its installation from the decoded second row. *)
Example rejected_row_is_context :
  decoded_from ref_interpreter ref_float_of_str utc_fromtimestamp_ymd
      sample_dictionaries None sample_rows
  = Ok sample_decoded_rows
  /\ omap (accepted (PStr "2024-01-01T00:00:00")) sample_decoded_rows = sample_records.
Proof. split; reflexivity. Qed.

Lemma output_dates_non_empty_witness :
  Forall (fun r => truthy (date r) = true /\ date r <> PStr EmptyString /\ date r <> PNone)
    sample_records
  /\ convert_processed_row_to_csv (PNone :: PStr "Platform-A" :: replicate 13 PNone)
       (PStr "2024-01-01T00:00:00") = Ok None
  /\ accepted (PStr "2024-01-01T00:00:00") (PNone :: PStr "Platform-A" :: replicate 13 PNone)
     = None.
Proof.
  destruct (output_dates_non_empty ref_interpreter ref_float_of_str utc_fromtimestamp_ymd
      sample_dictionaries
              (PStr "2024-01-01T00:00:00") sample_rows sample_records
              (PNone :: PStr "Platform-A" :: replicate 13 PNone)) as [H1 H2].
  split; [apply H1; reflexivity | apply H2; reflexivity].
Defined.

Lemma row_locator_spec_witness :
  sample_rows = List.filter has_mask (List.filter is_candidate (subnodes sample_json)).
Proof.
  exact (proj1 (proj2 (row_locator_spec sample_json)) sample_rows sample_dictionaries
           (PStr "2024-01-01T00:00:00") eq_refl).
Defined.

(** The locator on the sample response: the summary node is a candidate
    and is not handed on. *)
Example locator_sample :
  find_rows sample_json [] = PDict summary_fields :: sample_rows
  /\ has_mask (PDict summary_fields) = false.
Proof. split; reflexivity. Qed.

(** ** A column as a function of the entry under the cursor *)

Lemma for_each_ext {S A : Type} (f g : S -> A -> exc S) (items : list A) :
  (forall st x, In x items -> f st x = g st x) ->
  forall st, for_each f items st = for_each g items st.
Proof.
  induction items as [|x rest IH]; intros Hfg st; [reflexivity |].
  cbn [for_each]. rewrite (Hfg st x) by (left; reflexivity).
  destruct (g st x); [| reflexivity].
  apply IH. intros st' y Hy. apply Hfg. right. exact Hy.
Qed.

Section ColumnFunction.

Variable host : interpreter.
Variable float_of_str : string -> exc spec_float.
Variable fromtimestamp_ymd : pyval -> exc string.
Variable previous_row : option (list pyval).
Variable dictionaries : list (string * pyval).

Local Abbreviation column := (process_column host float_of_str fromtimestamp_ymd).
Local Abbreviation write := (write_entry host float_of_str fromtimestamp_ymd dictionaries).

(** Over a list, the bounds test and the read of [c_values] are a lookup. *)
Lemma column_by_lookup (c_values : list pyval) (r_binary sigma_binary : list ascii)
    (result : list pyval) (vi i : nat) :
  column (PList c_values) r_binary sigma_binary previous_row dictionaries (result, vi) i
  = (column_name ← list_index columns i;
     r_bit ← bit_at r_binary i;
     sigma_bit ← bit_at sigma_binary i;
     if r_bit =? 1 then
       match previous_row with
       | Some ((_ :: _) as previous) =>
           v ← list_index previous i;
           Ok (<[i := v]> result, vi)
       | Some [] | None => Ok (<[i := PNone]> result, vi)
       end
     else if sigma_bit =? 1 then Ok (<[i := PNone]> result, vi)
     else
       match c_values !! vi with
       | Some raw_value => write result vi i column_name raw_value
       | None => Ok (<[i := PNone]> result, vi)
       end).
Proof.
  unfold process_column.
  destruct (list_index columns i) as [name|e]; [| reflexivity]. cbn [mbind exc_bind].
  destruct (bit_at r_binary i) as [rb|e]; [| reflexivity]. cbn [mbind exc_bind].
  destruct (bit_at sigma_binary i) as [sb|e]; [| reflexivity]. cbn [mbind exc_bind].
  destruct (rb =? 1); [reflexivity |].
  destruct (sb =? 1); [reflexivity |].
  cbn [py_len mbind exc_bind].
  destruct (c_values !! vi) as [raw_value|] eqn:Hc.
  - pose proof (lookup_lt_Some _ _ _ Hc) as Hlt.
    replace (Z.of_nat vi <? Z.of_nat (length c_values)) with true
      by (symmetry; apply Z.ltb_lt; lia).
    rewrite (py_getitem_list _ _ _ Hc). reflexivity.
  - apply lookup_ge_None in Hc.
    replace (Z.of_nat vi <? Z.of_nat (length c_values)) with false
      by (symmetry; apply Z.ltb_ge; lia).
    reflexivity.
Qed.

Lemma write_entry_cursor (result result' : list pyval) (vi vi' i : nat) (name : string)
    (raw_value : pyval) :
  write result vi i name raw_value = Ok (result', vi') ->
  (vi <= vi' <= S vi)%nat.
Proof.
  unfold write_entry. intros H.
  destruct (String.eqb name "G0").
  { apply bind_ok in H. destruct H as (v & _ & H). injection H as _ <-. lia. }
  destruct (dict_get dictionaries name) as [dict_values|].
  2: { injection H as _ <-. lia. }
  apply bind_ok in H. destruct H as ([v|v] & _ & H); injection H as _ <-; lia.
Qed.

(** A column moves the cursor by one at most, and never back. *)
Lemma column_cursor (c_values : list pyval) (r_binary sigma_binary : list ascii)
    (result result' : list pyval) (vi vi' i : nat) :
  column (PList c_values) r_binary sigma_binary previous_row dictionaries (result, vi) i
  = Ok (result', vi') ->
  (vi <= vi' <= S vi)%nat /\ (vi' <= length c_values \/ vi' = vi)%nat.
Proof.
  rewrite column_by_lookup. intros H.
  apply bind_ok in H. destruct H as (name & _ & H).
  apply bind_ok in H. destruct H as (rb & _ & H).
  apply bind_ok in H. destruct H as (sb & _ & H).
  destruct (rb =? 1).
  { destruct previous_row as [[|x p]|].
    - injection H as _ <-. lia.
    - apply bind_ok in H. destruct H as (v & _ & H). injection H as _ <-. lia.
    - injection H as _ <-. lia. }
  destruct (sb =? 1).
  { injection H as _ <-. lia. }
  destruct (c_values !! vi) as [raw_value|] eqn:Hc.
  - apply lookup_lt_Some in Hc. apply write_entry_cursor in H. lia.
  - injection H as _ <-. lia.
Qed.

(** A column reads the masks at its own position only. *)
Lemma column_bits_ext (c_values : pyval) (rb rb' sb sb' : list ascii)
    (st : list pyval * nat) (i : nat) :
  bit_at rb i = bit_at rb' i ->
  bit_at sb i = bit_at sb' i ->
  column c_values rb sb previous_row dictionaries st i
  = column c_values rb' sb' previous_row dictionaries st i.
Proof.
  intros Hr Hs. unfold process_column. destruct st as [result vi].
  rewrite Hr, Hs. reflexivity.
Qed.

(** A column reads of [C] the entry under the cursor only. *)
Lemma column_entries_ext (c c' : list pyval) (rb sb : list ascii)
    (result : list pyval) (vi i : nat) :
  c !! vi = c' !! vi ->
  column (PList c) rb sb previous_row dictionaries (result, vi) i
  = column (PList c') rb sb previous_row dictionaries (result, vi) i.
Proof.
  intros Hc. rewrite !column_by_lookup, Hc. reflexivity.
Qed.

(** The loop never looks at the entries of [C] from position 15 on. *)
Lemma columns_loop_take (c_values : list pyval) (rb sb : list ascii) (n : nat) :
  forall (a : nat) (result : list pyval) (vi : nat),
    (vi <= a)%nat ->
    (a + n <= 15)%nat ->
    for_each (column (PList c_values) rb sb previous_row dictionaries) (seq a n) (result, vi)
    = for_each (column (PList (take 15 c_values)) rb sb previous_row dictionaries)
        (seq a n) (result, vi).
Proof.
  induction n as [|n IH]; intros a result vi Hvi Ha; [reflexivity |].
  cbn [seq for_each].
  rewrite <- (column_entries_ext c_values (take 15 c_values))
    by (symmetry; apply lookup_take_lt; lia).
  destruct (column (PList c_values) rb sb previous_row dictionaries (result, vi) a)
    as [[result' vi']|e] eqn:Hstep; [| reflexivity].
  apply column_cursor in Hstep. apply IH; lia.
Qed.

End ColumnFunction.

(** ** The decoder: null bits, pass-through columns, and what is never read *)

Section DecoderEdges.

Variable host : interpreter.
Variable float_of_str : string -> exc spec_float.
Variable fromtimestamp_ymd : pyval -> exc string.

Local Abbreviation decode_row :=
  (process_row_with_binary_masks host float_of_str fromtimestamp_ymd).
Local Abbreviation decode_columns := (process_columns host float_of_str fromtimestamp_ymd).
Local Abbreviation column := (process_column host float_of_str fromtimestamp_ymd).

(** X1.  A column whose bit is clear in the repeat mask and set in the
    null mask is null in the decoded row, whatever [C], the previous row
    and the tables hold. *)
Theorem null_bit_gives_null (d : list (string * pyval)) (previous_row : option (list pyval))
    (dictionaries : list (string * pyval)) (i : nat) :
  row_node (PDict d) ->
  register_ok previous_row ->
  (i < 15)%nat ->
  mask_bit (dict_get_default d "R" (PInt 0)) i = false ->
  mask_bit (dict_get_default d "Ø" (PInt 0)) i = true ->
  exists decoded,
    decode_row (PDict d) previous_row dictionaries = Ok decoded
    /\ decoded !! i = Some PNone.
Proof.
  intros Hrow Hreg Hi Hrbit Hsbit.
  destruct (row_decoded host float_of_str fromtimestamp_ymd d previous_row dictionaries Hrow Hreg)
    as (c_values & r_binary & sigma_binary & decoded & Hc & Hr & Hs & Hdec & Hlen & Hslots).
  destruct (Hslots i Hi) as (result & vi & v & vi' & Hcol & Hv & Hrl & _).
  destruct (columns_lookup i Hi) as [name Hn].
  pose proof (bit_at_mask _ _ i Hr Hi) as Hrb. rewrite Hrbit in Hrb.
  pose proof (bit_at_mask _ _ i Hs Hi) as Hsb. rewrite Hsbit in Hsb.
  rewrite (column_null host float_of_str fromtimestamp_ymd c_values r_binary sigma_binary
             previous_row dictionaries result vi i name Hn Hrb Hsb) in Hcol.
  apply insert_same_slot in Hcol; [| lia]. destruct Hcol as [<- _].
  exists decoded. split; assumption.
Qed.

(** X2.  A column other than [G0] that has no table (the measures [M0]
    to [M3] of a run) and whose bits are clear holds the raw entry under
    the cursor the loop enters it with, as it is and of any type, and
    null when no entry is left there; that cursor has passed [i] entries
    at most at column [i]. *)
Theorem untabled_column_passes_entry (d : list (string * pyval)) (c_values : list pyval)
    (previous_row : option (list pyval)) (dictionaries : list (string * pyval))
    (i : nat) (name : string) :
  row_node (PDict d) ->
  dict_get d "C" = Some (PList c_values) ->
  register_ok previous_row ->
  columns !! i = Some name ->
  name <> "G0" ->
  dict_get dictionaries name = None ->
  mask_bit (dict_get_default d "R" (PInt 0)) i = false ->
  mask_bit (dict_get_default d "Ø" (PInt 0)) i = false ->
  exists decoded result cursor,
    decode_row (PDict d) previous_row dictionaries = Ok decoded
    /\ state_at_column host float_of_str fromtimestamp_ymd (PDict d) previous_row
         dictionaries i = Ok (result, cursor)
    /\ (cursor <= i)%nat
    /\ decoded !! i = Some (match c_values !! cursor with
                            | Some raw_value => raw_value
                            | None => PNone
                            end).
Proof.
  intros Hrow Hentries Hreg Hn Hg0 Htable Hrbit Hsbit.
  assert (Hi : (i < 15)%nat) by (apply lookup_lt_Some in Hn; exact Hn).
  destruct (row_decoded_at host float_of_str fromtimestamp_ymd d previous_row dictionaries i
              Hrow Hreg Hi)
    as (c_values' & r_binary & sigma_binary & decoded & result & cursor & v & cursor'
        & Hc & Hr & Hs & Hdec & Hstate & Hcol & Hv & Hrl & Hcursor).
  rewrite Hentries in Hc. injection Hc as <-.
  pose proof (bit_at_mask _ _ i Hr Hi) as Hrb. rewrite Hrbit in Hrb.
  pose proof (bit_at_mask _ _ i Hs Hi) as Hsb. rewrite Hsbit in Hsb.
  exists decoded, result, cursor.
  split; [exact Hdec |]. split; [exact Hstate |]. split; [exact Hcursor |].
  rewrite Hv. f_equal.
  destruct (c_values !! cursor) as [raw_value|] eqn:Hraw.
  - rewrite (column_consume host float_of_str fromtimestamp_ymd c_values r_binary sigma_binary
               previous_row dictionaries result cursor i name raw_value Hn Hrb Hsb Hraw)
      in Hcol.
    apply String.eqb_neq in Hg0. rewrite Hg0, Htable in Hcol.
    apply insert_same_slot in Hcol; [| lia]. destruct Hcol as [<- _]. reflexivity.
  - rewrite (column_exhausted host float_of_str fromtimestamp_ymd c_values r_binary
               sigma_binary previous_row dictionaries result cursor i name Hn Hrb Hsb Hraw)
      in Hcol.
    apply insert_same_slot in Hcol; [| lia]. destruct Hcol as [<- _]. reflexivity.
Qed.

(** X3.  The decoder reads bits 0 to 14 of the two masks and nothing
    else of them: two rows with the same [C] whose masks agree on these
    bits decode alike, errors included.  So bit 15 and the bits above it
    are ignored, a negative mask is read as its absolute value, and a
    null mask as 0. *)
Theorem masks_read_by_low_bits (d d' : list (string * pyval))
    (previous_row : option (list pyval)) (dictionaries : list (string * pyval)) :
  dict_get_default d "C" (PList []) = dict_get_default d' "C" (PList []) ->
  is_mask (dict_get_default d "R" (PInt 0)) = true ->
  is_mask (dict_get_default d' "R" (PInt 0)) = true ->
  is_mask (dict_get_default d "Ø" (PInt 0)) = true ->
  is_mask (dict_get_default d' "Ø" (PInt 0)) = true ->
  (forall i, (i < 15)%nat ->
     mask_bit (dict_get_default d "R" (PInt 0)) i
     = mask_bit (dict_get_default d' "R" (PInt 0)) i) ->
  (forall i, (i < 15)%nat ->
     mask_bit (dict_get_default d "Ø" (PInt 0)) i
     = mask_bit (dict_get_default d' "Ø" (PInt 0)) i) ->
  decode_row (PDict d) previous_row dictionaries
  = decode_row (PDict d') previous_row dictionaries.
Proof.
  intros Hc Hr Hr' Hs Hs' Hrbits Hsbits.
  unfold process_row_with_binary_masks, process_columns.
  cbn [py_get mbind exc_bind]. rewrite <- Hc.
  apply reverse_binary_16bit_mask in Hr, Hr', Hs, Hs'.
  destruct Hr as [rb Hr], Hr' as [rb' Hr'], Hs as [sb Hs], Hs' as [sb' Hs'].
  rewrite Hr, Hr', Hs, Hs'. cbn [mbind exc_bind].
  rewrite (for_each_ext
             (column (dict_get_default d "C" (PList [])) rb sb previous_row dictionaries)
             (column (dict_get_default d "C" (PList [])) rb' sb' previous_row dictionaries));
    [reflexivity |].
  intros st i Hin. apply in_seq in Hin.
  apply column_bits_ext.
  - rewrite (bit_at_mask _ _ i Hr), (bit_at_mask _ _ i Hr') by lia.
    rewrite Hrbits by lia. reflexivity.
  - rewrite (bit_at_mask _ _ i Hs), (bit_at_mask _ _ i Hs') by lia.
    rewrite Hsbits by lia. reflexivity.
Qed.

Lemma columns_loop_cursor (c_values : list pyval) (rb sb : list ascii)
    (previous_row : option (list pyval)) (dictionaries : list (string * pyval)) (n : nat) :
  forall (a : nat) (result final : list pyval) (vi vi' : nat),
    for_each (column (PList c_values) rb sb previous_row dictionaries) (seq a n) (result, vi)
    = Ok (final, vi') ->
    (vi <= vi' <= vi + n)%nat /\ (vi' <= length c_values \/ vi' = vi)%nat.
Proof.
  induction n as [|n IH]; intros a result final vi vi' H.
  - injection H as _ <-. lia.
  - cbn [seq for_each] in H.
    destruct (column (PList c_values) rb sb previous_row dictionaries (result, vi) a)
      as [[result1 vi1]|e] eqn:Hstep; [| discriminate].
    apply column_cursor in Hstep. apply IH in H. lia.
Qed.

(** X4.  The decoder consumes fifteen entries of [C] at most, never more
    than [C] holds, and does not look at the entries from position 15
    on: a row decodes as the row with [C] cut to its first fifteen
    entries, errors included. *)
Theorem entries_beyond_fifteen_unread (d d' : list (string * pyval))
    (c_values : list pyval) (previous_row : option (list pyval))
    (dictionaries : list (string * pyval)) :
  dict_get d "C" = Some (PList c_values) ->
  dict_get d' "C" = Some (PList (take 15 c_values)) ->
  dict_get_default d "R" (PInt 0) = dict_get_default d' "R" (PInt 0) ->
  dict_get_default d "Ø" (PInt 0) = dict_get_default d' "Ø" (PInt 0) ->
  decode_row (PDict d) previous_row dictionaries
  = decode_row (PDict d') previous_row dictionaries
  /\ forall decoded cursor,
       decode_columns (PDict d) previous_row dictionaries = Ok (decoded, cursor) ->
       (cursor <= 15)%nat /\ (cursor <= length c_values)%nat.
Proof.
  intros Hc Hc' Hr Hs.
  unfold process_row_with_binary_masks, process_columns.
  cbn [py_get mbind exc_bind]. unfold dict_get_default at 1 4 7.
  rewrite Hc, Hc', <- Hr, <- Hs.
  destruct (reverse_binary_16bit (dict_get_default d "R" (PInt 0))) as [rb|e];
    [| split; [reflexivity | intros; discriminate]].
  cbn [mbind exc_bind].
  destruct (reverse_binary_16bit (dict_get_default d "Ø" (PInt 0))) as [sb|e];
    [| split; [reflexivity | intros; discriminate]].
  cbn [mbind exc_bind]. split.
  - rewrite (columns_loop_take host float_of_str fromtimestamp_ymd previous_row dictionaries
               c_values rb sb 15 0 (replicate 15 PNone) 0) by lia.
    reflexivity.
  - intros decoded cursor H. apply columns_loop_cursor in H. lia.
Qed.

End DecoderEdges.

(** ** The decoder as a function of the masks *)

Lemma rank_succ (r_value sigma_value : pyval) (a : nat) :
  rank r_value sigma_value (S a)
  = (rank r_value sigma_value a + if consumes r_value sigma_value a then 1 else 0)%nat.
Proof.
  unfold rank. rewrite seq_S, List.filter_app, length_app. cbn [List.filter plus].
  destruct (consumes r_value sigma_value a); reflexivity.
Qed.

Section DecoderByRank.

Variable host : interpreter.
Variable float_of_str : string -> exc spec_float.
Variable fromtimestamp_ymd : pyval -> exc string.
Variable c_values : list pyval.
Variables r_value sigma_value : pyval.
Variables r_binary sigma_binary : list ascii.
Variable previous_row : option (list pyval).
Variable dictionaries : list (string * pyval).

Hypothesis r_read : reverse_binary_16bit r_value = Ok r_binary.
Hypothesis sigma_read : reverse_binary_16bit sigma_value = Ok sigma_binary.
Hypothesis register_full : register_ok previous_row.
Hypothesis indices :
  indices_at_dictionary_columns host r_value sigma_value c_values dictionaries.

Local Abbreviation column :=
  (process_column host float_of_str fromtimestamp_ymd (PList c_values) r_binary sigma_binary
     previous_row dictionaries).
Local Abbreviation expected :=
  (slot_by_rank host float_of_str fromtimestamp_ymd r_value sigma_value c_values previous_row
     dictionaries).
Local Abbreviation cursor_at :=
  (fun a => Nat.min (rank r_value sigma_value a) (length c_values)).

(** One column, entered with the cursor on the entry of its rank. *)
Lemma column_by_rank (result : list pyval) (a : nat) :
  (a < 15)%nat ->
  column (result, cursor_at a) a = Ok (<[a := expected a]> result, cursor_at (S a)).
Proof.
  intros Ha.
  destruct (columns_lookup a Ha) as [name Hn].
  pose proof (bit_at_mask _ _ a r_read Ha) as Hrb.
  pose proof (bit_at_mask _ _ a sigma_read Ha) as Hsb.
  pose proof (rank_succ r_value sigma_value a) as Hrank.
  pose proof (indices a name) as Hidx.
  unfold slot_by_rank, consumes in *.
  destruct (mask_bit r_value a).
  { cbn [negb andb] in Hrank. rewrite Hrank, Nat.add_0_r.
    eapply column_repeat; eauto. }
  destruct (mask_bit sigma_value a).
  { cbn [negb andb] in Hrank. rewrite Hrank, Nat.add_0_r.
    eapply column_null; eauto. }
  cbn [negb andb] in Hrank, Hidx. rewrite Hrank, Hn.
  destruct (c_values !! Nat.min (rank r_value sigma_value a) (length c_values))
    as [raw_value|] eqn:Hc.
  - pose proof (lookup_lt_Some _ _ _ Hc) as Hlt.
    assert (Hmin : Nat.min (rank r_value sigma_value a) (length c_values)
                   = rank r_value sigma_value a) by lia.
    rewrite Hmin in Hc |- *.
    rewrite (column_consume host float_of_str fromtimestamp_ymd c_values r_binary sigma_binary
               previous_row dictionaries result _ a name raw_value Hn Hrb Hsb Hc).
    rewrite Hc.
    replace (Nat.min (rank r_value sigma_value a + 1) (length c_values))
      with (S (rank r_value sigma_value a)) by lia.
    unfold entry_value.
    destruct (String.eqb name "G0") eqn:Hg0.
    { destruct (convert_timestamp_total float_of_str fromtimestamp_ymd raw_value) as [v ->].
      reflexivity. }
    destruct (dict_get dictionaries name) as [dict_values|] eqn:Htable; [| reflexivity].
    pose proof (map_dictionary_outcome host dict_values raw_value) as Hout.
    destruct (index_of_raw host raw_value) as [coerced|] eqn:Hindex.
    + destruct Hout as [v ->]. reflexivity.
    + exfalso. apply (Hidx raw_value); auto.
      apply String.eqb_neq. exact Hg0.
  - pose proof (proj1 (lookup_ge_None _ _) Hc) as Hge.
    assert (Hrank_ge : (length c_values <= rank r_value sigma_value a)%nat) by lia.
    rewrite (proj2 (lookup_ge_None c_values (rank r_value sigma_value a)) Hrank_ge).
    replace (Nat.min (rank r_value sigma_value a + 1) (length c_values))
      with (Nat.min (rank r_value sigma_value a) (length c_values)) by lia.
    eapply column_exhausted; eauto.
Qed.

Lemma columns_by_rank (n : nat) :
  forall (a : nat) (result : list pyval),
    (a + n <= 15)%nat ->
    length result = 15%nat ->
    exists final,
      for_each column (seq a n) (result, cursor_at a) = Ok (final, cursor_at (a + n)%nat)
      /\ length final = 15%nat
      /\ (forall j, (j < a \/ a + n <= j)%nat -> final !! j = result !! j)
      /\ (forall i, (a <= i < a + n)%nat -> final !! i = Some (expected i)).
Proof.
  induction n as [|n IH]; intros a result Ha Hlen.
  - exists result. cbn [seq for_each]. rewrite Nat.add_0_r.
    repeat split; try assumption. intros i Hi. lia.
  - cbn [seq for_each]. rewrite (column_by_rank result a) by lia.
    destruct (IH (S a) (<[a := expected a]> result) ltac:(lia))
      as (final & Hloop & Hflen & Hout & Hin).
    { rewrite length_insert. exact Hlen. }
    exists final. replace (a + S n)%nat with (S a + n)%nat by lia.
    split; [exact Hloop |]. split; [exact Hflen |]. split.
    + intros j Hj. rewrite Hout by lia. apply list_lookup_insert_ne. lia.
    + intros i Hi. destruct (decide (i = a)) as [-> | Hne].
      * rewrite Hout by lia. apply list_lookup_insert_eq. lia.
      * apply Hin. lia.
Qed.

End DecoderByRank.

Section DecoderFunction.

Variable host : interpreter.
Variable float_of_str : string -> exc spec_float.
Variable fromtimestamp_ymd : pyval -> exc string.

(** X5.  When the entries that reach dictionary columns are strings of
    digits or numbers, the decoded row is a function of the masks: a
    column with its repeat bit set holds the slot of the previous row, a
    column with only its null bit set holds null, and the [k]-th of the
    remaining columns holds the value of the [k]-th entry of [C], or null
    when [C] has no such entry; the cursor ends on the number of
    consuming columns, or on the length of [C] when that is less. *)
Theorem decoded_row_by_rank (d : list (string * pyval)) (c_values : list pyval)
    (previous_row : option (list pyval)) (dictionaries : list (string * pyval)) :
  dict_get d "C" = Some (PList c_values) ->
  is_mask (dict_get_default d "R" (PInt 0)) = true ->
  is_mask (dict_get_default d "Ø" (PInt 0)) = true ->
  register_ok previous_row ->
  indices_at_dictionary_columns host (dict_get_default d "R" (PInt 0))
    (dict_get_default d "Ø" (PInt 0)) c_values dictionaries ->
  exists decoded,
    process_columns host float_of_str fromtimestamp_ymd (PDict d) previous_row dictionaries
    = Ok (decoded,
          Nat.min (rank (dict_get_default d "R" (PInt 0)) (dict_get_default d "Ø" (PInt 0)) 15)
            (length c_values))
    /\ process_row_with_binary_masks host float_of_str fromtimestamp_ymd (PDict d) previous_row
         dictionaries = Ok decoded
    /\ length decoded = 15%nat
    /\ forall i, (i < 15)%nat ->
         decoded !! i
         = Some (slot_by_rank host float_of_str fromtimestamp_ymd
                   (dict_get_default d "R" (PInt 0)) (dict_get_default d "Ø" (PInt 0))
                   c_values previous_row dictionaries i).
Proof.
  intros Hc Hr Hs Hreg Hidx.
  apply reverse_binary_16bit_mask in Hr, Hs.
  destruct Hr as [rb Hr], Hs as [sb Hs].
  destruct (columns_by_rank host float_of_str fromtimestamp_ymd c_values _ _ rb sb previous_row
              dictionaries Hr Hs Hreg Hidx 15 0 (replicate 15 PNone) ltac:(lia)
              ltac:(apply length_replicate))
    as (final & Hloop & Hlen & _ & Hin).
  assert (Hcols : process_columns host float_of_str fromtimestamp_ymd (PDict d) previous_row
                    dictionaries
                  = Ok (final,
                        Nat.min (rank (dict_get_default d "R" (PInt 0))
                                   (dict_get_default d "Ø" (PInt 0)) 15) (length c_values))).
  { unfold process_columns. cbn [py_get mbind exc_bind].
    unfold dict_get_default at 1. rewrite Hc, Hr, Hs. cbn [mbind exc_bind].
    exact Hloop. }
  exists final. split; [exact Hcols |].
  split; [unfold process_row_with_binary_masks; rewrite Hcols; reflexivity |].
  split; [exact Hlen |].
  intros i Hi. apply Hin. lia.
Qed.

End DecoderFunction.

(** ** The reversed numeral of a mask *)

Lemma rev_format_pos (p : positive) :
  rev (format_016b (Z.pos p))
  = lsb_digits p ++ replicate (16 - length (lsb_digits p)) "0"%char.
Proof.
  unfold format_016b. change (Z.pos p <? 0) with false. cbn [bin_digits app].
  rewrite rev_app_distr, rev_replicate, bin_digits_pos_lsb, app_nil_r, rev_involutive.
  rewrite length_rev. cbn [length]. rewrite Nat.sub_0_r. reflexivity.
Qed.

Lemma lsb_value_zeros (l : list ascii) (k : nat) :
  lsb_value (l ++ replicate k "0"%char) = lsb_value l.
Proof.
  induction l as [|c l IH]; cbn [app lsb_value].
  - induction k as [|k IHk]; [reflexivity |].
    cbn [replicate lsb_value]. rewrite IHk. reflexivity.
  - rewrite IH. reflexivity.
Qed.

Lemma lsb_value_digits (p : positive) :
  lsb_value (lsb_digits p) = Z.pos p.
Proof.
  induction p as [q IH | q IH |]; cbn [lsb_digits lsb_value].
  - rewrite IH, Pos2Z.inj_xI. reflexivity.
  - rewrite IH, Pos2Z.inj_xO. reflexivity.
  - reflexivity.
Qed.

Lemma lsb_digits_length (p : positive) :
  forall n : nat, Z.pos p < 2 ^ Z.of_nat n -> (length (lsb_digits p) <= n)%nat.
Proof.
  induction p as [q IH | q IH |]; intros n Hn.
  - destruct n as [|n]; [cbn in Hn; lia |].
    cbn [lsb_digits length]. apply le_n_S, IH.
    rewrite Nat2Z.inj_succ, Z.pow_succ_r in Hn by lia. lia.
  - destruct n as [|n]; [cbn in Hn; lia |].
    cbn [lsb_digits length]. apply le_n_S, IH.
    rewrite Nat2Z.inj_succ, Z.pow_succ_r in Hn by lia. lia.
  - destruct n as [|n]; [cbn in Hn; lia |]. cbn. lia.
Qed.

Lemma lsb_digits_binary (p : positive) :
  Forall (fun c => c = "0"%char \/ c = "1"%char) (lsb_digits p).
Proof.
  induction p as [q IH | q IH |]; cbn [lsb_digits].
  - apply List.Forall_cons; [right; reflexivity | exact IH].
  - apply List.Forall_cons; [left; reflexivity | exact IH].
  - apply List.Forall_cons; [right; reflexivity | apply List.Forall_nil].
Qed.

(** X6.  For a mask that is not negative, [reverse_binary_16bit] gives a
    string of the digits 0 and 1, least significant bit first, that reads
    back as the mask; it has sixteen characters for a mask below 2^16 and
    more for a larger one, which is never cut. *)
Theorem reverse_binary_reads_back (z : Z) :
  0 <= z ->
  exists bits,
    reverse_binary_16bit (PInt z) = Ok bits
    /\ lsb_value bits = z
    /\ Forall (fun c => c = "0"%char \/ c = "1"%char) bits
    /\ (16 <= length bits)%nat
    /\ (z < 2 ^ 16 -> length bits = 16%nat)
    /\ (2 ^ 16 <= z -> (16 < length bits)%nat).
Proof.
  intros Hz. eexists. split; [reflexivity |].
  destruct z as [|p|p]; [| | lia].
  - change (rev (format_016b 0)) with (replicate 16 "0"%char).
    split; [reflexivity |].
    split; [apply Forall_replicate; left; reflexivity |].
    split; [cbn; lia |]. split; [reflexivity | lia].
  - rewrite rev_format_pos.
    split; [rewrite lsb_value_zeros; apply lsb_value_digits |].
    split.
    { apply Forall_app. split; [apply lsb_digits_binary |].
      apply Forall_replicate. left. reflexivity. }
    rewrite length_app, length_replicate.
    split; [lia |]. split.
    + intros Hlt. pose proof (lsb_digits_length p 16 Hlt). lia.
    + intros Hge.
      destruct (le_lt_dec (length (lsb_digits p)) 16) as [Hle | Hgt]; [| lia].
      exfalso.
      assert (Hval : lsb_value (lsb_digits p) < 2 ^ Z.of_nat (length (lsb_digits p))).
      { clear. induction (lsb_digits_binary p) as [|c l Hc _ IH].
        - cbn. lia.
        - cbn [lsb_value length]. rewrite Nat2Z.inj_succ, Z.pow_succ_r by lia.
          destruct Hc as [-> | ->];
            [change (Z.of_nat (nat_of_ascii "0"%char)) with 48
            | change (Z.of_nat (nat_of_ascii "1"%char)) with 49]; lia. }
      rewrite lsb_value_digits in Hval.
      assert (2 ^ Z.of_nat (length (lsb_digits p)) <= 2 ^ 16)
        by (apply Z.pow_le_mono_r; lia).
      lia.
Qed.

Lemma reverse_binary_reads_back_witness :
  exists bits,
    reverse_binary_16bit (PInt 26616) = Ok bits
    /\ lsb_value bits = 26616
    /\ Forall (fun c => c = "0"%char \/ c = "1"%char) bits
    /\ (16 <= length bits)%nat
    /\ (26616 < 2 ^ 16 -> length bits = 16%nat)
    /\ (2 ^ 16 <= 26616 -> (16 < length bits)%nat).
Proof.
  apply (reverse_binary_reads_back 26616). lia.
Defined.

(** ** The batch over several rows *)

Section BatchRuns.

Variable host : interpreter.
Variable float_of_str : string -> exc spec_float.
Variable fromtimestamp_ymd : pyval -> exc string.
Variable dictionaries : list (string * pyval).

Local Abbreviation decode_row :=
  (process_row_with_binary_masks host float_of_str fromtimestamp_ymd).
Local Abbreviation decoded_rows :=
  (decoded_from host float_of_str fromtimestamp_ymd dictionaries).

Lemma batch_from_app (timestamp : pyval) (rows1 rows2 : list pyval) :
  forall register records,
    batch_from host float_of_str fromtimestamp_ymd dictionaries timestamp register
      (rows1 ++ rows2) = Ok records ->
    exists records1 records2,
      batch_from host float_of_str fromtimestamp_ymd dictionaries timestamp register rows1
      = Ok records1
      /\ records = records1 ++ records2.
Proof.
  induction rows1 as [|row rest IH]; intros register records H.
  - exists [], records. split; reflexivity.
  - cbn [app batch_from] in H.
    apply bind_ok in H. destruct H as (decoded & Hdec & H).
    apply bind_ok in H. destruct H as (record & Hrec & H).
    apply bind_ok in H. destruct H as (others & Hothers & H).
    injection H as <-.
    destruct (IH _ _ Hothers) as (records1 & records2 & H1 & ->).
    cbn [batch_from]. rewrite Hdec. cbn [mbind exc_bind]. rewrite Hrec.
    cbn [mbind exc_bind]. rewrite H1. cbn [mbind exc_bind].
    destruct record as [r|]; eexists _, records2; split; reflexivity.
Qed.

(** X7.  The records of a batch do not depend on the rows that follow:
    when the batch over [rows1 ++ rows2] returns, the batch over [rows1]
    returns too, and its records are the first records of the longer
    batch, in the same order. *)
Theorem batch_prefix_stable (timestamp : pyval) (rows1 rows2 : list pyval)
    (records : list csv_row) :
  process_data_with_binary_masks host float_of_str fromtimestamp_ymd (rows1 ++ rows2)
    dictionaries timestamp = Ok records ->
  exists records1 records2,
    process_data_with_binary_masks host float_of_str fromtimestamp_ymd rows1 dictionaries
      timestamp = Ok records1
    /\ records = records1 ++ records2.
Proof.
  rewrite !process_data_batch. apply batch_from_app.
Qed.

Lemma batch_stamps (timestamp : pyval) (rows : list pyval) :
  forall register records,
    batch_from host float_of_str fromtimestamp_ymd dictionaries timestamp register rows
    = Ok records ->
    Forall (fun r => scrape_datetime r = timestamp) records.
Proof.
  induction rows as [|row rest IH]; intros register records H.
  - injection H as <-. constructor.
  - cbn [batch_from] in H.
    apply bind_ok in H. destruct H as (decoded & Hdec & H).
    apply bind_ok in H. destruct H as (record & Hrec & H).
    apply bind_ok in H. destruct H as (others & Hothers & H).
    injection H as <-. specialize (IH _ _ Hothers).
    destruct record as [r|]; [| assumption].
    constructor; [| assumption].
    apply convert_inv in Hrec. destruct Hrec as (csv & Hcsv & Hr).
    apply build_csv_row_inv in Hcsv. destruct Hcsv as [_ ->].
    cbn [date] in Hr. destruct (truthy _); [| discriminate].
    injection Hr as ->. reflexivity.
Qed.

(** The slot of a repeated column, as a fact about any decoded row. *)
Lemma repeated_slot (d : list (string * pyval)) (previous_row : option (list pyval))
    (decoded : list pyval) (i : nat) :
  row_node (PDict d) ->
  register_ok previous_row ->
  (i < 15)%nat ->
  mask_bit (dict_get_default d "R" (PInt 0)) i = true ->
  decode_row (PDict d) previous_row dictionaries = Ok decoded ->
  decoded !! i = Some (inherited previous_row i).
Proof.
  intros Hrow Hreg Hi Hbit Hdecoded.
  destruct (row_decoded host float_of_str fromtimestamp_ymd d previous_row dictionaries Hrow Hreg)
    as (c_values & r_binary & sigma_binary & decoded' & Hc & Hr & Hs & Hdec & Hlen & Hslots).
  assert (decoded' = decoded) as -> by congruence.
  destruct (Hslots i Hi) as (result & vi & v & vi' & Hcol & Hv & Hrl & _).
  destruct (columns_lookup i Hi) as [name Hn].
  pose proof (bit_at_mask _ _ i Hr Hi) as Hrb. rewrite Hbit in Hrb.
  pose proof (bit_at_mask _ _ i Hs Hi) as Hsb.
  rewrite (column_repeat host float_of_str fromtimestamp_ymd c_values r_binary sigma_binary
             previous_row dictionaries result vi i name _ Hn Hrb Hsb Hreg Hi) in Hcol.
  apply insert_same_slot in Hcol; [| lia]. destruct Hcol as [<- _]. exact Hv.
Qed.

Lemma decoded_shapes (rows : list pyval) :
  forall register decoded,
    Forall row_node rows ->
    register_ok register ->
    decoded_rows register rows = Ok decoded ->
    Forall (fun row => length row = 15%nat) decoded.
Proof.
  induction rows as [|row rest IH]; intros register decoded Hrows Hreg H.
  - injection H as <-. constructor.
  - apply List.Forall_cons_iff in Hrows. destruct Hrows as [Hrow Hrest].
    cbn [decoded_from] in H.
    apply bind_ok in H. destruct H as (d0 & Hd0 & H).
    apply bind_ok in H. destruct H as (ds & Hds & H).
    injection H as <-.
    destruct (row_node_decodes host float_of_str fromtimestamp_ymd row register dictionaries
                Hrow Hreg) as (d0' & Hd0' & Hlen).
    assert (d0' = d0) as -> by congruence.
    constructor; [exact Hlen |].
    apply (IH (Some d0)); assumption.
Qed.

(** X8.  A value is carried through a run of repeats: when rows
    [m + 1] to [m + k] all have bit [i] of the repeat mask set, slot [i]
    of decoded row [m + k] is slot [i] of decoded row [m]. *)
Theorem repeated_slot_carried (rows : list pyval) (decoded : list (list pyval))
    (i m k : nat) (first last : list pyval) :
  Forall row_node rows ->
  decoded_from host float_of_str fromtimestamp_ymd dictionaries None rows = Ok decoded ->
  (i < 15)%nat ->
  (forall j d,
     (m < j <= m + k)%nat -> rows !! j = Some (PDict d) ->
     mask_bit (dict_get_default d "R" (PInt 0)) i = true) ->
  decoded !! m = Some first ->
  decoded !! (m + k)%nat = Some last ->
  last !! i = first !! i.
Proof.
  intros Hrows Hdec Hi Hbits Hfirst. revert last.
  pose proof (decoded_shapes rows None decoded Hrows I Hdec) as Hshapes.
  destruct (decoded_chain host float_of_str fromtimestamp_ymd dictionaries rows None decoded Hdec)
    as [Hlen Hchain].
  induction k as [|k IH]; intros last Hlast.
  - rewrite Nat.add_0_r in Hlast. congruence.
  - replace (m + S k)%nat with (S (m + k)) in Hlast by lia.
    pose proof (lookup_lt_Some _ _ _ Hlast) as Hlt.
    destruct (lookup_lt_is_Some_2 decoded (m + k) ltac:(lia)) as [mid Hmid].
    destruct (lookup_lt_is_Some_2 rows (S (m + k)) ltac:(lia)) as [row Hrow].
    pose proof (proj1 (List.Forall_forall _ _) Hrows row
                  (proj1 (list_elem_of_In _ _) (list_elem_of_lookup_2 _ _ _ Hrow))) as Hnode.
    pose proof Hnode as (d & c & -> & _).
    specialize (Hchain (S (m + k)) (PDict d) last Hrow Hlast). cbn iota in Hchain.
    rewrite Hmid in Hchain.
    assert (Hmidlen : length mid = 15%nat).
    { apply (proj1 (List.Forall_forall _ _) Hshapes).
      apply list_elem_of_In. eapply list_elem_of_lookup_2. exact Hmid. }
    rewrite (repeated_slot d (Some mid) last i Hnode Hmidlen Hi
               (Hbits (S (m + k)) d ltac:(lia) Hrow) Hchain).
    cbn [inherited]. unfold slot.
    destruct (lookup_lt_is_Some_2 mid i ltac:(lia)) as [v Hv]. rewrite Hv, <- Hv.
    apply IH; [| exact Hmid].
    intros j dj Hj. apply Hbits. lia.
Qed.

End BatchRuns.

Section RunStamp.

Variable host : interpreter.
Variable float_of_str : string -> exc spec_float.
Variable fromtimestamp_ymd : pyval -> exc string.

(** X9.  Every record of a run carries the timestamp of the response in
    [scrape_datetime], the same value in all of them. *)
Theorem run_stamps_records (json : pyval) (records : list csv_row) :
  process_json_to_csv host float_of_str fromtimestamp_ymd json = Ok records ->
  exists rows dictionaries timestamp,
    extract_data_from_json json = Ok (rows, dictionaries, timestamp)
    /\ Forall (fun r => scrape_datetime r = timestamp) records.
Proof.
  unfold process_json_to_csv. intros H.
  apply bind_ok in H. destruct H as ([[rows dictionaries] timestamp] & Hext & H).
  exists rows, dictionaries, timestamp. split; [exact Hext |].
  rewrite process_data_batch in H. eapply batch_stamps. exact H.
Qed.

End RunStamp.

(** ** The envelope of a response *)

Lemma py_get_ok (o : pyval) (k : string) (default v : pyval) :
  py_get o k default = Ok v ->
  exists d, o = PDict d /\ v = dict_get_default d k default.
Proof.
  destruct o; cbn; intros H; try discriminate. injection H as <-. eauto.
Qed.

(** The first element of a truthy value on which [get] can be called
    afterwards: the value is a list that starts with a mapping. *)
Lemma first_item_mapping (o x : pyval) (k : string) (default v : pyval) :
  truthy o = true ->
  py_getitem o 0 = Ok x ->
  py_get x k default = Ok v ->
  exists first rest, o = PList (PDict first :: rest) /\ x = PDict first.
Proof.
  intros Ht Hitem Hget.
  apply py_get_ok in Hget. destruct Hget as (first & -> & _).
  destruct o as [ | | | |s|l| ]; try discriminate.
  - exfalso. unfold py_getitem in Hitem.
    destruct (_ && _) in Hitem; [| discriminate].
    destruct (characters s !! _) in Hitem; discriminate.
  - destruct l as [|y rest]; [discriminate |].
    rewrite py_getitem_head in Hitem. injection Hitem as ->. eauto.
Qed.

(** X10.  The extraction returns exactly for a response that is a
    mapping whose [results] is a list starting with a mapping, with
    mappings (or nothing) under [result], [data] and [dsr] in turn, whose
    [DS] is a list starting with a mapping, and whose [ValueDicts] there is
    a mapping or absent.  It then returns the located rows, the tables
    [D0] to [D9] of that first [DS] element under [G1] to [G10] with the
    empty list for an absent table, and the [timestamp] of [data], the
    empty string when there is none. *)
Theorem extraction_characterised (json : pyval) (rows : list pyval)
    (dictionaries : list (string * pyval)) (timestamp : pyval) :
  extract_data_from_json json = Ok (rows, dictionaries, timestamp)
  <-> exists d first rest result data dsr ds0 others value_dicts,
        json = PDict d
        /\ dict_get_default d "results" (PList []) = PList (PDict first :: rest)
        /\ dict_get_default first "result" (PDict []) = PDict result
        /\ dict_get_default result "data" (PDict []) = PDict data
        /\ dict_get_default data "dsr" (PDict []) = PDict dsr
        /\ dict_get_default dsr "DS" (PList []) = PList (PDict ds0 :: others)
        /\ dict_get_default ds0 "ValueDicts" (PDict []) = PDict value_dicts
        /\ timestamp = dict_get_default data "timestamp" (PStr EmptyString)
        /\ dictionaries
           = map (fun s => (fst s, dict_get_default value_dicts (snd s) (PList [])))
               dictionary_slots
        /\ rows = List.filter has_mask (find_rows json []).
Proof.
  split.
  - intros H. pose proof (extract_rows _ _ _ _ H) as Hrows.
    unfold extract_data_from_json in H.
    apply bind_ok in H. destruct H as (results & Hresults & H).
    apply py_get_ok in Hresults. destruct Hresults as (d & -> & ->).
    destruct (truthy (dict_get_default d "results" (PList []))) eqn:Htr;
      cbn [negb] in H; [| discriminate].
    apply bind_ok in H. destruct H as (x & Hx & H).
    apply bind_ok in H. destruct H as (result_v & Hresult & H).
    destruct (first_item_mapping _ _ _ _ _ Htr Hx Hresult) as (first & rest & Hres & ->).
    apply py_get_ok in Hresult. destruct Hresult as (first' & Heq & ->).
    injection Heq as <-.
    apply bind_ok in H. destruct H as (data_v & Hdata & H).
    apply py_get_ok in Hdata. destruct Hdata as (result & Hresult & ->).
    apply bind_ok in H. destruct H as (ts & Hts & H).
    apply py_get_ok in Hts. destruct Hts as (data & Hdata & ->).
    apply bind_ok in H. destruct H as (dsr_v & Hdsr & H).
    rewrite Hdata in Hdsr. cbn [py_get] in Hdsr. injection Hdsr as <-.
    apply bind_ok in H. destruct H as (ds_list & Hds & H).
    apply py_get_ok in Hds. destruct Hds as (dsr & Hdsr & ->).
    destruct (truthy (dict_get_default dsr "DS" (PList []))) eqn:Htds;
      cbn [negb] in H; [| discriminate].
    apply bind_ok in H. destruct H as (y & Hy & H).
    apply bind_ok in H. destruct H as (vd_v & Hvd & H).
    destruct (first_item_mapping _ _ _ _ _ Htds Hy Hvd) as (ds0 & others & Hdsl & ->).
    apply py_get_ok in Hvd. destruct Hvd as (ds0' & Heq & ->).
    injection Heq as <-.
    apply bind_ok in H. destruct H as (tables & Htables & H).
    injection H as _ <- <-.
    destruct (dict_get_default ds0 "ValueDicts" (PDict [])) as [ | | | | | |vd] eqn:Hvd;
      try discriminate.
    rewrite build_dictionaries_tables in Htables. injection Htables as <-.
    exists d, first, rest, result, data, dsr, ds0, others, vd.
    repeat split; assumption.
  - intros (d & first & rest & result & data & dsr & ds0 & others & vd
            & -> & Hres & Hresult & Hdata & Hdsr & Hds & Hvd & -> & -> & ->).
    unfold extract_data_from_json. cbn [py_get mbind exc_bind].
    rewrite Hres. cbn [truthy negb]. rewrite py_getitem_head.
    cbn [py_get mbind exc_bind]. rewrite Hresult. cbn [py_get mbind exc_bind].
    rewrite Hdata. cbn [py_get mbind exc_bind]. rewrite Hdsr.
    cbn [py_get mbind exc_bind]. rewrite Hds. cbn [truthy negb].
    rewrite py_getitem_head. cbn [py_get mbind exc_bind]. rewrite Hvd.
    rewrite build_dictionaries_tables. reflexivity.
Qed.

Lemma extraction_characterised_witness :
  exists d first rest result data dsr ds0 others value_dicts,
    sample_json = PDict d
    /\ dict_get_default d "results" (PList []) = PList (PDict first :: rest)
    /\ dict_get_default first "result" (PDict []) = PDict result
    /\ dict_get_default result "data" (PDict []) = PDict data
    /\ dict_get_default data "dsr" (PDict []) = PDict dsr
    /\ dict_get_default dsr "DS" (PList []) = PList (PDict ds0 :: others)
    /\ dict_get_default ds0 "ValueDicts" (PDict []) = PDict value_dicts
    /\ PStr "2024-01-01T00:00:00" = dict_get_default data "timestamp" (PStr EmptyString)
    /\ sample_dictionaries
       = map (fun s => (fst s, dict_get_default value_dicts (snd s) (PList [])))
           dictionary_slots
    /\ sample_rows = List.filter has_mask (find_rows sample_json []).
Proof.
  apply (extraction_characterised sample_json sample_rows sample_dictionaries
           (PStr "2024-01-01T00:00:00")).
  reflexivity.
Defined.

(** ** What is written *)

Lemma str_of_int_reads_back (z : Z) :
  option_map Z.of_int (NilZero.int_of_string (str_of_int z)) = Some z.
Proof.
  unfold str_of_int. destruct (to_int_proper z) as [Hp Hn].
  rewrite (NilZero.isi _ Hp Hn). cbn [option_map]. now rewrite DecimalZ.of_to.
Qed.

Lemma str_of_int_non_empty (z : Z) : str_of_int z <> EmptyString.
Proof.
  intros H. pose proof (str_of_int_reads_back z) as Hback.
  rewrite H in Hback. discriminate.
Qed.

(** The record depends on the slots it reads only. *)
Lemma build_csv_row_skips_slot_eight (processed_row : list pyval) (timestamp v : pyval) :
  build_csv_row (<[8%nat := v]> processed_row) timestamp
  = build_csv_row processed_row timestamp.
Proof.
  unfold build_csv_row, list_index.
  rewrite !list_lookup_insert_ne by discriminate. reflexivity.
Qed.

(** X11.  Slot 8 (column [G8]) is decoded and never exported: the
    projector gives the same record, or the same rejection or error,
    whatever that slot holds. *)
Theorem slot_eight_not_exported (processed_row : list pyval) (timestamp v : pyval) :
  convert_processed_row_to_csv (<[8%nat := v]> processed_row) timestamp
  = convert_processed_row_to_csv processed_row timestamp.
Proof.
  unfold convert_processed_row_to_csv.
  rewrite build_csv_row_skips_slot_eight. reflexivity.
Qed.

Section Written.

Variable str_other : pyval -> string.

(** X12.  Every name of the header is a key of the record, so the
    default of [row.get] is never used, and a written row has its fifteen
    cells in the order of the header, each the cleaned value of the field
    of that name. *)
Theorem written_row_cells (csv_data : list csv_row) :
  write_csv_file str_other csv_data
  = fieldnames
    :: map (fun row =>
              map (clean_value str_other)
                [scrape_datetime row; date row; installation row; oil_production row;
                 gas_production row; oil_equivalents_boe row; operator row; type row;
                 estado row; city row; atendimento_campo row; campo row; quantity row;
                 code row; status row]) csv_data
  /\ Forall (fun cells => length cells = 15%nat) (write_csv_file str_other csv_data)
  /\ length (write_csv_file str_other csv_data) = S (length csv_data).
Proof.
  unfold write_csv_file. split; [reflexivity |]. split.
  - constructor; [reflexivity |].
    apply Forall_map, Forall_true. intros row. reflexivity.
  - cbn [length]. rewrite length_map. reflexivity.
Qed.

(** X13.  From the decoded row to the written row: a measure slot that
    is null gives an empty cell, and one that holds an integer gives the
    decimal numeral that reads back as that integer, so a zero is written
    as [0] and not as an empty cell; a slot that holds a non-empty string
    is written as it is. *)
Theorem measure_cell_reads_back (processed_row : list pyval) (timestamp : pyval)
    (csv : csv_row) (source cell : nat) :
  convert_processed_row_to_csv processed_row timestamp = Ok (Some csv) ->
  In (source, cell) measure_cells ->
  (slot processed_row source = PNone ->
   clean_row str_other csv !! cell = Some EmptyString)
  /\ (forall z,
        slot processed_row source = PInt z ->
        exists text,
          clean_row str_other csv !! cell = Some text
          /\ text <> EmptyString
          /\ option_map Z.of_int (NilZero.int_of_string text) = Some z)
  /\ (forall s,
        s <> EmptyString ->
        slot processed_row source = PStr s ->
        clean_row str_other csv !! cell = Some s).
Proof.
  intros H Hin. apply convert_inv in H. destruct H as (csv' & Hb & Hr).
  destruct (truthy (date csv')); [| discriminate]. injection Hr as ->.
  apply build_csv_row_inv in Hb. destruct Hb as [_ ->].
  assert (Hcell : clean_value str_other (not_none_or_empty (slot processed_row source))
                  = clean_value str_other (slot processed_row source)).
  { destruct (slot processed_row source); reflexivity. }
  assert (Hlookup :
    clean_row str_other
      {| scrape_datetime := timestamp;
         date := or_empty (slot processed_row 0);
         installation := or_empty (slot processed_row 1);
         oil_production := not_none_or_empty (slot processed_row 11);
         gas_production := not_none_or_empty (slot processed_row 12);
         oil_equivalents_boe := not_none_or_empty (slot processed_row 14);
         operator := or_empty (slot processed_row 2);
         type := or_empty (slot processed_row 3);
         estado := or_empty (slot processed_row 4);
         city := or_empty (slot processed_row 5);
         atendimento_campo := or_empty (slot processed_row 6);
         campo := or_empty (slot processed_row 7);
         quantity := not_none_or_empty (slot processed_row 13);
         code := not_none_or_empty (slot processed_row 9);
         status := not_none_or_empty (slot processed_row 10) |} !! cell
    = Some (clean_value str_other (slot processed_row source))).
  { rewrite <- Hcell. cbn in Hin.
    destruct Hin as [Heq | [Heq | [Heq | [Heq | []]]]]; injection Heq as <- <-;
      reflexivity. }
  rewrite Hlookup. clear Hlookup Hcell.
  split; [intros ->; reflexivity |]. split.
  - intros z ->. exists (str_of_int z).
    split; [reflexivity |]. split; [apply str_of_int_non_empty |].
    apply str_of_int_reads_back.
  - intros s Hs ->. unfold clean_value. cbn [eq_empty_str is_none py_str].
    rewrite (proj2 (String.eqb_neq s EmptyString) Hs). reflexivity.
Qed.

(** X14.  When [str] of a float, a list or a mapping is never empty,
    every row written for a batch has a date cell that is not empty. *)
Theorem written_date_non_empty (host : interpreter)
    (float_of_str : string -> exc spec_float)
    (fromtimestamp_ymd : pyval -> exc string) (data_rows : list pyval)
    (dictionaries : list (string * pyval)) (timestamp : pyval)
    (records : list csv_row) :
  (forall v, str_other v <> EmptyString) ->
  process_data_with_binary_masks host float_of_str fromtimestamp_ymd data_rows dictionaries
    timestamp = Ok records ->
  Forall (fun cells => exists text, cells !! 1%nat = Some text /\ text <> EmptyString)
    (map (clean_row str_other) records).
Proof.
  intros Hstr H. rewrite process_data_batch in H. apply batch_dates in H.
  apply Forall_map. eapply Forall_impl; [exact H |].
  intros row Hdate. cbn beta in Hdate.
  exists (clean_value str_other (date row)). split; [reflexivity |].
  unfold clean_value.
  destruct (date row) as [ |b|z|f|s|l|d]; cbn in Hdate |- *; try discriminate;
    try apply Hstr.
  - destruct b; [discriminate | discriminate].
  - apply str_of_int_non_empty.
  - destruct (String.eqb s EmptyString) eqn:Hs; [discriminate |].
    apply String.eqb_neq. exact Hs.
Qed.

End Written.

(** ** The further properties on the sample inputs *)

Lemma null_bit_gives_null_witness :
  exists decoded,
    process_row_with_binary_masks ref_interpreter ref_float_of_str utc_fromtimestamp_ymd
      (PDict first_row_fields) None sample_dictionaries = Ok decoded
    /\ decoded !! 3%nat = Some PNone.
Proof.
  apply (null_bit_gives_null ref_interpreter ref_float_of_str utc_fromtimestamp_ymd
      first_row_fields None
           sample_dictionaries 3).
  - exact first_row_node.
  - exact I.
  - lia.
  - reflexivity.
  - reflexivity.
Defined.

Lemma untabled_column_passes_entry_witness :
  exists decoded,
    process_row_with_binary_masks ref_interpreter ref_float_of_str utc_fromtimestamp_ymd
      (PDict first_row_fields) None sample_dictionaries = Ok decoded
    /\ state_at_column ref_interpreter ref_float_of_str utc_fromtimestamp_ymd
         (PDict first_row_fields) None sample_dictionaries 11
       = Ok (PStr "2023-11-14" :: PStr "Platform-B" :: PStr "Operator-X"
             :: replicate 12 PNone, 3%nat)
    /\ decoded !! 11%nat = Some (PInt 5).
Proof.
  destruct (untabled_column_passes_entry ref_interpreter ref_float_of_str
              utc_fromtimestamp_ymd first_row_fields
              [PInt 1700000000000; PStr "1"; PInt 0; PInt 5; PFloat (S754_zero false)]
              None sample_dictionaries 11 "M0")
    as (decoded & result & cursor & Hdec & Hstate & _ & Hslot).
  - exact first_row_node.
  - reflexivity.
  - exact I.
  - reflexivity.
  - discriminate.
  - reflexivity.
  - reflexivity.
  - reflexivity.
  - exists decoded. split; [exact Hdec |].
    assert (Hat : state_at_column ref_interpreter ref_float_of_str utc_fromtimestamp_ymd
                    (PDict first_row_fields) None sample_dictionaries 11
                  = Ok (PStr "2023-11-14" :: PStr "Platform-B" :: PStr "Operator-X"
                        :: replicate 12 PNone, 3%nat)) by reflexivity.
    split; [exact Hat |].
    rewrite Hat in Hstate. injection Hstate as <- <-. exact Hslot.
Defined.

Ltac below_fifteen i :=
  do 15 (destruct i as [|i]; [reflexivity |]); exfalso; lia.

Lemma masks_read_by_low_bits_witness :
  process_row_with_binary_masks ref_interpreter ref_float_of_str utc_fromtimestamp_ymd
    (PDict second_row_fields) (Some sample_decoded) sample_dictionaries
  = process_row_with_binary_masks ref_interpreter ref_float_of_str utc_fromtimestamp_ymd
      (PDict high_bits_row_fields) (Some sample_decoded) sample_dictionaries.
Proof.
  apply (masks_read_by_low_bits ref_interpreter ref_float_of_str utc_fromtimestamp_ymd
      second_row_fields
           high_bits_row_fields (Some sample_decoded) sample_dictionaries);
    try reflexivity.
  - intros i Hi. below_fifteen i.
  - intros i Hi. below_fifteen i.
Defined.

Lemma entries_beyond_fifteen_unread_witness :
  process_row_with_binary_masks ref_interpreter ref_float_of_str utc_fromtimestamp_ymd
    (PDict long_row_fields) None sample_dictionaries
  = process_row_with_binary_masks ref_interpreter ref_float_of_str utc_fromtimestamp_ymd
      (PDict cut_row_fields) None sample_dictionaries
  /\ forall decoded cursor,
       process_columns ref_interpreter ref_float_of_str utc_fromtimestamp_ymd
           (PDict long_row_fields) None
         sample_dictionaries = Ok (decoded, cursor) ->
       (cursor <= 15)%nat /\ (cursor <= length long_row_entries)%nat.
Proof.
  apply (entries_beyond_fifteen_unread ref_interpreter ref_float_of_str utc_fromtimestamp_ymd
      long_row_fields
           cut_row_fields long_row_entries None sample_dictionaries); reflexivity.
Defined.

Lemma first_row_indices :
  indices_at_dictionary_columns ref_interpreter (dict_get_default first_row_fields "R" (PInt 0))
    (dict_get_default first_row_fields "Ø" (PInt 0))
    [PInt 1700000000000; PStr "1"; PInt 0; PInt 5; PFloat (S754_zero false)]
    sample_dictionaries.
Proof.
  intros i name raw_value Hn Hg0 Htable Hc Hraw.
  do 15 (destruct i as [|i];
         [vm_compute in Hc; try discriminate Hc;
          vm_compute in Hraw; try discriminate Hraw;
          injection Hraw as <-; discriminate |]).
  discriminate Hn.
Qed.

Lemma decoded_row_by_rank_witness :
  exists decoded,
    process_columns ref_interpreter ref_float_of_str utc_fromtimestamp_ymd
        (PDict first_row_fields) None
      sample_dictionaries
    = Ok (decoded,
          Nat.min (rank (dict_get_default first_row_fields "R" (PInt 0))
                     (dict_get_default first_row_fields "Ø" (PInt 0)) 15)
            (length [PInt 1700000000000; PStr "1"; PInt 0; PInt 5; PFloat (S754_zero false)]))
    /\ process_row_with_binary_masks ref_interpreter ref_float_of_str utc_fromtimestamp_ymd
         (PDict first_row_fields) None sample_dictionaries = Ok decoded
    /\ length decoded = 15%nat
    /\ forall i, (i < 15)%nat ->
         decoded !! i
         = Some (slot_by_rank ref_interpreter ref_float_of_str utc_fromtimestamp_ymd
                   (dict_get_default first_row_fields "R" (PInt 0))
                   (dict_get_default first_row_fields "Ø" (PInt 0))
                   [PInt 1700000000000; PStr "1"; PInt 0; PInt 5; PFloat (S754_zero false)]
                   None sample_dictionaries i).
Proof.
  apply (decoded_row_by_rank ref_interpreter ref_float_of_str utc_fromtimestamp_ymd first_row_fields
           [PInt 1700000000000; PStr "1"; PInt 0; PInt 5; PFloat (S754_zero false)]
           None sample_dictionaries).
  - reflexivity.
  - reflexivity.
  - reflexivity.
  - exact I.
  - exact first_row_indices.
Defined.

(** The row with the entry that is no index is outside the condition of
    the function by rank, and its decoded row is not the one by rank. *)
Example unmapped_row_not_by_rank :
  index_of_raw ref_interpreter (PStr "n/a") = None
  /\ slot_by_rank ref_interpreter ref_float_of_str utc_fromtimestamp_ymd (PInt 0) (PInt 0)
       [PInt 1700000000000; PStr "n/a"; PInt 1] None sample_dictionaries 2
     = PStr "Operator-Y"
  /\ (exists decoded,
        process_row_with_binary_masks ref_interpreter ref_float_of_str utc_fromtimestamp_ymd
          (PDict unmapped_row_fields) None sample_dictionaries = Ok decoded
        /\ decoded !! 2%nat = Some (PStr "n/a")).
Proof.
  split; [reflexivity |]. split; [reflexivity |].
  eexists. split; reflexivity.
Qed.

Lemma batch_prefix_stable_witness :
  exists records1 records2,
    process_data_with_binary_masks ref_interpreter ref_float_of_str utc_fromtimestamp_ymd
      [PDict first_row_fields; PDict dateless_row_fields] sample_dictionaries
      (PStr "2024-01-01T00:00:00") = Ok records1
    /\ sample_records = records1 ++ records2.
Proof.
  apply (batch_prefix_stable ref_interpreter ref_float_of_str utc_fromtimestamp_ymd
      sample_dictionaries
           (PStr "2024-01-01T00:00:00") [PDict first_row_fields; PDict dateless_row_fields]
           [PDict second_row_fields] sample_records).
  reflexivity.
Defined.

Lemma repeat_row_node : row_node (PDict repeat_row_fields).
Proof.
  exists repeat_row_fields, []. repeat split.
Qed.

Lemma repeated_slot_carried_witness :
  repeat_row_decoded !! 1%nat = nth 0 sample_decoded_rows [] !! 1%nat.
Proof.
  apply (repeated_slot_carried ref_interpreter ref_float_of_str utc_fromtimestamp_ymd
      sample_dictionaries
           repeat_run_rows
           [nth 0 sample_decoded_rows []; repeat_row_decoded; repeat_row_decoded]
           1 0 2 (nth 0 sample_decoded_rows []) repeat_row_decoded).
  - repeat apply List.Forall_cons; try apply List.Forall_nil;
      [exact first_row_node | exact repeat_row_node | exact repeat_row_node].
  - reflexivity.
  - lia.
  - intros j d Hj Hrow.
    destruct j as [|[|[|j]]]; try (exfalso; lia); injection Hrow as <-; reflexivity.
  - reflexivity.
  - reflexivity.
Defined.

Lemma run_stamps_records_witness :
  exists rows dictionaries timestamp,
    extract_data_from_json sample_json = Ok (rows, dictionaries, timestamp)
    /\ Forall (fun r => scrape_datetime r = timestamp) sample_records.
Proof.
  apply (run_stamps_records ref_interpreter ref_float_of_str utc_fromtimestamp_ymd
      sample_json sample_records).
  reflexivity.
Defined.

Lemma measure_cell_reads_back_witness :
  (slot sample_decoded 11 = PNone ->
   clean_row (fun _ => "-") sample_record !! 3%nat = Some EmptyString)
  /\ (forall z,
        slot sample_decoded 11 = PInt z ->
        exists text,
          clean_row (fun _ => "-") sample_record !! 3%nat = Some text
          /\ text <> EmptyString
          /\ option_map Z.of_int (NilZero.int_of_string text) = Some z)
  /\ (forall s,
        s <> EmptyString ->
        slot sample_decoded 11 = PStr s ->
        clean_row (fun _ => "-") sample_record !! 3%nat = Some s).
Proof.
  apply (measure_cell_reads_back (fun _ => "-") sample_decoded (PStr "2024-01-01T00:00:00")
           sample_record 11 3).
  - reflexivity.
  - left. reflexivity.
Defined.

(** The zero of the sample row is written as [0]. *)
Example zero_measure_written :
  clean_row (fun _ => "-") sample_record !! 3%nat = Some "0".
Proof. reflexivity. Qed.

Lemma written_date_non_empty_witness :
  Forall (fun cells => exists text, cells !! 1%nat = Some text /\ text <> EmptyString)
    (map (clean_row (fun _ => "-")) sample_records).
Proof.
  apply (written_date_non_empty (fun _ => "-") ref_interpreter ref_float_of_str
           utc_fromtimestamp_ymd
           sample_rows sample_dictionaries (PStr "2024-01-01T00:00:00") sample_records).
  - intros v. discriminate.
  - reflexivity.
Defined.

(** ** Tables that are no sequences *)

(** The [try] statement over a table without a length: the error of
    [len] is caught, and a negative index does not reach [len]. *)
Lemma map_dictionary_unsized (host : interpreter) (dict_values raw_value : pyval) :
  unsized dict_values = true ->
  map_dictionary host dict_values raw_value
  = Ok (match index_of_raw host raw_value with
        | None => Continue raw_value
        | Some (Ok k) =>
            if k <? 0 then Advance (PStr (placeholder k)) else Advance raw_value
        | Some (Raise _) => Advance raw_value
        end).
Proof.
  intros Hu. unfold map_dictionary, map_index.
  destruct (index_of_raw host raw_value) as [[k|e]|]; cbn [mbind exc_bind try_except];
    try reflexivity.
  rewrite Z.leb_antisym. destruct (k <? 0); cbn [negb]; [reflexivity |].
  destruct dict_values; try discriminate Hu; reflexivity.
Qed.

Section UnsizedTables.

Variable host : interpreter.
Variable float_of_str : string -> exc spec_float.
Variable fromtimestamp_ymd : pyval -> exc string.

(** X15.  A table that is null, a boolean or a number does not make a
    row fail.  The column of such a table, with both bits clear, holds
    the raw entry under the cursor the loop enters it with as it is,
    unless the entry stands for a negative index: then it holds the
    placeholder of that index, since [len] is not reached. *)
Theorem unsized_table_passes_entries (d : list (string * pyval)) (c_values : list pyval)
    (previous_row : option (list pyval)) (dictionaries : list (string * pyval))
    (i : nat) (name : string) (dict_values : pyval) :
  row_node (PDict d) ->
  dict_get d "C" = Some (PList c_values) ->
  register_ok previous_row ->
  columns !! i = Some name ->
  name <> "G0" ->
  dict_get dictionaries name = Some dict_values ->
  unsized dict_values = true ->
  mask_bit (dict_get_default d "R" (PInt 0)) i = false ->
  mask_bit (dict_get_default d "Ø" (PInt 0)) i = false ->
  exists decoded result cursor,
    process_row_with_binary_masks host float_of_str fromtimestamp_ymd (PDict d) previous_row
      dictionaries = Ok decoded
    /\ state_at_column host float_of_str fromtimestamp_ymd (PDict d) previous_row
         dictionaries i = Ok (result, cursor)
    /\ forall raw_value,
         c_values !! cursor = Some raw_value ->
         (forall k, index_reading host raw_value k -> k < 0 ->
                    decoded !! i = Some (PStr (placeholder k)))
         /\ ((forall k, index_reading host raw_value k -> 0 <= k) ->
             decoded !! i = Some raw_value).
Proof.
  intros Hrow Hentries Hreg Hn Hg0 Htable Hunsized Hrbit Hsbit.
  assert (Hi : (i < 15)%nat) by (apply lookup_lt_Some in Hn; exact Hn).
  destruct (row_decoded_at host float_of_str fromtimestamp_ymd d previous_row dictionaries i
              Hrow Hreg Hi)
    as (c_values' & r_binary & sigma_binary & decoded & result & cursor & v & cursor'
        & Hc & Hr & Hs & Hdec & Hstate & Hcol & Hv & Hrl & _).
  rewrite Hentries in Hc. injection Hc as <-.
  pose proof (bit_at_mask _ _ i Hr Hi) as Hrb. rewrite Hrbit in Hrb.
  pose proof (bit_at_mask _ _ i Hs Hi) as Hsb. rewrite Hsbit in Hsb.
  exists decoded, result, cursor.
  split; [exact Hdec |]. split; [exact Hstate |].
  intros raw_value Hraw.
  rewrite (column_consume host float_of_str fromtimestamp_ymd c_values r_binary sigma_binary
             previous_row dictionaries result cursor i name raw_value Hn Hrb Hsb Hraw)
    in Hcol.
  apply String.eqb_neq in Hg0.
  rewrite Hg0, Htable, (map_dictionary_unsized host _ _ Hunsized) in Hcol.
  cbn [mbind exc_bind] in Hcol. rewrite Hv. split.
  - intros k Hk Hneg. apply index_reading_iff in Hk. rewrite Hk in Hcol.
    replace (k <? 0) with true in Hcol by (symmetry; apply Z.ltb_lt; exact Hneg).
    apply insert_same_slot in Hcol; [| lia]. destruct Hcol as [<- _]. reflexivity.
  - intros Hpos.
    destruct (index_of_raw host raw_value) as [[k|e]|] eqn:Hindex.
    + replace (k <? 0) with false in Hcol
        by (symmetry; apply Z.ltb_ge; apply Hpos; apply index_reading_iff; exact Hindex).
      apply insert_same_slot in Hcol; [| lia]. destruct Hcol as [<- _]. reflexivity.
    + apply insert_same_slot in Hcol; [| lia]. destruct Hcol as [<- _]. reflexivity.
    + apply insert_same_slot in Hcol; [| lia]. destruct Hcol as [<- _]. reflexivity.
Qed.

End UnsizedTables.

Lemma unsized_table_passes_entries_witness :
  exists decoded,
    process_row_with_binary_masks ref_interpreter ref_float_of_str utc_fromtimestamp_ymd
      (PDict first_row_fields) None [("G1", PNone)] = Ok decoded
    /\ decoded !! 1%nat = Some (PStr "1").
Proof.
  destruct (unsized_table_passes_entries ref_interpreter ref_float_of_str
              utc_fromtimestamp_ymd first_row_fields
              [PInt 1700000000000; PStr "1"; PInt 0; PInt 5; PFloat (S754_zero false)]
              None [("G1", PNone)] 1 "G1" PNone)
    as (decoded & result & cursor & Hdec & Hstate & Hentry).
  - exact first_row_node.
  - reflexivity.
  - exact I.
  - reflexivity.
  - discriminate.
  - reflexivity.
  - reflexivity.
  - reflexivity.
  - reflexivity.
  - exists decoded. split; [exact Hdec |].
    assert (Hat : state_at_column ref_interpreter ref_float_of_str utc_fromtimestamp_ymd
                    (PDict first_row_fields) None [("G1", PNone)] 1
                  = Ok (PStr "2023-11-14" :: replicate 14 PNone, 1%nat)) by reflexivity.
    rewrite Hat in Hstate. injection Hstate as <- <-.
    apply (Hentry (PStr "1") eq_refl).
    intros k Hk. apply index_reading_iff in Hk.
    change (Some (Ok 1) = Some (Ok k)) in Hk. injection Hk as <-. lia.
Defined.

(** A null table under [D0]: an entry of -1 at the installation gives
    the placeholder of -1. *)
Example null_table_sample :
  process_row_with_binary_masks ref_interpreter ref_float_of_str utc_fromtimestamp_ymd
    (PDict [("C", PList [PInt 1700000000000; PInt (-1)]); ("R", PInt 0); ("Ø", PInt 32764)])
    None [("G1", PNone)]
  = Ok (PStr "2023-11-14" :: PStr "Index_-1_OutOfRange" :: replicate 13 PNone).
Proof. reflexivity. Qed.
